(** * NG12 cancer risk assessor: retrieval ranking, evidence gating and
      grounded synthesis

    A shallow embedding of [app/agents/risk_assessor.py] and
    [app/agents/chat_agent.py], with the properties the specification
    states about them.

    Conventions of the embedding.
    - A Python [str] is a [string]; a character is a code point in
      U+0000..U+00FF.  On that range [str.isspace], the regular
      expression class [\s], [str.strip] and [str.lower] are as defined
      below (above U+00FF Python consults the Unicode tables).
    - A patient is the record the spec calls PatientRecord: the lists hold
      free text, a key that is absent (or null) is [None].
    - The retriever and the generative model are oracles of a [Services]
      record; every call is logged, so that "the model was not called" is
      a statement about the log.
    - Exceptions are values: a flow returns an [outcome]. *)

From Stdlib Require Import String Ascii List ZArith Bool Lia Arith.
From Stdlib Require Import Permutation Sorted DecimalString.
From Stdlib Require DecimalFacts DecimalPos DecimalZ.
Import ListNotations.

Open Scope string_scope.
Open Scope Z_scope.

(** ** Python strings *)

Module PyStr.

(** [str.isspace] for one character, which is also the class [\s] of
    [re] on [str] patterns: TAB..CR, FS..US, SPACE, NEL and NBSP. *)
Definition isspace (c : ascii) : bool :=
  let n := N_of_ascii c in
  ((9 <=? n) && (n <=? 13) || (28 <=? n) && (n <=? 32)
   || (n =? 133) || (n =? 160))%N.

(** [str.lower] for one character: A..Z and the Latin-1 capitals
    U+00C0..U+00DE (without the multiplication sign U+00D7) move up by 32. *)
Definition lower_char (c : ascii) : ascii :=
  let n := N_of_ascii c in
  if ((65 <=? n) && (n <=? 90)
      || (192 <=? n) && (n <=? 222) && negb (n =? 215))%N
  then ascii_of_N (n + 32) else c.

Fixpoint lower (s : string) : string :=
  match s with
  | EmptyString => EmptyString
  | String c s' => String (lower_char c) (lower s')
  end.

Fixpoint lstrip (s : string) : string :=
  match s with
  | EmptyString => EmptyString
  | String c s' => if isspace c then lstrip s' else s
  end.

Fixpoint rstrip (s : string) : string :=
  match s with
  | EmptyString => EmptyString
  | String c s' =>
      match rstrip s' with
      | EmptyString => if isspace c then EmptyString else String c EmptyString
      | r => String c r
      end
  end.

(** [s.strip()] *)
Definition strip (s : string) : string := rstrip (lstrip s).

(** [re.sub(r"\s+", " ", s)]: every maximal run of white space becomes one
    space.  [in_run] tells that the previous character was white space. *)
Fixpoint sub_ws_from (in_run : bool) (s : string) : string :=
  match s with
  | EmptyString => EmptyString
  | String c s' =>
      if isspace c
      then if in_run then sub_ws_from true s'
           else String " " (sub_ws_from true s')
      else String c (sub_ws_from false s')
  end.

Definition sub_ws (s : string) : string := sub_ws_from false s.

(** [t in s] for strings: [t] occurs in [s] as a contiguous substring. *)
Fixpoint contains (t s : string) : bool :=
  if prefix t s then true
  else match s with
       | EmptyString => false
       | String _ s' => contains t s'
       end.

(** [sep.join(l)] *)
Fixpoint join (sep : string) (l : list string) : string :=
  match l with
  | [] => ""
  | [x] => x
  | x :: l' => x ++ sep ++ join sep l'
  end.

(** [str(n)] for an [int] *)
Definition str_of_Z (z : Z) : string := NilZero.string_of_int (Z.to_int z).

(** [len(s)] *)
Definition len (s : string) : Z := Z.of_nat (String.length s).

(** [sorted(l)] on strings: ascending in code point order.  The order is
    total and antisymmetric, so the result depends on the multiset only. *)
Fixpoint insert_str (x : string) (l : list string) : list string :=
  match l with
  | [] => [x]
  | y :: l' => if String.leb x y then x :: l else y :: insert_str x l'
  end.

Fixpoint sorted (l : list string) : list string :=
  match l with
  | [] => []
  | x :: l' => insert_str x (sorted l')
  end.

End PyStr.

(** [sorted(l, key=key, reverse=True)]: descending by key and stable, that
    is, elements with equal keys keep the order they have in [l]. *)
Section SortedByKey.
Context {A : Type} (key : A -> Z).

Fixpoint insert_desc (x : A) (l : list A) : list A :=
  match l with
  | [] => [x]
  | y :: l' => if key x <? key y then y :: insert_desc x l' else x :: l
  end.

Fixpoint sorted_desc (l : list A) : list A :=
  match l with
  | [] => []
  | x :: l' => insert_desc x (sorted_desc l')
  end.
End SortedByKey.

(** Both agents define the same [_norm]:
    [re.sub(r"\s+", " ", (s or "").strip().lower())]. *)
Definition _norm (s : string) : string :=
  PyStr.sub_ws (PyStr.lower (PyStr.strip s)).

(** ** Data model *)

(** [app.models.Citation] *)
Record Citation := mkCitation {
  source : string;
  page : Z;
  chunk_id : string;
  excerpt : string
}.

(** A scalar of a patient record, as [json.loads] delivers it. *)
Inductive pyscalar :=
| PNone
| PBool (b : bool)
| PInt (z : Z)
| PStr (s : string).

(** The patient [dict]: one field per key the agents read.  [None] is an
    absent key; for the three lists it is also a null or empty value, which
    [patient.get(k) or []] does not tell apart. *)
Record Patient := mkPatient {
  patient_id : option pyscalar;
  age : option pyscalar;
  sex : option pyscalar;
  gender : option pyscalar;
  duration : option pyscalar;
  symptoms : option (list string);
  findings : option (list string);
  investigations : option (list string)
}.

(** [str(v)] and the truth value of a scalar *)
Definition scalar_str (v : pyscalar) : string :=
  match v with
  | PNone => "None"
  | PBool true => "True"
  | PBool false => "False"
  | PInt z => PyStr.str_of_Z z
  | PStr s => s
  end.

Definition scalar_truthy (v : pyscalar) : bool :=
  match v with
  | PNone => false
  | PBool b => b
  | PInt z => negb (z =? 0)
  | PStr s => negb (String.eqb s "")
  end.

(** [str(patient.get(k, ""))] and the rendering of [patient.get(k, "")] in
    an f-string *)
Definition get_str (f : option pyscalar) : string :=
  match f with
  | None => ""
  | Some v => scalar_str v
  end.

(** the rendering of [patient.get(k)] in an f-string *)
Definition get_or_None (f : option pyscalar) : pyscalar :=
  match f with
  | None => PNone
  | Some v => v
  end.

(** [patient.get(k) or []] *)
Definition get_list (f : option (list string)) : list string :=
  match f with
  | None => []
  | Some l => l
  end.

(** [app.models.AssessResponse]; [category] is one of the four literals of
    the pydantic model. *)
Record AssessResponse := mkAssessResponse {
  ar_patient_id : string;
  category : string;
  rationale : string;
  recommended_action : string;
  citations : list Citation
}.

Definition canonical_categories : list string :=
  ["urgent_referral"; "urgent_investigation"; "no_urgent_action";
   "insufficient_evidence"].

(** A call either returns a value or raises an exception, of which the
    type name and [str(e)] are kept. *)
Inductive outcome (A : Type) :=
| Returned (a : A)
| Raised (exc_type msg : string).
Arguments Returned {A} a.
Arguments Raised {A} exc_type msg.

(** The two external services, and the calls a flow makes to them. *)
Record Services := mkServices {
  (** [NG12Retriever().retrieve(query, top_k=top_k)] *)
  retrieve : string -> Z -> outcome (list Citation);
  (** [GenerativeModel(model).generate_content(prompt, ...)], as the text
      [getattr(resp, "text", "") or ""] *)
  generate : string -> string -> outcome string
}.

Inductive event :=
| EvRetrieve (query : string) (top_k : Z)
| EvGenerate (model prompt : string).

(** What a module reads from the process environment. *)
Record Env := mkEnv {
  GOOGLE_CLOUD_PROJECT : option string;
  NG12_MODEL : string;
  NG12_TOP_K : Z;
  NG12_CHAT_TOP_CITATIONS : Z
}.

(** [_init_vertex()] raises when the project is unset or empty; what
    [vertexai.init] does belongs to the [generate] oracle. *)
Definition project_set (env : Env) : bool :=
  match GOOGLE_CLOUD_PROJECT env with
  | None => false
  | Some p => negb (String.eqb p "")
  end.

(** ** JSON values *)

(** What [json.loads] returns.  A number with a fraction or an exponent,
    and the constants [NaN], [Infinity] and [-Infinity], are Python floats;
    they are kept as the literal that was read. *)
#[local] Unset Elimination Schemes.
Inductive json :=
| JNull
| JBool (b : bool)
| JInt (z : Z)
| JFloat (literal : string)
| JStr (s : string)
| JArr (l : list json)
| JObj (d : list (string * json)).
#[local] Set Elimination Schemes.

(** Induction on a JSON value, with the property for the members of an
    array or an object at hand. *)
Section JsonInduction.
Variable P : json -> Prop.
Hypothesis Hnull : P JNull.
Hypothesis Hbool : forall b, P (JBool b).
Hypothesis Hint : forall z, P (JInt z).
Hypothesis Hfloat : forall lit, P (JFloat lit).
Hypothesis Hstr : forall s, P (JStr s).
Hypothesis Harr : forall l, Forall P l -> P (JArr l).
Hypothesis Hobj : forall d, Forall (fun kv => P (snd kv)) d -> P (JObj d).

Fixpoint json_induction (v : json) : P v :=
  match v with
  | JNull => Hnull
  | JBool b => Hbool b
  | JInt z => Hint z
  | JFloat lit => Hfloat lit
  | JStr s => Hstr s
  | JArr l =>
      Harr l ((fix members (l : list json) : Forall P l :=
                 match l with
                 | [] => Forall_nil P
                 | x :: l' => Forall_cons x (json_induction x) (members l')
                 end) l)
  | JObj d =>
      Hobj d ((fix members (d : list (string * json))
                 : Forall (fun kv => P (snd kv)) d :=
                 match d with
                 | [] => Forall_nil _
                 | kv :: d' =>
                     Forall_cons kv (json_induction (snd kv)) (members d')
                 end) d)
  end.
End JsonInduction.

(** The empty mapping [{}] *)
Definition empty_mapping : json := JObj [].

(** [d[k] = v] on a [dict] kept in insertion order *)
Fixpoint dict_set (k : string) (v : json) (d : list (string * json))
  : list (string * json) :=
  match d with
  | [] => [(k, v)]
  | (k', v') :: d' =>
      if String.eqb k k' then (k, v) :: d' else (k', v') :: dict_set k v d'
  end.

(** [d.get(k)] *)
Fixpoint dict_get (k : string) (d : list (string * json)) : option json :=
  match d with
  | [] => None
  | (k', v) :: d' => if String.eqb k k' then Some v else dict_get k d'
  end.

(** [type(v).__name__] *)
Definition type_name (v : json) : string :=
  match v with
  | JNull => "NoneType"
  | JBool _ => "bool"
  | JInt _ => "int"
  | JFloat _ => "float"
  | JStr _ => "str"
  | JArr _ => "list"
  | JObj _ => "dict"
  end.

(** The parts of the Python runtime that are left open: the truth value
    and the [repr] of a float, the [str] of a list or a dict, and
    [json.dumps(patient, indent=2)], which depends on the keys of the
    patient file that the agents never read. *)
Class PyRuntime := {
  float_truthy : string -> bool;
  float_repr : string -> string;
  container_str : json -> string;
  dumps_patient : Patient -> string
}.

Section Runtime.
Context `{PyRuntime}.

(** [bool(v)] *)
Definition py_truthy (v : json) : bool :=
  match v with
  | JNull => false
  | JBool b => b
  | JInt z => negb (z =? 0)
  | JFloat lit => float_truthy lit
  | JStr s => negb (String.eqb s "")
  | JArr l => match l with [] => false | _ => true end
  | JObj d => match d with [] => false | _ => true end
  end.

(** [str(v)] *)
Definition py_str (v : json) : string :=
  match v with
  | JNull => "None"
  | JBool true => "True"
  | JBool false => "False"
  | JInt z => PyStr.str_of_Z z
  | JFloat lit => float_repr lit
  | JStr s => s
  | JArr _ | JObj _ => container_str v
  end.

(** [str(obj.get(k) or "")] for a [dict] [obj] *)
Definition get_or_empty_str (k : string) (d : list (string * json))
  : string :=
  match dict_get k d with
  | None => ""
  | Some v => if py_truthy v then py_str v else ""
  end.
End Runtime.

(** ** [json.loads] and [json.dumps]

    The decoder follows [json.decoder] and [json.scanner] of CPython (with
    the C scanner's reading of [\uXXXX]: four hexadecimal digits).  Two
    things are outside this model: an escape [\uXXXX] above U+00FF, which
    names a character outside the modelled range and is refused here, and
    the interpreter's limits on recursion depth and on the number of digits
    of an [int]. *)

Module Json.

Definition is_ws (c : ascii) : bool :=
  (Ascii.eqb c " " || Ascii.eqb c "009" || Ascii.eqb c "010"
   || Ascii.eqb c "013")%char.

(** [WHITESPACE.match(s, idx).end()], as the text that is left *)
Fixpoint skip_ws (s : string) : string :=
  match s with
  | String c s' => if is_ws c then skip_ws s' else s
  | EmptyString => EmptyString
  end.

Definition is_digit (c : ascii) : bool :=
  let n := N_of_ascii c in ((48 <=? n) && (n <=? 57))%N.

(** the value of a hexadecimal digit *)
Definition hex_val (c : ascii) : option N :=
  let n := N_of_ascii c in
  if ((48 <=? n) && (n <=? 57))%N then Some (n - 48)%N
  else if ((97 <=? n) && (n <=? 102))%N then Some (n - 87)%N
  else if ((65 <=? n) && (n <=? 70))%N then Some (n - 55)%N
  else None.

(** the longest run of digits, and what follows it *)
Fixpoint span_digits (s : string) : string * string :=
  match s with
  | String c s' =>
      if is_digit c
      then let (d, r) := span_digits s' in (String c d, r)
      else (EmptyString, s)
  | EmptyString => (EmptyString, EmptyString)
  end.

(** [int(lit)] for a literal the number pattern has matched: an optional
    minus sign and decimal digits *)
Definition int_of_literal (lit : string) : Z :=
  match NilZero.int_of_string lit with
  | Some d => Z.of_int d
  | None => 0
  end.

(** [s[idx:idx+len(p)] == p], as the text after [p] *)
Fixpoint strip_prefix (p s : string) : option string :=
  match p, s with
  | EmptyString, _ => Some s
  | String a p', String b s' =>
      if Ascii.eqb a b then strip_prefix p' s' else None
  | String _ _, EmptyString => None
  end.

(** [BACKSLASH]: the one-letter escapes *)
Definition backslash (e : ascii) : option ascii :=
  (if Ascii.eqb e "034" then Some "034"
   else if Ascii.eqb e "\" then Some "\"
   else if Ascii.eqb e "/" then Some "/"
   else if Ascii.eqb e "b" then Some "008"
   else if Ascii.eqb e "f" then Some "012"
   else if Ascii.eqb e "n" then Some "010"
   else if Ascii.eqb e "r" then Some "013"
   else if Ascii.eqb e "t" then Some "009"
   else None)%char.

(** [_decode_uXXXX]: the code point of four hexadecimal digits *)
Definition decode_uXXXX (h1 h2 h3 h4 : ascii) : option N :=
  match hex_val h1, hex_val h2, hex_val h3, hex_val h4 with
  | Some a, Some b, Some c, Some d => Some (((a * 16 + b) * 16 + c) * 16 + d)%N
  | _, _, _, _ => None
  end.

(** [scanstring(s, end, strict=True)], entered after the opening quote:
    the decoded string and the text after the closing quote. *)
Fixpoint scanstring (s : string) : option (string * string) :=
  match s with
  | EmptyString => None
  | String c r =>
      if Ascii.eqb c "034"%char then Some (EmptyString, r)
      else if Ascii.eqb c "\"%char then
        match r with
        | String "u" (String h1 (String h2 (String h3 (String h4 r')))) =>
            match decode_uXXXX h1 h2 h3 h4 with
            | Some n =>
                if (n <=? 255)%N then
                  match scanstring r' with
                  | Some (t, rest) => Some (String (ascii_of_N n) t, rest)
                  | None => None
                  end
                else None
            | None => None
            end
        | String e r' =>
            match backslash e with
            | Some ch =>
                match scanstring r' with
                | Some (t, rest) => Some (String ch t, rest)
                | None => None
                end
            | None => None
            end
        | EmptyString => None
        end
      else if (N_of_ascii c <? 32)%N then None
      else
        match scanstring r with
        | Some (t, rest) => Some (String c t, rest)
        | None => None
        end
  end.

(** [NUMBER_RE]: an optional minus sign, then either a single 0 or a digit
    1..9 followed by digits; then, if it is there, a fraction (a dot and at
    least one digit); then, if it is there, an exponent (e or E, an
    optional sign, at least one digit).  One function per group: the text
    the group matched, empty when it did not, and the text after it. *)
Definition match_int (s : string) : option (string * string) :=
  let (sign, s1) :=
    match s with
    | String "-" r => ("-", r)
    | _ => (EmptyString, s)
    end in
  match s1 with
  | String c r =>
      if is_digit c then
        if Ascii.eqb c "0"%char then Some (sign ++ String c EmptyString, r)
        else let (d, r') := span_digits r in Some (sign ++ String c d, r')
      else None
  | EmptyString => None
  end.

Definition match_frac (s : string) : string * string :=
  match s with
  | String "." r =>
      let (fd, r') := span_digits r in
      match fd with
      | EmptyString => (EmptyString, s)
      | _ => (String "." fd, r')
      end
  | _ => (EmptyString, s)
  end.

Definition match_exp (s : string) : string * string :=
  match s with
  | String e r =>
      if (Ascii.eqb e "e" || Ascii.eqb e "E")%char then
        let (sign, r') :=
          match r with
          | String "+" x => ("+", x)
          | String "-" x => ("-", x)
          | _ => (EmptyString, r)
          end in
        let (ed, r'') := span_digits r' in
        match ed with
        | EmptyString => (EmptyString, s)
        | _ => (String e (sign ++ ed), r'')
        end
      else (EmptyString, s)
  | EmptyString => (EmptyString, s)
  end.

(** [match_number(string, idx)] and the value [_scan_once] builds from
    the groups: an [int] when there is neither fraction nor exponent, a
    float otherwise. *)
Definition match_number (s : string) : option (json * string) :=
  match match_int s with
  | None => None
  | Some (integer, r1) =>
      let (frac, r2) := match_frac r1 in
      let (exp, r3) := match_exp r2 in
      match frac, exp with
      | EmptyString, EmptyString => Some (JInt (int_of_literal integer), r3)
      | _, _ => Some (JFloat (integer ++ frac ++ exp), r3)
      end
  end.

(** the atoms [scan_once] tries after strings, objects and arrays, in its
    order *)
Definition scan_atom (s : string) : option (json * string) :=
  match strip_prefix "null" s with
  | Some r => Some (JNull, r)
  | None =>
  match strip_prefix "true" s with
  | Some r => Some (JBool true, r)
  | None =>
  match strip_prefix "false" s with
  | Some r => Some (JBool false, r)
  | None =>
  match match_number s with
  | Some res => Some res
  | None =>
  match strip_prefix "NaN" s with
  | Some r => Some (JFloat "NaN", r)
  | None =>
  match strip_prefix "Infinity" s with
  | Some r => Some (JFloat "Infinity", r)
  | None =>
  match strip_prefix "-Infinity" s with
  | Some r => Some (JFloat "-Infinity", r)
  | None => None
  end end end end end end end.

(** [scan_once], [JSONObject] and [JSONArray].  They call each other; the
    first argument bounds the number of nested calls, and any number
    above the length of the text is enough ([scan_once_fuel] below).
    [object_members] is the [while] loop of [JSONObject], entered after the
    quote that opens a key; [array_items] is the loop of [JSONArray]. *)
Fixpoint scan_once (fuel : nat) (s : string) : option (json * string) :=
  match fuel with
  | O => None
  | S fuel' =>
      match s with
      | String "034" r =>
          match scanstring r with
          | Some (t, rest) => Some (JStr t, rest)
          | None => None
          end
      | String "{" r =>
          match skip_ws r with
          | String "}" rest => Some (JObj [], rest)
          | String "034" r' =>
              match object_members fuel' [] r' with
              | Some (d, rest) => Some (JObj d, rest)
              | None => None
              end
          | _ => None
          end
      | String "[" r =>
          match skip_ws r with
          | String "]" rest => Some (JArr [], rest)
          | r' =>
              match array_items fuel' r' with
              | Some (l, rest) => Some (JArr l, rest)
              | None => None
              end
          end
      | _ => scan_atom s
      end
  end

with object_members (fuel : nat) (acc : list (string * json)) (s : string)
  : option (list (string * json) * string) :=
  match fuel with
  | O => None
  | S fuel' =>
      match scanstring s with
      | None => None
      | Some (key, r) =>
          match skip_ws r with
          | String ":" r1 =>
              match scan_once fuel' (skip_ws r1) with
              | None => None
              | Some (value, r2) =>
                  let acc' := dict_set key value acc in
                  match skip_ws r2 with
                  | String "}" rest => Some (acc', rest)
                  | String "," r3 =>
                      match skip_ws r3 with
                      | String "034" r4 => object_members fuel' acc' r4
                      | _ => None
                      end
                  | _ => None
                  end
              end
          | _ => None
          end
      end
  end

with array_items (fuel : nat) (s : string) : option (list json * string) :=
  match fuel with
  | O => None
  | S fuel' =>
      match scan_once fuel' s with
      | None => None
      | Some (value, r) =>
          match skip_ws r with
          | String "]" rest => Some ([value], rest)
          | String "," r1 =>
              match array_items fuel' (skip_ws r1) with
              | Some (l, rest) => Some (value :: l, rest)
              | None => None
              end
          | _ => None
          end
      end
  end.

(** [json.loads(s)]: [None] stands for a [JSONDecodeError]. *)
Definition loads (s : string) : option json :=
  let s0 := skip_ws s in
  match scan_once (S (String.length s0)) s0 with
  | Some (v, r) =>
      match skip_ws r with
      | EmptyString => Some v
      | _ => None
      end
  | None => None
  end.

(** [json.dumps] *)

Definition hex_digit (n : N) : ascii :=
  if (n <? 10)%N then ascii_of_N (48 + n) else ascii_of_N (87 + n).

(** [ESCAPE_ASCII.sub(replace, s)] for one character *)
Definition escape_char (c : ascii) : string :=
  let n := N_of_ascii c in
  if Ascii.eqb c "\"%char then "\\"
  else if Ascii.eqb c "034"%char then String "\" (String "034" EmptyString)
  else if Ascii.eqb c "008"%char then "\b"
  else if Ascii.eqb c "012"%char then "\f"
  else if Ascii.eqb c "010"%char then "\n"
  else if Ascii.eqb c "013"%char then "\r"
  else if Ascii.eqb c "009"%char then "\t"
  else if ((32 <=? n) && (n <=? 126))%N then String c EmptyString
  else String "\" (String "u" (String "0" (String "0"
         (String (hex_digit (n / 16)) (String (hex_digit (n mod 16))
            EmptyString))))).

Fixpoint escape (s : string) : string :=
  match s with
  | EmptyString => EmptyString
  | String c s' => escape_char c ++ escape s'
  end.

(** [encode_basestring_ascii] *)
Definition encode_string (s : string) : string :=
  String "034" (escape s ++ String "034" EmptyString).

Section Dumps.
Context `{PyRuntime}.

Fixpoint dumps (v : json) : string :=
  match v with
  | JNull => "null"
  | JBool true => "true"
  | JBool false => "false"
  | JInt z => PyStr.str_of_Z z
  | JFloat lit => float_repr lit
  | JStr s => encode_string s
  | JArr l => "[" ++ PyStr.join ", " (map dumps l) ++ "]"
  | JObj d =>
      "{" ++ PyStr.join ", "
               (map (fun kv => encode_string (fst kv) ++ ": "
                               ++ dumps (snd kv)) d) ++ "}"
  end.
End Dumps.

End Json.

(** ** Text shared by the two agents *)

Definition nl : string := String "010" EmptyString.
Definition dq : string := String "034" EmptyString.

(** [re.search(r"\{.*\}", text, flags=re.DOTALL)]: from the first opening
    brace to the last closing brace after it. *)
Fixpoint from_first_open (s : string) : option string :=
  match s with
  | EmptyString => None
  | String c r => if Ascii.eqb c "{"%char then Some s else from_first_open r
  end.

Fixpoint upto_last_close (s : string) : option string :=
  match s with
  | EmptyString => None
  | String c r =>
      match upto_last_close r with
      | Some t => Some (String c t)
      | None => if Ascii.eqb c "}"%char then Some (String c EmptyString)
                else None
      end
  end.

Definition search_braces (text : string) : option string :=
  match from_first_open text with
  | Some s => upto_last_close s
  | None => None
  end.

(** [_extract_json], the same function in both agents *)
Definition _extract_json (text : string) : json :=
  let text := PyStr.strip text in
  match Json.loads text with
  | Some v => v
  | None =>
      match search_braces text with
      | Some m =>
          match Json.loads m with
          | Some v => v
          | None => empty_mapping
          end
      | None => empty_mapping
      end
  end.

(** The message of the [AttributeError] of [obj.get] on a value that is
    not a [dict] *)
Definition no_get_message (v : json) : string :=
  "'" ++ type_name v ++ "' object has no attribute 'get'".

(** ** [app/agents/risk_assessor.py] *)

Module risk_assessor.

(** The message of the [RuntimeError] of [_init_vertex] *)
Definition init_vertex_message : string :=
  "GOOGLE_CLOUD_PROJECT is not set. Example:" ++ nl
  ++ "  $env:GOOGLE_CLOUD_PROJECT=" ++ dq ++ "your-project-id" ++ dq ++ nl
  ++ "  $env:GOOGLE_CLOUD_LOCATION=" ++ dq ++ "us-central1" ++ dq.

Definition _stable_query (patient : Patient) : string :=
  let age := get_str (age patient) in
  let sex := get_str (sex patient) in
  let duration := get_str (duration patient) in
  let symptoms := get_list (symptoms patient) in
  let symptoms_sorted := PyStr.join ", " (PyStr.sorted (map _norm symptoms)) in
  "NICE NG12 suspected cancer recognition and referral." ++ nl
  ++ "Patient: age=" ++ age ++ ", sex=" ++ sex ++ ", duration=" ++ duration
  ++ nl
  ++ "Symptoms: " ++ symptoms_sorted ++ nl
  ++ "Question: Based on NG12, what is the recommended next action and urgency category?".

(** the test that guards both the +60 and the +80 *)
Definition urgent_language (text : string) : bool :=
  PyStr.contains "suspected cancer pathway" text
  || PyStr.contains "urgent investigation" text
  || PyStr.contains "urgent referral" text.

Definition mentions_ct (text : string) : bool :=
  PyStr.contains "ct scan" text || PyStr.contains "direct access ct" text.

Definition overlap_keywords : list string :=
  ["weight loss"; "change in bowel habit"; "bowel habit"; "abdominal pain";
   "upper abdominal pain"; "ct scan"].

Definition _score_citation (c : Citation) (patient : Patient) : Z :=
  let text := _norm (excerpt c) in
  let symptoms := map _norm (get_list (symptoms patient)) in
  let has_weight_loss := existsb (PyStr.contains "weight loss") symptoms in
  let has_bowel_change :=
    existsb (fun s => PyStr.contains "change in bowel" s
                      || PyStr.contains "bowel habit" s) symptoms in
  let has_abdominal_pain :=
    existsb (PyStr.contains "abdominal pain") symptoms
    || existsb (PyStr.contains "upper abdominal pain") symptoms in
  let score := 0 in
  let score := if urgent_language text then score + 60 else score in
  let score :=
    if has_weight_loss && has_bowel_change then
      let score := if urgent_language text then score + 80 else score in
      if mentions_ct text then score - 20 else score
    else score in
  let score :=
    if has_weight_loss && has_abdominal_pain && mentions_ct text
    then score + 15 else score in
  let score :=
    fold_left (fun score kw =>
                 if PyStr.contains kw text then score + 3 else score)
              overlap_keywords score in
  score + Z.min (PyStr.len text / 200) 5.

Definition _rank_citations (citations : list Citation) (patient : Patient)
  : list Citation :=
  sorted_desc (fun c => _score_citation c patient) citations.

Definition _map_category (cat : string) : string :=
  let c := _norm cat in
  if existsb (String.eqb c) ["urgent_referral"; "urgent referral"]
  then "urgent_referral"
  else if existsb (String.eqb c)
            ["urgent_investigation"; "urgent investigation"]
  then "urgent_investigation"
  else if existsb (String.eqb c)
            ["no_urgent_action"; "no urgent action"; "routine"]
  then "no_urgent_action"
  else if existsb (String.eqb c)
            ["insufficient_evidence"; "insufficient evidence"; "uncertain"]
  then "insufficient_evidence"
  else "urgent_investigation".

Section Flow.
Context `{PyRuntime} (env : Env) (svc : Services).

Definition assess_prompt (patient : Patient) (best : Citation) : string :=
  PyStr.strip
    (nl
     ++ "You are a clinical decision support assistant." ++ nl
     ++ "You MUST ground your answer only in the NG12 excerpt below." ++ nl
     ++ nl
     ++ "Patient JSON:" ++ nl
     ++ dumps_patient patient ++ nl
     ++ nl
     ++ "NG12 excerpt (primary evidence):" ++ nl
     ++ "Source: " ++ source best ++ nl
     ++ "Page: " ++ PyStr.str_of_Z (page best) ++ nl
     ++ "Chunk: " ++ chunk_id best ++ nl
     ++ "Text:" ++ nl
     ++ excerpt best ++ nl
     ++ nl
     ++ "Return ONLY a JSON object with these keys:" ++ nl
     ++ "- category: one of [" ++ dq ++ "urgent_referral" ++ dq ++ ","
     ++ dq ++ "urgent_investigation" ++ dq ++ ","
     ++ dq ++ "no_urgent_action" ++ dq ++ ","
     ++ dq ++ "insufficient_evidence" ++ dq ++ "]" ++ nl
     ++ "- rationale: short, quote/point to the excerpt wording" ++ nl
     ++ "- recommended_action: short, actionable, aligned with the excerpt"
     ++ nl).

(** the [try] block of [assess_patient]: [_init_vertex()], then the call
    of the model, then [_extract_json]; with the calls it made *)
Definition generate_object (prompt : string)
  : list event * outcome json :=
  if project_set env then
    ([EvGenerate (NG12_MODEL env) prompt],
     match generate svc (NG12_MODEL env) prompt with
     | Returned text => Returned (_extract_json text)
     | Raised ty msg => Raised ty msg
     end)
  else ([], Raised "RuntimeError" init_vertex_message).

(** the [except] block: a result grounded in the excerpt alone *)
Definition model_failed (pid : string) (best : Citation)
  (exc_type msg : string) : AssessResponse :=
  let excerpt_norm := _norm (excerpt best) in
  if PyStr.contains "suspected cancer pathway" excerpt_norm
     || PyStr.contains "urgent referral" excerpt_norm
  then mkAssessResponse pid "urgent_referral"
         "NG12 excerpt indicates a suspected cancer pathway referral."
         "Refer using a suspected cancer pathway referral."
         [best]
  else if PyStr.contains "urgent investigation" excerpt_norm
  then mkAssessResponse pid "urgent_investigation"
         "NG12 excerpt indicates urgent investigation."
         "Offer urgent investigation."
         [best]
  else mkAssessResponse pid "insufficient_evidence"
         ("Model failed: " ++ exc_type ++ ": " ++ msg
          ++ ". Returning best available citation.")
         "Follow NG12 guidance as per the cited excerpt."
         [best].

(** what follows the [try] statement, for the [dict] the model returned *)
Definition from_object (pid : string) (best : Citation)
  (obj : list (string * json)) : AssessResponse :=
  let category :=
    _map_category (match dict_get "category" obj with
                   | Some v => py_str v
                   | None => ""
                   end) in
  let rationale := PyStr.strip (get_or_empty_str "rationale" obj) in
  let action := PyStr.strip (get_or_empty_str "recommended_action" obj) in
  let rationale :=
    if String.eqb rationale ""
    then "Recommendation is grounded in the retrieved NG12 excerpt."
    else rationale in
  let '(action, category) :=
    if String.eqb action "" then
      let excerpt_norm := _norm (excerpt best) in
      if PyStr.contains "suspected cancer pathway" excerpt_norm
         || PyStr.contains "urgent referral" excerpt_norm
      then ("Refer using a suspected cancer pathway referral.",
            "urgent_referral")
      else if PyStr.contains "urgent investigation" excerpt_norm
      then ("Offer urgent investigation.", "urgent_investigation")
      else ("Follow NG12 guidance as per the cited excerpt.", category)
    else (action, category) in
  mkAssessResponse pid category rationale action [best].

Definition assess_patient (patient : Patient)
  : list event * outcome AssessResponse :=
  let query := _stable_query patient in
  let pid := get_str (patient_id patient) in
  let log := [EvRetrieve query (NG12_TOP_K env)] in
  match retrieve svc query (NG12_TOP_K env) with
  | Raised ty msg =>
      (log,
       Returned
         (mkAssessResponse pid "insufficient_evidence"
            ("Retrieval failed: " ++ ty ++ ": " ++ msg)
            "Retry retrieval or review NG12 guidance manually."
            []))
  | Returned [] =>
      (log,
       Returned
         (mkAssessResponse pid "insufficient_evidence"
            "No relevant NG12 guidance could be retrieved for the given symptoms."
            "Review NG12 guidance manually and consider clinical review."
            []))
  | Returned citations =>
      let ranked := _rank_citations citations patient in
      match ranked with
      | [] => (log, Raised "IndexError" "list index out of range")
      | best :: _ =>
          let prompt := assess_prompt patient best in
          let (calls, generated) := generate_object prompt in
          ((log ++ calls)%list,
           match generated with
           | Raised ty msg => Returned (model_failed pid best ty msg)
           | Returned (JObj obj) => Returned (from_object pid best obj)
           | Returned v => Raised "AttributeError" (no_get_message v)
           end)
      end
  end.
End Flow.

End risk_assessor.

(** ** [app/agents/chat_agent.py] *)

Module chat_agent.

(** The right single quotation mark U+2019 of the two fixed sentences lies
    above U+00FF; it is written as its three UTF-8 bytes.  The sentences
    are only ever returned or compared as a whole. *)
Definition rsquo : string := String "226" (String "128" (String "153" "")).

Definition no_excerpt_sentence : string :=
  "I couldn" ++ rsquo
  ++ "t retrieve a relevant NG12 excerpt for that question.".

Definition refusal_sentence : string :=
  "I can" ++ rsquo ++ "t find that in the provided NG12 excerpts.".

(** The message of the [RuntimeError] of this module's [_init_vertex] *)
Definition init_vertex_message : string :=
  "GOOGLE_CLOUD_PROJECT is not set." ++ nl
  ++ "Example:" ++ nl
  ++ "  $env:GOOGLE_CLOUD_PROJECT=" ++ dq ++ "your-project-id" ++ dq ++ nl
  ++ "  $env:GOOGLE_CLOUD_LOCATION=" ++ dq ++ "us-central1" ++ dq.

Definition match_keywords : list string :=
  ["weight loss"; "change in bowel"; "bowel habit"; "abdominal pain";
   "upper abdominal pain"].

Definition _score_citation (c : Citation) (patient : Patient)
  (message : string) : Z :=
  let text := _norm (excerpt c) in
  let msg := _norm message in
  let symptoms := map _norm (get_list (symptoms patient)) in
  let findings := map _norm (get_list (findings patient)) in
  let patient_text := PyStr.join " " (symptoms ++ findings)%list in
  let score := 0 in
  let score :=
    if PyStr.contains "refer using a suspected cancer pathway referral" text
    then score + 120 else score in
  let score :=
    if PyStr.contains "suspected cancer pathway referral" text
    then score + 90 else score in
  let score :=
    if PyStr.contains "offer urgent investigation" text
    then score + 80 else score in
  let score :=
    if PyStr.contains "urgent referral" text then score + 60 else score in
  let score :=
    fold_left (fun score kw =>
                 if PyStr.contains kw text
                    && (PyStr.contains kw patient_text
                        || PyStr.contains kw msg)
                 then score + 10 else score)
              match_keywords score in
  let score :=
    if PyStr.contains "recommendations organised by symptom" text
    then score - 40 else score in
  score + Z.min (PyStr.len text / 250) 6.

Definition _rank_citations (citations : list Citation) (patient : Patient)
  (message : string) : list Citation :=
  sorted_desc (fun c => _score_citation c patient message) citations.

Definition gated_terms : list string :=
  ["splenomegaly"; "lymphadenopathy"; "night sweats"; "fever"; "pruritus"].

(** the text the gate compares against *)
Definition patient_terms (patient : Patient) : string :=
  PyStr.join " "
    (map _norm (get_list (symptoms patient)
                ++ get_list (findings patient)
                ++ get_list (investigations patient))%list).

(** the [for] loop of the gate: [False] at the first term that is in the
    excerpt and not in the patient's text *)
Fixpoint gate_loop (terms : list string) (text patient_terms : string)
  : bool :=
  match terms with
  | [] => true
  | term :: terms' =>
      if PyStr.contains term text && negb (PyStr.contains term patient_terms)
      then false
      else gate_loop terms' text patient_terms
  end.

Definition _citation_supported_by_patient (c : Citation) (patient : Patient)
  : bool :=
  let text := _norm (excerpt c) in
  gate_loop gated_terms text (patient_terms patient).

(** [enumerate(citations)] rendered as the evidence block, from number [i] *)
Fixpoint evidence_entries (i : Z) (citations : list Citation) : list string :=
  match citations with
  | [] => []
  | c :: rest =>
      ("Evidence " ++ PyStr.str_of_Z (i + 1) ++ ":" ++ nl
       ++ "Source: " ++ source c ++ nl
       ++ "Page: " ++ PyStr.str_of_Z (page c) ++ nl
       ++ "Chunk: " ++ chunk_id c ++ nl
       ++ "Text:" ++ nl ++ excerpt c)
      :: evidence_entries (i + 1) rest
  end.

Section Flow.
Context `{PyRuntime} (env : Env) (svc : Services).

Definition chat_query (patient : Patient) (message : string) : string :=
  let age := get_or_None (age patient) in
  let sex :=
    let s := get_or_None (sex patient) in
    if scalar_truthy s then s else get_or_None (gender patient) in
  let symptoms := get_list (symptoms patient) in
  let findings := get_list (findings patient) in
  let nonempty := fun s => negb (String.eqb s "") in
  let symptom_text := PyStr.join "; " (filter nonempty symptoms) in
  let finding_text := PyStr.join "; " (filter nonempty findings) in
  PyStr.strip
    ("NG12 suspected cancer pathway referral urgent investigation. "
     ++ "Patient age " ++ scalar_str age ++ ", sex " ++ scalar_str sex
     ++ ". "
     ++ "Symptoms: " ++ symptom_text ++ ". Findings: " ++ finding_text
     ++ ". "
     ++ "Question: " ++ message).

Definition chat_prompt (patient : Patient) (message : string)
  (citations : list Citation) : string :=
  let evidence_block :=
    PyStr.join (nl ++ nl) (evidence_entries 0 citations) in
  PyStr.strip
    (nl
     ++ "You are a clinical decision support assistant." ++ nl
     ++ nl
     ++ "RULES:" ++ nl
     ++ "- Use ONLY the provided Evidence." ++ nl
     ++ "- If not supported by Evidence, say exactly:" ++ nl
     ++ "  " ++ dq ++ refusal_sentence ++ dq ++ nl
     ++ "- Do NOT invent findings." ++ nl
     ++ "- Keep the answer concise and specific to the patient." ++ nl
     ++ nl
     ++ "Patient:" ++ nl
     ++ dumps_patient patient ++ nl
     ++ nl
     ++ "User question:" ++ nl
     ++ message ++ nl
     ++ nl
     ++ "Evidence:" ++ nl
     ++ evidence_block ++ nl
     ++ nl
     ++ "Return ONLY JSON:" ++ nl
     ++ "{" ++ nl
     ++ "  " ++ dq ++ "answer" ++ dq ++ ": " ++ dq ++ "string" ++ dq ++ nl
     ++ "}" ++ nl).

(** [answer_question]: the answer and its citations, or the exception
    that leaves the function, with the calls made to the services *)
Definition answer_question (patient : Patient) (message : string)
  : list event * outcome (string * list Citation) :=
  let top_k := NG12_TOP_K env in
  let top_citations := NG12_CHAT_TOP_CITATIONS env in
  let model_name := NG12_MODEL env in
  let query := chat_query patient message in
  let log := [EvRetrieve query top_k] in
  match retrieve svc query top_k with
  | Raised ty msg => (log, Raised ty msg)
  | Returned raw =>
      let ranked := _rank_citations raw patient message in
      let filtered :=
        filter (fun c => _citation_supported_by_patient c patient) ranked in
      let citations :=
        firstn (Z.to_nat (Z.max 1 top_citations)) filtered in
      match citations with
      | [] => (log, Returned (no_excerpt_sentence, []))
      | _ =>
          if project_set env then
            let prompt := chat_prompt patient message citations in
            ((log ++ [EvGenerate model_name prompt])%list,
             match generate svc model_name prompt with
             | Raised ty msg => Raised ty msg
             | Returned text =>
                 match _extract_json text with
                 | JObj obj =>
                     let answer :=
                       PyStr.strip (get_or_empty_str "answer" obj) in
                     let answer :=
                       if String.eqb answer "" then refusal_sentence
                       else answer in
                     Returned (answer, citations)
                 | v => Raised "AttributeError" (no_get_message v)
                 end
             end)
          else (log, Raised "RuntimeError" init_vertex_message)
      end
  end.
End Flow.

End chat_agent.

(** ** Notions the properties are stated with *)

(** [t] occurs in [s]: [s] is [a ++ t ++ b] for some [a] and [b]. *)
Definition occurs (t s : string) : Prop :=
  exists a b : string, s = a ++ t ++ b.

(** The entries of a patient's record that can support an excerpt: the
    symptoms, the findings and the investigations. *)
Definition record_entries (P : Patient) : list string :=
  (get_list (symptoms P) ++ get_list (findings P)
   ++ get_list (investigations P))%list.

(** The patient's normalized combined symptom, finding and investigation
    text: the entries, each in normal form, with a space between one and
    the next. *)
Definition record_text (P : Patient) : string :=
  PyStr.join " " (map _norm (record_entries P)).

(** [l'] keeps the order of [l] among elements of equal key: for every
    key value, the elements that have it form the same sequence in both. *)
Definition keeps_ties {A : Type} (key : A -> Z) (l l' : list A) : Prop :=
  forall k : Z,
    filter (fun x => key x =? k) l' = filter (fun x => key x =? k) l.

(** descending by key *)
Definition descending {A : Type} (key : A -> Z) (l : list A) : Prop :=
  StronglySorted (fun a b => key b <= key a) l.

(** The phrase that names the referral pathway, and the three phrases of
    urgent language: the pathway phrase and the two generic urgency
    phrases.  The assess-flow scorer tests an excerpt for the three
    together, for the +60 and, for weight loss with a change in bowel
    habit, for the +80. *)
Definition referral_pathway_phrase : string := "suspected cancer pathway".

Definition urgent_phrases : list string :=
  [referral_pathway_phrase; "urgent investigation"; "urgent referral"].

(** The words of a text: its maximal runs of characters that are not
    white space, as [str.split()] gives them. *)
Fixpoint words (s : string) : list string :=
  match s with
  | EmptyString => []
  | String c s' =>
      if PyStr.isspace c then words s'
      else
        match s' with
        | EmptyString => [String c EmptyString]
        | String d _ =>
            if PyStr.isspace d then String c EmptyString :: words s'
            else
              match words s' with
              | w :: ws => String c w :: ws
              | [] => [String c EmptyString]
              end
        end
  end.

(** Two entries that differ in casing and white space only: the same
    words, up to case. *)
Definition same_entry (a b : string) : Prop :=
  map PyStr.lower (words a) = map PyStr.lower (words b).

(** Two symptom lists that differ in the order of their entries and in
    the casing and white space of each entry only. *)
Definition same_symptoms (l1 l2 : list string) : Prop :=
  exists l1', Permutation l1 l1' /\ Forall2 same_entry l1' l2.

(** [s] spells the category [c] up to case and up to writing a space for
    an underscore: character by character, [s] has the letter of [c] in
    either case, or a space where [c] has an underscore. *)
Fixpoint spells (c s : string) : bool :=
  match c, s with
  | EmptyString, EmptyString => true
  | String x c', String y s' =>
      (Ascii.eqb (PyStr.lower_char y) x
       || Ascii.eqb x "_" && Ascii.eqb y " ")%char
      && spells c' s'
  | _, _ => false
  end.

(** the category written with a space for every underscore *)
Fixpoint spaced (c : string) : string :=
  match c with
  | EmptyString => EmptyString
  | String x c' =>
      String (if Ascii.eqb x "_"%char then " "%char else x) (spaced c')
  end.

(** the spellings [_map_category] recognises, after [_norm] *)
Definition recognised_spellings : list string :=
  ["urgent_referral"; "urgent referral";
   "urgent_investigation"; "urgent investigation";
   "no_urgent_action"; "no urgent action"; "routine";
   "insufficient_evidence"; "insufficient evidence"; "uncertain"].

(** the strings of a list are pairwise different *)
Fixpoint distinct (l : list string) : bool :=
  match l with
  | [] => true
  | x :: l' => negb (existsb (String.eqb x) l') && distinct l'
  end.

(** A JSON value of this model that [json.dumps] and [json.loads] carry
    unchanged: no float in it, and no key twice in an object. *)
Fixpoint well_formed (v : json) : bool :=
  match v with
  | JFloat _ => false
  | JArr l => forallb well_formed l
  | JObj d =>
      distinct (map fst d) && forallb (fun kv => well_formed (snd kv)) d
  | _ => true
  end.

(** a text without the character [c] *)
Fixpoint free_of (c : ascii) (s : string) : bool :=
  match s with
  | EmptyString => true
  | String x s' => negb (Ascii.eqb x c) && free_of c s'
  end.

(** what may follow a value inside a JSON text: nothing, a comma, or a
    closing bracket or brace *)
Definition ends_value (rest : string) : bool :=
  match rest with
  | EmptyString => true
  | String c _ =>
      (Ascii.eqb c "," || Ascii.eqb c "]" || Ascii.eqb c "}")%char
  end.

(** the characters [json.dumps] starts a value with *)
Definition value_start (c : ascii) : bool :=
  (Json.is_digit c || Ascii.eqb c "-" || Ascii.eqb c "034"
   || Ascii.eqb c "[" || Ascii.eqb c "{" || Ascii.eqb c "n"
   || Ascii.eqb c "t" || Ascii.eqb c "f")%char.

(** Reading back what [dumps] wrote, whatever follows the value, with any
    bound that is at least the length of the value's text. *)
Definition reads_back `{PyRuntime} (v : json) : Prop :=
  well_formed v = true ->
  forall (rest : string) (fuel : nat),
    ends_value rest = true ->
    (String.length (Json.dumps v) <= fuel)%nat ->
    Json.scan_once fuel (Json.dumps v ++ rest) = Some (v, rest).


(** ** Example data *)

Module Examples.

(** A runtime for the examples; no example reads a float or prints a
    container. *)
Definition runtime : PyRuntime := {|
  float_truthy := fun _ => true;
  float_repr := fun lit => lit;
  container_str := fun _ => "[]";
  dumps_patient := fun _ => "{}"
|}.

Definition env : Env := {|
  GOOGLE_CLOUD_PROJECT := Some "demo-project";
  NG12_MODEL := "gemini-2.0-flash-001";
  NG12_TOP_K := 10;
  NG12_CHAT_TOP_CITATIONS := 3
|}.

(** weight loss and a change in bowel habit, with abdominal pain *)
Definition bowel_patient : Patient := {|
  patient_id := Some (PStr "PT-101");
  age := Some (PInt 62);
  sex := Some (PStr "male");
  gender := None;
  duration := Some (PStr "6 weeks");
  symptoms := Some ["Weight loss"; "Change in bowel habit"; "Abdominal pain"];
  findings := None;
  investigations := None
|}.

(** the same patient, the symptoms in another order, case and spacing *)
Definition bowel_patient_variant : Patient := {|
  patient_id := Some (PStr "PT-101");
  age := Some (PInt 62);
  sex := Some (PStr "male");
  gender := None;
  duration := Some (PStr "6 weeks");
  symptoms := Some ["abdominal  pain"; " WEIGHT LOSS"; "change in Bowel habit "];
  findings := None;
  investigations := None
|}.

(** a patient with a cough and nothing else on record *)
Definition cough_patient : Patient := {|
  patient_id := Some (PStr "PT-202");
  age := Some (PInt 40);
  sex := Some (PStr "female");
  gender := None;
  duration := None;
  symptoms := Some ["Persistent cough"];
  findings := Some [];
  investigations := None
|}.

(** a record of a patients file whose symptom list holds a number, and
    a patients file with that record *)
Definition ill_typed_record : list (string * json) :=
  [("patient_id", JStr "PT-404"); ("age", JInt 58);
   ("symptoms", JArr [JStr "Weight loss"; JInt 3])].

Definition ill_typed_patients_file : string :=
  "[{" ++ dq ++ "patient_id" ++ dq ++ ": " ++ dq ++ "PT-404" ++ dq ++ ", "
  ++ dq ++ "age" ++ dq ++ ": 58, "
  ++ dq ++ "symptoms" ++ dq ++ ": [" ++ dq ++ "Weight loss" ++ dq
  ++ ", 3]}]".

Definition pathway_citation : Citation :=
  mkCitation "NG12 PDF" 12 "p12-c3"
    "Refer adults using a suspected cancer pathway referral for colorectal cancer.".

Definition ct_citation : Citation :=
  mkCitation "NG12 PDF" 30 "p30-c1"
    "Consider a direct access CT scan for weight loss with abdominal pain, upper abdominal pain or a change in bowel habit.".

(** an excerpt that recommends direct-access CT in urgent language, and
    names no referral pathway *)
Definition urgent_ct_citation : Citation :=
  mkCitation "NG12 PDF" 31 "p31-c2"
    "Offer urgent investigation with a direct access CT scan for weight loss with abdominal pain or a change in bowel habit.".

Definition investigation_citation : Citation :=
  mkCitation "NG12 PDF" 18 "p18-c2"
    "Offer urgent investigation within 2 weeks.".

Definition plain_citation : Citation :=
  mkCitation "NG12 PDF" 5 "p5-c1" "Safety netting and follow up.".

(** excerpts that name a sign the cough patient does not have *)
Definition fever_citation : Citation :=
  mkCitation "NG12 PDF" 44 "p44-c2"
    "Fever with unexplained lymphadenopathy: urgent referral.".

Definition sweats_citation : Citation :=
  mkCitation "NG12 PDF" 45 "p45-c1"
    "Night sweats and pruritus: offer urgent investigation.".

(** services: the retriever returns [cands]; the model raises, or answers
    [text] *)
Definition failing_model (cands : list Citation) : Services := {|
  retrieve := fun _ _ => Returned cands;
  generate := fun _ _ => Raised "ServiceUnavailable" "503 backend down"
|}.

Definition answering_model (cands : list Citation) (text : string)
  : Services := {|
  retrieve := fun _ _ => Returned cands;
  generate := fun _ _ => Returned text
|}.

(** a model answer with a category and an action, and no rationale *)
Definition answer_without_rationale : string :=
  "{" ++ dq ++ "category" ++ dq ++ ": " ++ dq ++ "no_urgent_action" ++ dq
  ++ ", " ++ dq ++ "recommended_action" ++ dq ++ ": "
  ++ dq ++ "Reassure and review." ++ dq ++ "}".

(** a model answer with a category and a rationale, and no action *)
Definition answer_without_action : string :=
  "{" ++ dq ++ "category" ++ dq ++ ": " ++ dq ++ "no_urgent_action" ++ dq
  ++ ", " ++ dq ++ "rationale" ++ dq ++ ": "
  ++ dq ++ "The excerpt asks for investigation." ++ dq ++ "}".


End Examples.

(** * The rest of the application *)

(** ** Slices and number formats *)

(** An index of a slice [s[i:j]] of a text of length [n]: a negative index
    counts from the end, and the result is clipped to [0..n]. *)
Definition slice_index (n i : Z) : Z :=
  if i <? 0 then Z.max 0 (i + n) else Z.min i n.

(** [s[i:j]] *)
Definition slice (s : string) (i j : Z) : string :=
  let n := PyStr.len s in
  let a := slice_index n i in
  let b := slice_index n j in
  substring (Z.to_nat a) (Z.to_nat (b - a)) s.

Fixpoint zeros (n : nat) : string :=
  match n with
  | O => EmptyString
  | S n' => String "0" (zeros n')
  end.

(** [digits.rjust(width, "0")] *)
Definition zero_padded (width : nat) (digits : string) : string :=
  zeros (width - String.length digits) ++ digits.

(** [format(z, "0Wd")], the [{z:0Wd}] of an f-string: the decimal digits
    with zeros in front up to the width; the sign comes first and counts
    for the width. *)
Definition format_0d (width : nat) (z : Z) : string :=
  if z <? 0 then "-" ++ zero_padded (width - 1) (PyStr.str_of_Z (- z))
  else zero_padded width (PyStr.str_of_Z z).

(** ** [app/rag/chunking.py] *)

Module chunking.

Record Chunk := mkChunk {
  chunk_id : string;
  page : Z;
  text : string
}.

(** The [while] loop of [simple_chunk_text], from the values [start],
    [idx] and [chunks] have when the condition is tested.  The first
    argument bounds the number of iterations; [None] says that the bound
    was reached. *)
Fixpoint chunk_loop (fuel : nat) (clean : string)
  (page chunk_size overlap start idx : Z) (chunks : list Chunk)
  : option (list Chunk) :=
  match fuel with
  | O => None
  | S fuel' =>
      if start <? PyStr.len clean then
        let end_ := Z.min (PyStr.len clean) (start + chunk_size) in
        let chunk_text := PyStr.strip (slice clean start end_) in
        let '(chunks, idx) :=
          if String.eqb chunk_text "" then (chunks, idx)
          else
            let chunk_id :=
              "ng12_" ++ format_0d 4 page ++ "_" ++ format_0d 2 idx in
            ((chunks ++ [mkChunk chunk_id page chunk_text])%list, idx + 1) in
        if end_ =? PyStr.len clean then Some chunks
        else chunk_loop fuel' clean page chunk_size overlap
               (Z.max 0 (end_ - overlap)) idx chunks
      else Some chunks
  end.

(** [simple_chunk_text(text, page, chunk_size, overlap)].  The loop is
    given one iteration more than the text has characters; [None] then
    says that the loop does not end, as is proved below. *)
Definition simple_chunk_text (text : string) (page chunk_size overlap : Z)
  : option (list Chunk) :=
  let clean := PyStr.join " " (words text) in
  if String.eqb clean "" then Some []
  else chunk_loop (S (String.length clean)) clean page chunk_size overlap
         0 0 [].

(** the default values of the two last parameters *)
Definition default_chunk_size : Z := 1200.
Definition default_overlap : Z := 200.

End chunking.

(** ** [app/rag/ingest_pdf.py]: chunking *)

Module ingest_pdf.

Record Chunk := mkChunk {
  chunk_id : string;
  page : Z;
  text : string
}.

(** the [while] loop of [chunk_text] *)
Fixpoint chunk_text_loop (fuel : nat) (text : string)
  (chunk_size overlap start : Z) (chunks : list string)
  : option (list string) :=
  match fuel with
  | O => None
  | S fuel' =>
      let n := PyStr.len text in
      if start <? n then
        let end_ := Z.min (start + chunk_size) n in
        let chunk := PyStr.strip (slice text start end_) in
        let chunks :=
          if String.eqb chunk "" then chunks else (chunks ++ [chunk])%list in
        if end_ =? n then Some chunks
        else chunk_text_loop fuel' text chunk_size overlap
               (Z.max 0 (end_ - overlap)) chunks
      else Some chunks
  end.

(** [chunk_text(text, chunk_size, overlap)]; [None] when the loop does not
    end *)
Definition chunk_text (text : string) (chunk_size overlap : Z)
  : option (list string) :=
  let text := PyStr.join " " (words text) in
  if String.eqb text "" then Some []
  else chunk_text_loop (S (String.length text)) text chunk_size overlap
         0 [].

(** the inner loop of [build_chunks]: the pieces of one page, numbered
    from [idx] *)
Fixpoint page_chunks (idx page_i : Z) (pieces : list string) : list Chunk :=
  match pieces with
  | [] => []
  | piece :: rest =>
      mkChunk ("c" ++ format_0d 4 idx) page_i piece
      :: page_chunks (idx + 1) page_i rest
  end.

(** the outer loop of [build_chunks], over [enumerate(pages)] from page
    [page_i] *)
Fixpoint build_chunks_from (CHUNK_SIZE CHUNK_OVERLAP : Z)
  (page_i idx : Z) (pages : list string) (chunks : list Chunk)
  : option (list Chunk) :=
  match pages with
  | [] => Some chunks
  | page_text :: rest =>
      match chunk_text page_text CHUNK_SIZE CHUNK_OVERLAP with
      | None => None
      | Some pieces =>
          build_chunks_from CHUNK_SIZE CHUNK_OVERLAP (page_i + 1)
            (idx + Z.of_nat (List.length pieces)) rest
            (chunks ++ page_chunks idx page_i pieces)%list
      end
  end.

(** [build_chunks(pages)], for the values [CHUNK_SIZE] and [CHUNK_OVERLAP]
    the module has read from the environment *)
Definition build_chunks (CHUNK_SIZE CHUNK_OVERLAP : Z) (pages : list string)
  : option (list Chunk) :=
  build_chunks_from CHUNK_SIZE CHUNK_OVERLAP 0 0 pages [].

End ingest_pdf.

(** ** [app/rag/retriever.py]: [NG12Retriever.retrieve] *)

Module retriever.

Section Retrieve.
(** [self.meta]: the entries of [meta.json], each the [asdict] of a chunk
    as [save_outputs] of [ingest_pdf] writes it (the keys [chunk_id],
    [page] and [text]; no key [source]) *)
Variable meta : list ingest_pdf.Chunk.
(** [embed_query_vertex], [_as_faiss_query] and [self.index.search]: the
    row [ids[0]] of neighbours, or the exception one of them raises *)
Variable search : string -> Z -> outcome (list Z).

(** the [for] loop over [ids[0]] *)
Fixpoint citations_loop (ids : list Z) (citations : list Citation)
  : outcome (list Citation) :=
  match ids with
  | [] => Returned citations
  | idx :: rest =>
      if idx <? 0 then citations_loop rest citations
      else
        match nth_error meta (Z.to_nat idx) with
        | None => Raised "IndexError" "list index out of range"
        | Some m =>
            citations_loop rest
              (citations
               ++ [mkCitation "NG12 PDF" (ingest_pdf.page m)
                     (ingest_pdf.chunk_id m)
                     (slice (ingest_pdf.text m) 0 500)])%list
        end
  end.

Definition retrieve (query : string) (top_k : Z) : outcome (list Citation) :=
  match search query top_k with
  | Raised ty msg => Raised ty msg
  | Returned ids => citations_loop ids []
  end.
End Retrieve.

End retriever.

(** ** [app/models.py]: the chat models *)

Module models.

Record Message := mkMessage {
  role : string;
  content : string
}.

(** [Message(role=role, content=content)] for two strings: the model
    accepts the two literals of [role] and refuses every other value with
    a [ValidationError] ([None]). *)
Definition new_Message (role content : string) : option Message :=
  if String.eqb role "user" || String.eqb role "assistant"
  then Some (mkMessage role content)
  else None.

Record ChatResponse := mkChatResponse {
  patient_id : string;
  answer : string;
  citations : list Citation;
  history : list Message
}.

End models.

(** ** [app/memory/session_store.py] *)

Module session_store.

(** [_STORE]: a [dict] from patient ids to lists of messages, in insertion
    order *)
Definition store : Type := list (string * list models.Message).

(** [_STORE.get(k)] *)
Fixpoint get (k : string) (st : store) : option (list models.Message) :=
  match st with
  | [] => None
  | (k', v) :: st' => if String.eqb k k' then Some v else get k st'
  end.

(** [_STORE[k] = v] *)
Fixpoint setitem (k : string) (v : list models.Message) (st : store)
  : store :=
  match st with
  | [] => [(k, v)]
  | (k', v') :: st' =>
      if String.eqb k k' then (k, v) :: st' else (k', v') :: setitem k v st'
  end.

(** [_STORE.pop(k, None)]: the mapping without the key *)
Definition pop (k : string) (st : store) : store :=
  filter (fun kv => negb (String.eqb k (fst kv))) st.

(** How a call ends: it returns, or the construction of the message
    raises. *)
Inductive ended := Done | ValidationError.

(** [add_message(patient_id, role, content)]: the store after the call,
    and how the call ended.  The key is entered before the message is
    built. *)
Definition add_message (st : store) (patient_id role content : string)
  : store * ended :=
  let st :=
    match get patient_id st with
    | None => setitem patient_id [] st
    | Some _ => st
    end in
  match models.new_Message role content with
  | None => (st, ValidationError)
  | Some m =>
      let l := match get patient_id st with
               | Some l => l
               | None => []
               end in
      (setitem patient_id (l ++ [m])%list st, Done)
  end.

(** [get_history(patient_id)] *)
Definition get_history (st : store) (patient_id : string)
  : list models.Message :=
  match get patient_id st with
  | Some l => l
  | None => []
  end.

(** [clear(patient_id)] *)
Definition clear (st : store) (patient_id : string) : store :=
  pop patient_id st.

End session_store.

(** ** [app/tools/patient_lookup.py] *)

Module patient_lookup.

(** the [for] loop over a list of patients: the first [dict] whose
    [patient_id] is the string asked for *)
Fixpoint first_with_id (patient_id : string) (patients : list json)
  : option (list (string * json)) :=
  match patients with
  | [] => None
  | JObj p :: rest =>
      match dict_get "patient_id" p with
      | Some (JStr s) =>
          if String.eqb s patient_id then Some p
          else first_with_id patient_id rest
      | _ => first_with_id patient_id rest
      end
  | _ :: rest => first_with_id patient_id rest
  end.

(** [get_patient(patient_id)] for the text of [data/patients.json];
    [None] as the first argument when the file does not exist. *)
Definition get_patient (patients_file : option string) (patient_id : string)
  : option (list (string * json)) :=
  match patients_file with
  | None => None
  | Some content =>
      let raw := PyStr.strip content in
      if String.eqb raw "" then None
      else
        match Json.loads raw with
        | None => None
        | Some (JObj patients) =>
            match dict_get patient_id patients with
            | Some (JObj p) => Some p
            | _ => None
            end
        | Some (JArr patients) => first_with_id patient_id patients
        | Some _ => None
        end
  end.

End patient_lookup.

(** ** [app/main.py]: the request handlers *)

Module main.

(** A handler returns a body, or raises an [HTTPException]. *)
Inductive response (A : Type) :=
| OK (body : A)
| HTTPException (status_code : Z) (detail : string).
Arguments OK {A} body.
Arguments HTTPException {A} status_code detail.

Section Handlers.
Context `{PyRuntime} (env : Env) (svc : Services).
(** the text of the patients file at the time of the request *)
Variable patients_file : option string.
(** the patient record the agents read in the [dict] of a patient *)
Variable as_patient : list (string * json) -> Patient.

(** [get_patient(req.patient_id)] followed by [if not patient]: an empty
    [dict] counts as no patient. *)
Definition found_patient (patient_id : string)
  : option (list (string * json)) :=
  match patient_lookup.get_patient patients_file patient_id with
  | None => None
  | Some [] => None
  | Some p => Some p
  end.

(** [POST /assess] *)
Definition assess (patient_id : string)
  : list event * response AssessResponse :=
  match found_patient patient_id with
  | None => ([], HTTPException 404 "Patient not found")
  | Some patient =>
      let (log, result) :=
        risk_assessor.assess_patient env svc (as_patient patient) in
      (log,
       match result with
       | Returned r => OK r
       | Raised _ msg => HTTPException 500 msg
       end)
  end.

(** [POST /chat]: the store after the request, the calls made to the
    services, and the response *)
Definition chat (st : session_store.store) (patient_id message : string)
  : session_store.store * list event * response models.ChatResponse :=
  match found_patient patient_id with
  | None => (st, [], HTTPException 404 "Patient not found")
  | Some patient =>
      let st := fst (session_store.add_message st patient_id "user" message) in
      let (log, result) :=
        chat_agent.answer_question env svc (as_patient patient) message in
      match result with
      | Raised _ msg => (st, log, HTTPException 500 msg)
      | Returned (answer, citations) =>
          if String.eqb answer "" then
            (st, log,
             HTTPException 500
               "answer_question() did not return an answer in a supported format.")
          else
            let st :=
              fst (session_store.add_message st patient_id "assistant"
                     answer) in
            (st, log,
             OK (models.mkChatResponse patient_id answer citations
                   (session_store.get_history st patient_id)))
      end
  end.

(** [GET /history/{patient_id}]: the history of the response *)
Definition history (st : session_store.store) (patient_id : string)
  : list models.Message :=
  session_store.get_history st patient_id.

(** [DELETE /history/{patient_id}]: the store after the request; the body
    is always the status [cleared] with the id *)
Definition delete_history (st : session_store.store) (patient_id : string)
  : session_store.store * (string * string) :=
  (session_store.clear st patient_id, ("cleared", patient_id)).
End Handlers.

End main.

(** ** More notions the properties are stated with *)

(** a text of white space only (the empty text is one) *)
Fixpoint blank (s : string) : bool :=
  match s with
  | EmptyString => true
  | String c s' => PyStr.isspace c && blank s'
  end.

(** a text without a white space character *)
Fixpoint no_space (s : string) : bool :=
  match s with
  | EmptyString => true
  | String c s' => negb (PyStr.isspace c) && no_space s'
  end.

(** a word: one character at least, and no white space *)
Definition wordy (w : string) : Prop := w <> "" /\ no_space w = true.

(** the id [simple_chunk_text] gives to the chunk number [idx] of a page *)
Definition ng12_chunk_id (page idx : Z) : string :=
  "ng12_" ++ format_0d 4 page ++ "_" ++ format_0d 2 idx.

(** the id [build_chunks] gives to the chunk number [idx] of the document *)
Definition doc_chunk_id (idx : Z) : string := "c" ++ format_0d 4 idx.

(** the normalized text the two chunkers cut: the words of the text,
    joined by single spaces *)
Definition clean_text (text : string) : string := PyStr.join " " (words text).

(** the ids of a row of neighbours that stand for an entry: FAISS fills a
    row that has fewer neighbours with -1 *)
Definition entry_ids (ids : list Z) : list Z :=
  filter (fun idx => negb (idx <? 0)) ids.

(** the phrases the assess-flow scorer looks for in an excerpt *)
Definition assess_scored_phrases : list string :=
  ["suspected cancer pathway"; "urgent investigation"; "urgent referral";
   "ct scan"; "direct access ct"; "weight loss"; "change in bowel habit";
   "bowel habit"; "abdominal pain"; "upper abdominal pain"].

(** the phrases the chat-flow scorer looks for in an excerpt *)
Definition chat_scored_phrases : list string :=
  ["refer using a suspected cancer pathway referral";
   "suspected cancer pathway referral"; "offer urgent investigation";
   "urgent referral"; "weight loss"; "change in bowel"; "bowel habit";
   "abdominal pain"; "upper abdominal pain";
   "recommendations organised by symptom"].

(** two excerpts in which the same phrases of a list occur *)
Definition same_phrases (phrases : list string) (c1 c2 : Citation) : Prop :=
  forall kw : string,
    In kw phrases ->
    PyStr.contains kw (_norm (excerpt c1))
    = PyStr.contains kw (_norm (excerpt c2)).

(** ** More example data *)

Module Samples.

(** a text in double quotes *)
Definition q (s : string) : string := dq ++ s ++ dq.

(** a patients file in the list layout, with a line feed at its end *)
Definition patients_text : string :=
  "[{" ++ q "patient_id" ++ ": " ++ q "PT-202" ++ ", "
  ++ q "age" ++ ": 40, " ++ q "sex" ++ ": " ++ q "female" ++ ", "
  ++ q "symptoms" ++ ": [" ++ q "Persistent cough" ++ "], "
  ++ q "findings" ++ ": []}, {"
  ++ q "patient_id" ++ ": " ++ q "PT-303" ++ "}]" ++ nl.

(** the records of that file *)
Definition cough_record : list (string * json) :=
  [("patient_id", JStr "PT-202"); ("age", JInt 40); ("sex", JStr "female");
   ("symptoms", JArr [JStr "Persistent cough"]); ("findings", JArr [])].

Definition bare_record : list (string * json) :=
  [("patient_id", JStr "PT-303")].

(** the patient record of a [dict] whose fields have the types of the data
    model: scalars, and lists of strings *)
Definition scalar_of (v : option json) : option pyscalar :=
  match v with
  | Some JNull => Some PNone
  | Some (JBool b) => Some (PBool b)
  | Some (JInt z) => Some (PInt z)
  | Some (JStr s) => Some (PStr s)
  | _ => None
  end.

Fixpoint strings_in (l : list json) : list string :=
  match l with
  | JStr s :: l' => s :: strings_in l'
  | _ :: l' => strings_in l'
  | [] => []
  end.

Definition strings_of (v : option json) : option (list string) :=
  match v with
  | Some (JArr l) => Some (strings_in l)
  | _ => None
  end.

Definition record_of (d : list (string * json)) : Patient := {|
  patient_id := scalar_of (dict_get "patient_id" d);
  age := scalar_of (dict_get "age" d);
  sex := scalar_of (dict_get "sex" d);
  gender := scalar_of (dict_get "gender" d);
  duration := scalar_of (dict_get "duration" d);
  symptoms := strings_of (dict_get "symptoms" d);
  findings := strings_of (dict_get "findings" d);
  investigations := strings_of (dict_get "investigations" d)
|}.

(** a model answer for the chat flow *)
Definition chat_answer_text : string :=
  "{" ++ q "answer" ++ ": " ++ q "Offer safety netting." ++ "}".

(** a page of text, with runs of white space *)
Definition page_text : string := "alpha beta  gamma delta ".

Fixpoint copies (n : nat) (s : string) : string :=
  match n with
  | O => EmptyString
  | S n' => s ++ copies n' s
  end.

(** metadata of two chunks; the second text has 600 characters *)
Definition long_text : string := copies 100 "abcdef".

Definition meta : list ingest_pdf.Chunk :=
  [ingest_pdf.mkChunk "c0000" 0 "Safety netting and follow up.";
   ingest_pdf.mkChunk "c0001" 1 long_text].

(** a search that finds the second entry, then the first, and pads the
    row *)
Definition search : string -> Z -> outcome (list Z) :=
  fun _ _ => Returned [1; 0; -1].

End Samples.

(** ** The query builder on the record as [get_patient] returns it

    [get_patient] hands the agents a [dict] as [json.loads] has built it;
    nothing checks the types of its values.  This is [_norm] and
    [_stable_query] of [app/agents/risk_assessor.py] for such a [dict]:
    what they return, or the exception they raise. *)

Module any_record.

Section Builder.
Context `{PyRuntime}.

(** [_norm(s)] for any value: [(s or "")] is the value itself when it is
    true, and only a [str] has the method [strip]. *)
Definition _norm (s : json) : outcome string :=
  if py_truthy s then
    match s with
    | JStr t => Returned (_norm t)
    | _ =>
        Raised "AttributeError"
          ("'" ++ type_name s ++ "' object has no attribute 'strip'")
    end
  else Returned (_norm "").

(** the characters of a [str], as a [for] loop over it yields them *)
Fixpoint chars (s : string) : list json :=
  match s with
  | EmptyString => []
  | String c s' => JStr (String c EmptyString) :: chars s'
  end.

(** [iter(v)]: the items of a list, the characters of a string, the keys
    of a dict; nothing else among the values of JSON can be iterated. *)
Definition iter (v : json) : outcome (list json) :=
  match v with
  | JArr l => Returned l
  | JStr s => Returned (chars s)
  | JObj d => Returned (map (fun kv => JStr (fst kv)) d)
  | _ =>
      Raised "TypeError" ("'" ++ type_name v ++ "' object is not iterable")
  end.

(** [[_norm(x) for x in items]]: the first call that raises ends the
    loop. *)
Fixpoint norm_each (items : list json) : outcome (list string) :=
  match items with
  | [] => Returned []
  | x :: rest =>
      match _norm x with
      | Raised ty msg => Raised ty msg
      | Returned s =>
          match norm_each rest with
          | Raised ty msg => Raised ty msg
          | Returned r => Returned (s :: r)
          end
      end
  end.

Definition _stable_query (patient : list (string * json)) : outcome string :=
  let age :=
    match dict_get "age" patient with Some v => v | None => JStr "" end in
  let sex :=
    match dict_get "sex" patient with Some v => v | None => JStr "" end in
  let duration :=
    match dict_get "duration" patient with
    | Some v => v
    | None => JStr ""
    end in
  let symptoms :=
    match dict_get "symptoms" patient with
    | Some v => if py_truthy v then v else JArr []
    | None => JArr []
    end in
  match iter symptoms with
  | Raised ty msg => Raised ty msg
  | Returned items =>
      match norm_each items with
      | Raised ty msg => Raised ty msg
      | Returned normed =>
          let symptoms_sorted := PyStr.join ", " (PyStr.sorted normed) in
          Returned
            ("NICE NG12 suspected cancer recognition and referral." ++ nl
             ++ "Patient: age=" ++ py_str age ++ ", sex=" ++ py_str sex
             ++ ", duration=" ++ py_str duration ++ nl
             ++ "Symptoms: " ++ symptoms_sorted ++ nl
             ++ "Question: Based on NG12, what is the recommended next action and urgency category?")
      end
  end.

End Builder.

End any_record.

(** ** Records of the data model among all records *)

(** the strings of a list of JSON values that holds strings only *)
Fixpoint texts (items : list json) : option (list string) :=
  match items with
  | [] => Some []
  | JStr s :: rest =>
      match texts rest with
      | Some l => Some (s :: l)
      | None => None
      end
  | _ :: _ => None
  end.

(** The free-text symptom list of a record: the entries of the list under
    [symptoms] when they are all strings, no entry when the key is
    missing or null; [None] for a record that has anything else there. *)
Definition symptom_texts (d : list (string * json)) : option (list string) :=
  match dict_get "symptoms" d with
  | None => Some []
  | Some JNull => Some []
  | Some (JArr items) => texts items
  | Some _ => None
  end.

(** An entry the builder can normalize: a string, or a value that counts
    as false (null, [false], 0, an empty string, list or object). *)
Definition entry_ok `{PyRuntime} (x : json) : bool :=
  negb (py_truthy x) || match x with JStr _ => true | _ => false end.

(** A value under [symptoms] the builder can read: one that counts as
    false, a list of entries it can normalize, a string or an object. *)
Definition readable `{PyRuntime} (v : json) : bool :=
  negb (py_truthy v)
  || match v with
     | JArr items => forallb entry_ok items
     | JStr _ | JObj _ => true
     | _ => false
     end.

(** The segment of the query for a field: the value as text, and nothing
    for a missing field. *)
Definition segment `{PyRuntime} (k : string) (d : list (string * json))
  : string :=
  match dict_get k d with
  | None => ""
  | Some v => py_str v
  end.

(** ascending in code point order *)
Definition ascending (l : list string) : Prop :=
  StronglySorted (fun a b => String.leb a b = true) l.

(** The [dict] of a record of the data model: a key for every field that
    is there. *)
Definition json_of_scalar (v : pyscalar) : json :=
  match v with
  | PNone => JNull
  | PBool b => JBool b
  | PInt z => JInt z
  | PStr s => JStr s
  end.

Definition scalar_item (k : string) (f : option pyscalar)
  : list (string * json) :=
  match f with
  | None => []
  | Some v => [(k, json_of_scalar v)]
  end.

Definition list_item (k : string) (f : option (list string))
  : list (string * json) :=
  match f with
  | None => []
  | Some l => [(k, JArr (map JStr l))]
  end.

Definition dict_of (P : Patient) : list (string * json) :=
  (scalar_item "patient_id" (patient_id P)
   ++ scalar_item "age" (age P)
   ++ scalar_item "sex" (sex P)
   ++ scalar_item "gender" (gender P)
   ++ scalar_item "duration" (duration P)
   ++ list_item "symptoms" (symptoms P)
   ++ list_item "findings" (findings P)
   ++ list_item "investigations" (investigations P))%list.

(** * Properties *)

(** ** Substrings *)

Lemma string_app_assoc (a b c : string) : (a ++ b) ++ c = a ++ (b ++ c).
Proof. induction a as [|x a IH]; simpl; [reflexivity | now rewrite IH]. Qed.

Lemma prefix_app (t s : string) :
  prefix t s = true <-> exists b, s = t ++ b.
Proof.
  revert s; induction t as [|c t IH]; intros s; simpl.
  - split; [intros _; now exists s | now destruct s].
  - destruct s as [|d s]; simpl.
    + split; [discriminate | intros [b Hb]; discriminate].
    + destruct (ascii_dec c d) as [->|Hcd].
      * rewrite IH. split; intros [b Hb]; exists b; congruence.
      * split; [discriminate | intros [b Hb]; congruence].
Qed.

Lemma contains_unfold (t s : string) :
  PyStr.contains t s
  = if prefix t s then true
    else match s with
         | EmptyString => false
         | String _ s' => PyStr.contains t s'
         end.
Proof. destruct s; reflexivity. Qed.

Lemma contains_occurs (t s : string) :
  PyStr.contains t s = true <-> occurs t s.
Proof.
  induction s as [|c s IH]; rewrite contains_unfold.
  - destruct (prefix t "") eqn:E.
    + split; [intros _ | reflexivity].
      apply prefix_app in E as [b Hb]. now exists "", b.
    + split; [discriminate|].
      intros [a [b Hab]]. destruct a; simpl in Hab; [|discriminate].
      assert (prefix t "" = true) by (apply prefix_app; now exists b).
      congruence.
  - destruct (prefix t (String c s)) eqn:E.
    + split; [intros _ | reflexivity].
      apply prefix_app in E as [b Hb]. now exists "", b.
    + rewrite IH. split.
      * intros [a [b Hab]]. exists (String c a), b. simpl. now rewrite Hab.
      * intros [a [b Hab]]. destruct a as [|d a]; simpl in Hab.
        -- assert (prefix t (String c s) = true)
             by (apply prefix_app; now exists b).
           congruence.
        -- injection Hab as _ Hs. now exists a, b.
Qed.

Lemma contains_false_iff (t s : string) :
  PyStr.contains t s = false <-> ~ occurs t s.
Proof.
  rewrite <- contains_occurs.
  destruct (PyStr.contains t s); intuition congruence.
Qed.

(** ** The evidence gate *)

Lemma gate_loop_false (terms : list string) (text pt : string) :
  chat_agent.gate_loop terms text pt = false <->
  exists term, In term terms
               /\ PyStr.contains term text = true
               /\ PyStr.contains term pt = false.
Proof.
  induction terms as [|t terms IH]; simpl.
  - split; [discriminate | intros [? [[] _]]].
  - destruct (PyStr.contains t text) eqn:Et;
      destruct (PyStr.contains t pt) eqn:Ep; simpl.
    + rewrite IH. split.
      * intros [u [Hin Hu]]. exists u. auto.
      * intros [u [[<-|Hin] [Hu1 Hu2]]]; [congruence | exists u; auto].
    + split; [intros _; exists t; auto | reflexivity].
    + rewrite IH. split.
      * intros [u [Hin Hu]]. exists u. auto.
      * intros [u [[<-|Hin] [Hu1 Hu2]]]; [congruence | exists u; auto].
    + rewrite IH. split.
      * intros [u [Hin Hu]]. exists u. auto.
      * intros [u [[<-|Hin] [Hu1 Hu2]]]; [congruence | exists u; auto].
Qed.

(** *** A term without a space lies inside one entry *)

Lemma occurs_cons (t : string) (c : ascii) (s : string) :
  occurs t s -> occurs t (String c s).
Proof. intros [a [b ->]]. now exists (String c a), b. Qed.

Lemma occurs_app_left (t a b : string) : occurs t a -> occurs t (a ++ b).
Proof.
  intros [p [q ->]]. exists p, (q ++ b).
  now rewrite <- !string_app_assoc.
Qed.

Lemma occurs_app_right (t a b : string) : occurs t b -> occurs t (a ++ b).
Proof.
  intros [p [q ->]]. exists (a ++ p), q. now rewrite <- string_app_assoc.
Qed.

(** a text without [c] that starts [a ++ c :: b] lies within [a] *)
Lemma prefix_before_char (c : ascii) (t q a b : string) :
  free_of c t = true -> t ++ q = a ++ String c b -> exists q', a = t ++ q'.
Proof.
  revert a. induction t as [|x t IH]; intros a Hf E.
  - now exists a.
  - simpl in Hf. apply andb_true_iff in Hf as [Hx Hf].
    destruct a as [|y a]; simpl in E; injection E as -> E.
    + rewrite Ascii.eqb_refl in Hx. discriminate.
    + destruct (IH a Hf E) as [q' ->]. now exists q'.
Qed.

Lemma occurs_around_char (c : ascii) (t a b : string) :
  free_of c t = true -> t <> "" ->
  occurs t (a ++ String c b) -> occurs t a \/ occurs t b.
Proof.
  intros Hf Hne [p [q E]]. revert a E.
  induction p as [|d p IH]; intros a E.
  - simpl in E. symmetry in E.
    destruct (prefix_before_char c t q a b Hf E) as [q' ->].
    left. now exists "", q'.
  - destruct a as [|y a]; simpl in E; injection E as <- E.
    + right. now exists p, q.
    + destruct (IH a E) as [Ho|Ho]; [left | now right].
      now apply occurs_cons.
Qed.

Lemma join_more (sep x : string) (l : list string) :
  l <> [] -> PyStr.join sep (x :: l) = x ++ sep ++ PyStr.join sep l.
Proof. destruct l; [congruence | reflexivity]. Qed.

Lemma occurs_in_joined_entry (t x : string) (l : list string) :
  In x l -> occurs t x -> occurs t (PyStr.join " " l).
Proof.
  induction l as [|y l IH]; intros Hin Ho; [destruct Hin|].
  destruct l as [|z l].
  - destruct Hin as [->|[]]. exact Ho.
  - rewrite join_more by discriminate. destruct Hin as [->|Hin].
    + now apply occurs_app_left.
    + apply occurs_app_right. apply occurs_cons. now apply IH.
Qed.

Lemma occurs_in_some_entry (t : string) (l : list string) :
  free_of " " t = true -> t <> "" ->
  occurs t (PyStr.join " " l) -> exists x, In x l /\ occurs t x.
Proof.
  intros Hf Hne. induction l as [|y l IH]; intros Ho.
  - exfalso. destruct Ho as [a [b E]]. simpl in E.
    destruct a; simpl in E; [|discriminate].
    destruct t; [congruence | discriminate].
  - destruct l as [|z l].
    + exists y. split; [now left | exact Ho].
    + rewrite join_more in Ho by discriminate.
      destruct (occurs_around_char " " t y _ Hf Hne Ho) as [H1|H2].
      * exists y. split; [now left | exact H1].
      * destruct (IH H2) as [x [Hin Hx]]. exists x. split; [now right|].
        exact Hx.
Qed.

(** C1.  The evidence gate rejects a candidate exactly when one of the five
    gated terms (splenomegaly, lymphadenopathy, night sweats, fever,
    pruritus) occurs in the normalized excerpt and does not occur in the
    patient's normalized combined symptom, finding and investigation text,
    that is, in the normalized entries of the three lists joined by single
    spaces; one such term is enough, and the gate reads nothing of the
    candidate but its excerpt, so rank and score play no part.  Otherwise
    it accepts.  A term that occurs in a normalized entry of one of the
    three lists occurs in the patient's text, and for the four terms of one
    word there is no other way to occur in it. *)
Theorem gate_rejects_iff_gated_term_unsupported :
  chat_agent.gated_terms
  = ["splenomegaly"; "lymphadenopathy"; "night sweats"; "fever"; "pruritus"]
  /\ (forall (E : Citation) (P : Patient),
        chat_agent._citation_supported_by_patient E P = false <->
        exists term,
          In term chat_agent.gated_terms
          /\ occurs term (_norm (excerpt E))
          /\ ~ occurs term (record_text P))
  /\ (forall (E : Citation) (P : Patient),
        chat_agent._citation_supported_by_patient E P = true <->
        forall term,
          In term chat_agent.gated_terms ->
          occurs term (_norm (excerpt E)) ->
          occurs term (record_text P))
  /\ (forall (E E' : Citation) (P : Patient),
        excerpt E = excerpt E' ->
        chat_agent._citation_supported_by_patient E P
        = chat_agent._citation_supported_by_patient E' P)
  /\ (forall (P : Patient) (term entry : string),
        In entry (get_list (symptoms P))
        \/ In entry (get_list (findings P))
        \/ In entry (get_list (investigations P)) ->
        occurs term (_norm entry) ->
        occurs term (record_text P))
  /\ (forall (P : Patient) (term : string),
        In term ["splenomegaly"; "lymphadenopathy"; "fever"; "pruritus"] ->
        occurs term (record_text P) ->
        exists entry,
          (In entry (get_list (symptoms P))
           \/ In entry (get_list (findings P))
           \/ In entry (get_list (investigations P)))
          /\ occurs term (_norm entry)).
Proof.
  assert (Hrej : forall E P,
    chat_agent._citation_supported_by_patient E P = false <->
    exists term, In term chat_agent.gated_terms
      /\ occurs term (_norm (excerpt E))
      /\ ~ occurs term (record_text P)).
  { intros E P. unfold chat_agent._citation_supported_by_patient.
    rewrite gate_loop_false.
    change (chat_agent.patient_terms P) with (record_text P).
    split; intros [t [Hin [H1 H2]]]; exists t.
    - rewrite <- contains_occurs, <- contains_false_iff. auto.
    - rewrite contains_occurs, contains_false_iff. auto. }
  split; [reflexivity|]. split; [exact Hrej|]. split; [|split; [|split]].
  - intros E P. split.
    + intros Ht term Hin Hocc.
      destruct (PyStr.contains term (record_text P)) eqn:Ec.
      * now apply contains_occurs.
      * apply contains_false_iff in Ec.
        assert (chat_agent._citation_supported_by_patient E P = false)
          by (apply Hrej; exists term; auto).
        congruence.
    + intros Hall.
      destruct (chat_agent._citation_supported_by_patient E P) eqn:Eg;
        [reflexivity|].
      apply Hrej in Eg as [t [Hin [H1 H2]]]. exfalso. apply H2. auto.
  - intros E E' P Heq. unfold chat_agent._citation_supported_by_patient.
    now rewrite Heq.
  - intros P term entry Hin Ho. unfold record_text.
    apply (occurs_in_joined_entry term (_norm entry)); [|exact Ho].
    apply in_map. unfold record_entries. rewrite !in_app_iff. tauto.
  - intros P term Hterm Ho. unfold record_text in Ho.
    assert (Hf : free_of " " term = true /\ term <> "").
    { simpl in Hterm.
      destruct Hterm as [<-|[<-|[<-|[<-|[]]]]]; split;
        solve [reflexivity | discriminate]. }
    destruct (occurs_in_some_entry term _ (proj1 Hf) (proj2 Hf) Ho)
      as [x [Hin Hx]].
    apply in_map_iff in Hin as [entry [<- Hin]].
    exists entry. split; [|exact Hx].
    unfold record_entries in Hin. rewrite !in_app_iff in Hin. tauto.
Qed.

(** ** Ranking: [sorted(..., key=..., reverse=True)] *)

Section SortedDescFacts.
Context {A : Type} (key : A -> Z).

Lemma insert_desc_perm (x : A) (l : list A) :
  Permutation (insert_desc key x l) (x :: l).
Proof.
  induction l as [|y l IH]; simpl; [reflexivity|].
  destruct (key x <? key y); [|reflexivity].
  rewrite IH. apply perm_swap.
Qed.

Lemma sorted_desc_perm (l : list A) : Permutation (sorted_desc key l) l.
Proof.
  induction l as [|x l IH]; simpl; [constructor|].
  rewrite insert_desc_perm. now constructor.
Qed.

Lemma insert_desc_descending (x : A) (l : list A) :
  descending key l -> descending key (insert_desc key x l).
Proof.
  unfold descending. induction 1 as [|y l Hs IH Hy]; simpl.
  - repeat constructor.
  - destruct (key x <? key y) eqn:E.
    + constructor; [assumption|].
      eapply Permutation_Forall; [symmetry; apply insert_desc_perm|].
      constructor; [apply Z.ltb_lt in E; lia | assumption].
    + apply Z.ltb_ge in E. constructor.
      * now constructor.
      * constructor; [assumption|].
        eapply Forall_impl; [|exact Hy]. simpl. intros; lia.
Qed.

Lemma sorted_desc_descending (l : list A) :
  descending key (sorted_desc key l).
Proof.
  induction l as [|x l IH]; simpl.
  - constructor.
  - now apply insert_desc_descending.
Qed.

Lemma insert_desc_keeps_ties (x : A) (l : list A) :
  keeps_ties key (x :: l) (insert_desc key x l).
Proof.
  intros k. induction l as [|y l IH]; simpl; [reflexivity|].
  destruct (key x <? key y) eqn:E; [|reflexivity].
  apply Z.ltb_lt in E. simpl. rewrite IH. simpl.
  destruct (key x =? k) eqn:Ex; [|reflexivity].
  apply Z.eqb_eq in Ex.
  assert ((key y =? k) = false) as -> by (apply Z.eqb_neq; lia).
  reflexivity.
Qed.

Lemma sorted_desc_keeps_ties (l : list A) :
  keeps_ties key l (sorted_desc key l).
Proof.
  intros k. induction l as [|x l IH]; simpl; [reflexivity|].
  rewrite (insert_desc_keeps_ties x (sorted_desc key l) k). simpl.
  now rewrite IH.
Qed.

Lemma keeps_ties_in (l1 l2 : list A) (x : A) :
  keeps_ties key l1 l2 -> (In x l1 <-> In x l2).
Proof.
  intros Ht. specialize (Ht (key x)).
  assert (Hx : forall l, In x l <-> In x (filter (fun y => key y =? key x) l)).
  { intros l. rewrite filter_In, Z.eqb_refl. tauto. }
  rewrite (Hx l1), (Hx l2), Ht. reflexivity.
Qed.

(** A descending list is determined by the sequences of its elements of
    equal key: there is one stable descending arrangement. *)
Lemma descending_ties_unique (l1 l2 : list A) :
  descending key l1 -> descending key l2 ->
  keeps_ties key l1 l2 -> l1 = l2.
Proof.
  unfold descending. intros H1. revert l2.
  induction H1 as [|a l1 Hs1 IH Ha]; intros l2 H2 Ht.
  - destruct l2 as [|b l2]; [reflexivity|].
    specialize (Ht (key b)). simpl in Ht. rewrite Z.eqb_refl in Ht.
    discriminate.
  - destruct l2 as [|b l2].
    + specialize (Ht (key a)). simpl in Ht. rewrite Z.eqb_refl in Ht.
      discriminate.
    + inversion H2 as [|? ? Hs2 Hb]; subst.
      assert (Hab : key a = key b).
      { assert (Hina : In a (b :: l2))
          by (apply (keeps_ties_in _ _ a Ht); now left).
        assert (Hinb : In b (a :: l1))
          by (apply (keeps_ties_in _ _ b Ht); now left).
        destruct Hina as [->|Hina]; [reflexivity|].
        destruct Hinb as [->|Hinb]; [reflexivity|].
        rewrite Forall_forall in Ha, Hb.
        specialize (Ha _ Hinb). specialize (Hb _ Hina). lia. }
      pose proof (Ht (key a)) as Ta. simpl in Ta.
      rewrite Z.eqb_refl in Ta. rewrite <- Hab in Ta.
      rewrite Z.eqb_refl in Ta. injection Ta as -> Ta.
      f_equal. apply IH; [assumption|].
      intros k. specialize (Ht k). simpl in Ht.
      destruct (key a =? k); [now injection Ht | assumption].
Qed.

(** [sorted_desc] is the only function that sorts descending and keeps
    ties, so it is [sorted(l, key=key, reverse=True)] whatever algorithm
    the interpreter runs. *)
Lemma sorted_desc_unique (l l' : list A) :
  descending key l' -> keeps_ties key l l' -> l' = sorted_desc key l.
Proof.
  intros Hd Ht. symmetry.
  apply descending_ties_unique;
    [apply sorted_desc_descending | assumption |].
  intros k. rewrite Ht. symmetry. apply sorted_desc_keeps_ties.
Qed.

(** In a descending list an element of larger key stands before every
    element of smaller key. *)
Lemma descending_before (l : list A) (a b : A) :
  descending key l -> In a l -> In b l -> key b < key a ->
  exists l1 l2 l3, l = (l1 ++ a :: l2 ++ b :: l3)%list.
Proof.
  unfold descending. induction 1 as [|x l Hs IH Hx]; intros Ha Hb Hlt.
  - destruct Ha.
  - rewrite Forall_forall in Hx.
    destruct Ha as [->|Ha].
    + destruct Hb as [->|Hb]; [lia|].
      apply in_split in Hb as [l2 [l3 ->]].
      now exists [], l2, l3.
    + destruct Hb as [->|Hb].
      * specialize (Hx _ Ha). lia.
      * destruct (IH Ha Hb Hlt) as [l1 [l2 [l3 ->]]].
        now exists (x :: l1), l2, l3.
Qed.
End SortedDescFacts.

(** C7.  Both rankers sort the candidates by score, descending, and keep
    ties in the order of the Evidence Store's list: the output is a
    permutation of the input, its scores never increase, and for every
    score the candidates that have it appear in the same sequence as in the
    input.  No other arrangement of the input is descending and keeps the
    ties. *)
Theorem rank_citations_descending_and_stable :
  (forall (citations : list Citation) (patient : Patient),
     let score := fun c => risk_assessor._score_citation c patient in
     let ranked := risk_assessor._rank_citations citations patient in
     Permutation ranked citations
     /\ descending score ranked
     /\ keeps_ties score citations ranked
     /\ forall l : list Citation,
          descending score l -> keeps_ties score citations l -> l = ranked)
  /\ (forall (citations : list Citation) (patient : Patient)
        (message : string),
        let score := fun c => chat_agent._score_citation c patient message in
        let ranked := chat_agent._rank_citations citations patient message in
        Permutation ranked citations
        /\ descending score ranked
        /\ keeps_ties score citations ranked
        /\ forall l : list Citation,
             descending score l -> keeps_ties score citations l ->
             l = ranked).
Proof.
  split; intros; subst score ranked;
    unfold risk_assessor._rank_citations, chat_agent._rank_citations;
    (split; [apply sorted_desc_perm|]);
    (split; [apply sorted_desc_descending|]);
    (split; [apply sorted_desc_keeps_ties|]);
    intros l Hd Ht; now apply sorted_desc_unique.
Qed.

(** ** The assess-flow scorer: rule beats model *)

Lemma existsb_occurs (t : string) (l : list string) :
  (exists s, In s l /\ occurs t (_norm s)) ->
  existsb (PyStr.contains t) (map _norm l) = true.
Proof.
  intros [s [Hin Hocc]]. apply existsb_exists. exists (_norm s). split.
  - now apply in_map.
  - now apply contains_occurs.
Qed.

Lemma urgent_language_iff (text : string) :
  risk_assessor.urgent_language text = true <->
  exists ph, In ph urgent_phrases /\ occurs ph text.
Proof.
  unfold risk_assessor.urgent_language, urgent_phrases.
  rewrite !orb_true_iff, !contains_occurs. simpl. split.
  - intros [[Ho|Ho]|Ho]; eauto 6.
  - intros [ph [[<-|[<-|[<-|[]]]] Ho]]; auto.
Qed.

Lemma mentions_ct_iff (text : string) :
  risk_assessor.mentions_ct text = true <->
  occurs "ct scan" text \/ occurs "direct access ct" text.
Proof.
  unfold risk_assessor.mentions_ct.
  now rewrite orb_true_iff, !contains_occurs.
Qed.

(** the keyword loop adds between 0 and 3 per keyword *)
Lemma keyword_bonus_bounds (text : string) (kws : list string) (s : Z) :
  let s' := fold_left (fun score kw =>
                         if PyStr.contains kw text then score + 3 else score)
                      kws s in
  s <= s' <= s + 3 * Z.of_nat (List.length kws).
Proof.
  cbv zeta. revert s. induction kws as [|kw kws IH]; intros s.
  - simpl. lia.
  - cbn [fold_left List.length]. rewrite Nat2Z.inj_succ.
    specialize (IH (if PyStr.contains kw text then s + 3 else s)).
    destruct (PyStr.contains kw text); lia.
Qed.

Lemma length_bonus_bounds (text : string) (d : Z) :
  0 < d -> 0 <= Z.min (PyStr.len text / d) 5 <= 5.
Proof.
  intros Hd. unfold PyStr.len.
  assert (0 <= Z.of_nat (String.length text) / d)
    by (apply Z.div_pos; lia).
  lia.
Qed.

(** the symptom tests of the scorer *)
Lemma has_weight_loss_iff (P : Patient) :
  existsb (PyStr.contains "weight loss") (map _norm (get_list (symptoms P)))
  = true <->
  exists s, In s (get_list (symptoms P)) /\ occurs "weight loss" (_norm s).
Proof.
  rewrite existsb_exists. split.
  - intros [x [Hin Hc]]. apply in_map_iff in Hin as [s [<- Hin]].
    exists s. split; [exact Hin | now apply contains_occurs].
  - intros [s [Hin Ho]]. exists (_norm s). split; [now apply in_map|].
    now apply contains_occurs.
Qed.

Lemma has_bowel_change_iff (P : Patient) :
  existsb (fun s => PyStr.contains "change in bowel" s
                    || PyStr.contains "bowel habit" s)
    (map _norm (get_list (symptoms P))) = true <->
  exists s, In s (get_list (symptoms P))
            /\ (occurs "change in bowel" (_norm s)
                \/ occurs "bowel habit" (_norm s)).
Proof.
  rewrite existsb_exists. split.
  - intros [x [Hin Hc]]. apply in_map_iff in Hin as [s [<- Hin]].
    exists s. split; [exact Hin|].
    now rewrite orb_true_iff, !contains_occurs in Hc.
  - intros [s [Hin Ho]]. exists (_norm s). split; [now apply in_map|].
    now rewrite orb_true_iff, !contains_occurs.
Qed.

(** C9, as amended.  The assess-flow scorer tests an excerpt for three
    phrases of urgent language together: the referral-pathway phrase
    "suspected cancer pathway" and the generic "urgent investigation" and
    "urgent referral".  For every patient, an excerpt with one of the three
    scores strictly higher than an excerpt with none of them, whatever
    keywords the two match, so the ranking puts it first.  For a patient
    with weight loss and a change in bowel habit the first scores at least
    120, and the second, when it recommends a CT scan or direct-access CT,
    at most 18. *)
Theorem urgent_phrase_excerpt_outranks_direct_access_ct
  (P : Patient) (A B : Citation) :
  (exists ph, In ph urgent_phrases /\ occurs ph (_norm (excerpt A))) ->
  (forall ph, In ph urgent_phrases -> ~ occurs ph (_norm (excerpt B))) ->
  risk_assessor._score_citation B P < risk_assessor._score_citation A P
  /\ (forall citations : list Citation,
        In A citations -> In B citations ->
        exists l1 l2 l3,
          risk_assessor._rank_citations citations P
          = (l1 ++ A :: l2 ++ B :: l3)%list)
  /\ ((exists s, In s (get_list (symptoms P))
                 /\ occurs "weight loss" (_norm s)) ->
      (exists s, In s (get_list (symptoms P))
                 /\ (occurs "change in bowel" (_norm s)
                     \/ occurs "bowel habit" (_norm s))) ->
      120 <= risk_assessor._score_citation A P
      /\ (occurs "ct scan" (_norm (excerpt B))
          \/ occurs "direct access ct" (_norm (excerpt B)) ->
          risk_assessor._score_citation B P <= 18)).
Proof.
  intros HA HBno.
  apply urgent_language_iff in HA.
  assert (EB : risk_assessor.urgent_language (_norm (excerpt B)) = false).
  { destruct (risk_assessor.urgent_language (_norm (excerpt B))) eqn:E;
      [|reflexivity].
    apply urgent_language_iff in E as [ph [Hin Ho]].
    exfalso. exact (HBno ph Hin Ho). }
  pose proof (keyword_bonus_bounds (_norm (excerpt A))
                risk_assessor.overlap_keywords) as KA.
  pose proof (keyword_bonus_bounds (_norm (excerpt B))
                risk_assessor.overlap_keywords) as KB.
  pose proof (length_bonus_bounds (_norm (excerpt A)) 200 eq_refl) as LA.
  pose proof (length_bonus_bounds (_norm (excerpt B)) 200 eq_refl) as LB.
  cbv zeta in KA, KB.
  change (Z.of_nat (List.length risk_assessor.overlap_keywords)) with 6
    in KA, KB.
  assert (Hlt : risk_assessor._score_citation B P
                < risk_assessor._score_citation A P).
  { unfold risk_assessor._score_citation. rewrite HA, EB. cbv zeta.
    destruct (existsb (PyStr.contains "weight loss")
                (map _norm (get_list (symptoms P))));
      destruct (existsb
                  (fun s => PyStr.contains "change in bowel" s
                            || PyStr.contains "bowel habit" s)
                  (map _norm (get_list (symptoms P))));
      destruct (existsb (PyStr.contains "abdominal pain")
                  (map _norm (get_list (symptoms P)))
                || existsb (PyStr.contains "upper abdominal pain")
                     (map _norm (get_list (symptoms P))));
      destruct (risk_assessor.mentions_ct (_norm (excerpt A)));
      destruct (risk_assessor.mentions_ct (_norm (excerpt B)));
      cbn [andb];
      match goal with
      | |- fold_left ?f _ ?b + _ < fold_left ?g _ ?a + _ =>
          specialize (KA a); specialize (KB b); lia
      end. }
  split; [exact Hlt|]. split.
  - intros citations HinA HinB.
    pose proof (sorted_desc_perm
                  (fun c => risk_assessor._score_citation c P) citations)
      as Hp.
    apply (descending_before (fun c => risk_assessor._score_citation c P)).
    + apply sorted_desc_descending.
    + eapply Permutation_in; [symmetry; exact Hp | exact HinA].
    + eapply Permutation_in; [symmetry; exact Hp | exact HinB].
    + exact Hlt.
  - intros Hwl Hbc.
    apply has_weight_loss_iff in Hwl. apply has_bowel_change_iff in Hbc.
    split.
    + unfold risk_assessor._score_citation. rewrite Hwl, Hbc, HA.
      cbv zeta.
      destruct (existsb (PyStr.contains "abdominal pain")
                  (map _norm (get_list (symptoms P)))
                || existsb (PyStr.contains "upper abdominal pain")
                     (map _norm (get_list (symptoms P))));
        destruct (risk_assessor.mentions_ct (_norm (excerpt A)));
        cbn [andb];
        match goal with
        | |- _ <= fold_left ?g _ ?a + _ => specialize (KA a); lia
        end.
    + intros HBct. apply mentions_ct_iff in HBct.
      unfold risk_assessor._score_citation.
      rewrite Hwl, Hbc, EB, HBct. cbv zeta.
      destruct (existsb (PyStr.contains "abdominal pain")
                  (map _norm (get_list (symptoms P)))
                || existsb (PyStr.contains "upper abdominal pain")
                     (map _norm (get_list (symptoms P))));
        cbn [andb];
        match goal with
        | |- fold_left ?f _ ?b + _ <= _ => specialize (KB b); lia
        end.
Qed.

(** ** [_norm]: strip, lower-case, collapse white space *)

Lemma isspace_lower_char (c : ascii) :
  PyStr.isspace (PyStr.lower_char c) = PyStr.isspace c.
Proof. destruct c as [[] [] [] [] [] [] [] []]; reflexivity. Qed.

Lemma lower_char_idem (c : ascii) :
  PyStr.lower_char (PyStr.lower_char c) = PyStr.lower_char c.
Proof. destruct c as [[] [] [] [] [] [] [] []]; reflexivity. Qed.

Lemma lower_app (a b : string) :
  PyStr.lower (a ++ b) = PyStr.lower a ++ PyStr.lower b.
Proof. induction a as [|c a IH]; simpl; [reflexivity | now rewrite IH]. Qed.

Lemma lower_lstrip (s : string) :
  PyStr.lower (PyStr.lstrip s) = PyStr.lstrip (PyStr.lower s).
Proof.
  induction s as [|c s IH]; simpl; [reflexivity|].
  rewrite isspace_lower_char. now destruct (PyStr.isspace c).
Qed.

Lemma lower_rstrip (s : string) :
  PyStr.lower (PyStr.rstrip s) = PyStr.rstrip (PyStr.lower s).
Proof.
  induction s as [|c s IH]; simpl; [reflexivity|].
  rewrite <- IH, isspace_lower_char.
  destruct (PyStr.rstrip s); simpl; [now destruct (PyStr.isspace c)|].
  reflexivity.
Qed.

Lemma lower_strip (s : string) :
  PyStr.lower (PyStr.strip s) = PyStr.strip (PyStr.lower s).
Proof. unfold PyStr.strip. now rewrite lower_rstrip, lower_lstrip. Qed.

Lemma lower_sub_ws_from (b : bool) (s : string) :
  PyStr.sub_ws_from b (PyStr.lower s) = PyStr.lower (PyStr.sub_ws_from b s).
Proof.
  revert b. induction s as [|c s IH]; intros b; simpl; [reflexivity|].
  rewrite isspace_lower_char.
  destruct (PyStr.isspace c); [destruct b|]; simpl; now rewrite IH.
Qed.

Lemma lower_join (sep : string) (l : list string) :
  PyStr.lower (PyStr.join sep l)
  = PyStr.join (PyStr.lower sep) (map PyStr.lower l).
Proof.
  induction l as [|x l IH]; [reflexivity|].
  destruct l as [|y l]; [reflexivity|].
  change (PyStr.join sep (x :: y :: l))
    with (x ++ sep ++ PyStr.join sep (y :: l)).
  rewrite !lower_app, IH. reflexivity.
Qed.

(** *** The words of a text *)

Lemma rstrip_cons_nonspace (c : ascii) (s : string) :
  PyStr.isspace c = false ->
  PyStr.rstrip (String c s) = String c (PyStr.rstrip s).
Proof. intros Hc. simpl. rewrite Hc. now destruct (PyStr.rstrip s). Qed.

Lemma rstrip_cons_nonempty (c : ascii) (s : string) :
  PyStr.rstrip s <> "" ->
  PyStr.rstrip (String c s) = String c (PyStr.rstrip s).
Proof. intros Hs. simpl. now destruct (PyStr.rstrip s). Qed.

Lemma words_cons_eq (c : ascii) (s : string) :
  PyStr.isspace c = false ->
  words (String c s)
  = match s with
    | EmptyString => [String c EmptyString]
    | String d _ =>
        if PyStr.isspace d then String c EmptyString :: words s
        else match words s with
             | w :: ws => String c w :: ws
             | [] => [String c EmptyString]
             end
    end.
Proof. intros Hc. simpl. now rewrite Hc. Qed.

Lemma words_cons_nonspace (c : ascii) (s : string) :
  PyStr.isspace c = false -> words (String c s) <> [].
Proof.
  intros Hc. simpl. rewrite Hc.
  destruct s as [|d s]; [discriminate|].
  destruct (PyStr.isspace d); [discriminate|].
  destruct (words (String d s)); discriminate.
Qed.

Lemma rstrip_empty_iff (s : string) :
  PyStr.rstrip s = "" <-> words s = [].
Proof.
  induction s as [|c s IH]; [simpl; tauto|].
  destruct (PyStr.isspace c) eqn:Hc.
  - simpl. rewrite Hc. rewrite <- IH.
    destruct (PyStr.rstrip s); split; congruence.
  - rewrite rstrip_cons_nonspace by assumption. split; [discriminate|].
    intros Hw. now apply words_cons_nonspace in Hw.
Qed.

Lemma words_lstrip (s : string) : words (PyStr.lstrip s) = words s.
Proof.
  induction s as [|c s IH]; [reflexivity|].
  simpl PyStr.lstrip. destruct (PyStr.isspace c) eqn:Hc; [|reflexivity].
  rewrite IH. simpl. now rewrite Hc.
Qed.

Lemma join_cons (sep x : string) (l : list string) :
  PyStr.join sep (x :: l)
  = match l with [] => x | _ => x ++ sep ++ PyStr.join sep l end.
Proof. destruct l; reflexivity. Qed.

(** collapsing the runs of a right-stripped text gives its words joined
    by single spaces, after one more space when the text starts with white
    space (and is not all white space) and no run is open *)
Lemma sub_ws_rstrip_words (s : string) (b : bool) :
  PyStr.sub_ws_from b (PyStr.rstrip s)
  = (if negb b
        && match s with String c _ => PyStr.isspace c | _ => false end
        && match words s with [] => false | _ => true end
     then " " else "")
    ++ PyStr.join " " (words s).
Proof.
  revert b. induction s as [|c s IH]; intros b.
  - simpl. now rewrite andb_false_r.
  - destruct (PyStr.isspace c) eqn:Hc.
    + assert (Hw : words (String c s) = words s) by (simpl; now rewrite Hc).
      rewrite Hw.
      destruct (words s) as [|w ws] eqn:Ews.
      * assert (Hr : PyStr.rstrip s = "") by now apply rstrip_empty_iff.
        simpl PyStr.rstrip. rewrite Hr, Hc. simpl.
        now rewrite andb_false_r.
      * assert (Hne : PyStr.rstrip s <> "").
        { intros Hn. apply rstrip_empty_iff in Hn. congruence. }
        rewrite (rstrip_cons_nonempty c s Hne).
        cbn [PyStr.sub_ws_from]. rewrite Hc, (IH true).
        destruct b; reflexivity.
    + rewrite rstrip_cons_nonspace by assumption.
      cbn [PyStr.sub_ws_from]. rewrite Hc, (IH false).
      rewrite andb_false_r, (words_cons_eq c s Hc).
      simpl negb. simpl andb. cbv iota.
      destruct s as [|d s]; [reflexivity|].
      destruct (PyStr.isspace d) eqn:Hd.
      * destruct (words (String d s)) as [|w ws]; reflexivity.
      * pose proof (words_cons_nonspace d s Hd) as Hne.
        destruct (words (String d s)) as [|w ws]; [congruence|].
        rewrite !join_cons. destruct ws; reflexivity.
Qed.

Lemma lstrip_head (s : string) :
  match PyStr.lstrip s with
  | String c _ => PyStr.isspace c
  | EmptyString => false
  end = false.
Proof.
  induction s as [|c s IH]; [reflexivity|].
  simpl. destruct (PyStr.isspace c) eqn:Hc; [assumption | exact Hc].
Qed.

(** [_norm] joins the lower-cased words of the text with single spaces. *)
Lemma norm_words (s : string) :
  _norm s = PyStr.join " " (map PyStr.lower (words s)).
Proof.
  unfold _norm, PyStr.sub_ws, PyStr.strip.
  rewrite lower_sub_ws_from, sub_ws_rstrip_words, words_lstrip.
  rewrite (lstrip_head s). simpl andb. cbv iota. simpl append.
  apply lower_join.
Qed.

Lemma same_entry_norm (a b : string) : same_entry a b -> _norm a = _norm b.
Proof. unfold same_entry. intros E. now rewrite !norm_words, E. Qed.

(** casing alone never matters *)
Lemma lower_eq_norm (a b : string) :
  PyStr.lower a = PyStr.lower b -> _norm a = _norm b.
Proof.
  intros E. unfold _norm. now rewrite !lower_strip, E.
Qed.

(** ** The assess-flow query builder *)

(** *** [sorted] on strings depends on the multiset only *)

Lemma string_compare_trans (a b c : string) :
  String.compare a b <> Gt -> String.compare b c <> Gt ->
  String.compare a c <> Gt.
Proof.
  revert b c. induction a as [|x a IH]; intros [|y b] [|z c]; simpl;
    try congruence.
  unfold Ascii.compare.
  destruct (N.compare_spec (N_of_ascii x) (N_of_ascii y)) as [Exy|Lxy|Gxy];
    destruct (N.compare_spec (N_of_ascii y) (N_of_ascii z)) as [Eyz|Lyz|Gyz];
    destruct (N.compare_spec (N_of_ascii x) (N_of_ascii z)) as [Exz|Lxz|Gxz];
    try congruence; try lia; try (intros; discriminate).
  apply IH.
Qed.

Lemma string_leb_trans (a b c : string) :
  String.leb a b = true -> String.leb b c = true -> String.leb a c = true.
Proof.
  unfold String.leb. intros Hab Hbc.
  pose proof (string_compare_trans a b c) as T.
  destruct (String.compare a b); destruct (String.compare b c);
    destruct (String.compare a c); try reflexivity; try discriminate;
    exfalso; apply T; congruence.
Qed.

Lemma insert_str_comm (x y : string) (l : list string) :
  PyStr.insert_str x (PyStr.insert_str y l)
  = PyStr.insert_str y (PyStr.insert_str x l).
Proof.
  induction l as [|z l IH]; simpl.
  - destruct (String.leb x y) eqn:Exy, (String.leb y x) eqn:Eyx;
      try reflexivity.
    + now rewrite (String.leb_antisym _ _ Exy Eyx).
    + destruct (String.leb_total x y); congruence.
  - destruct (String.leb y z) eqn:Eyz, (String.leb x z) eqn:Exz; simpl;
      rewrite ?Eyz, ?Exz.
    + destruct (String.leb x y) eqn:Exy, (String.leb y x) eqn:Eyx;
        try reflexivity.
      * now rewrite (String.leb_antisym _ _ Exy Eyx).
      * destruct (String.leb_total x y); congruence.
    + destruct (String.leb x y) eqn:Exy; [|reflexivity].
      rewrite (string_leb_trans _ _ _ Exy Eyz) in Exz. discriminate.
    + destruct (String.leb y x) eqn:Eyx; [|reflexivity].
      rewrite (string_leb_trans _ _ _ Eyx Exz) in Eyz. discriminate.
    + now rewrite IH.
Qed.

Lemma sorted_perm_eq (l1 l2 : list string) :
  Permutation l1 l2 -> PyStr.sorted l1 = PyStr.sorted l2.
Proof.
  induction 1 as [|x l1 l2 Hp IH|x y l|l1 l2 l3 H1 IH1 H2 IH2]; simpl.
  - reflexivity.
  - now rewrite IH.
  - apply insert_str_comm.
  - congruence.
Qed.

Lemma insert_str_perm (x : string) (l : list string) :
  Permutation (PyStr.insert_str x l) (x :: l).
Proof.
  induction l as [|y l IH]; simpl; [reflexivity|].
  destruct (String.leb x y); [reflexivity|].
  rewrite IH. apply perm_swap.
Qed.

(** [PyStr.sorted] is a sort: a permutation of its input in ascending
    order. *)
Lemma sorted_perm (l : list string) : Permutation (PyStr.sorted l) l.
Proof.
  induction l as [|x l IH]; simpl; [constructor|].
  rewrite insert_str_perm. now constructor.
Qed.

Lemma sorted_ascending (l : list string) :
  StronglySorted (fun a b => String.leb a b = true) (PyStr.sorted l).
Proof.
  induction l as [|x l IH]; simpl; [constructor|].
  induction IH as [|y l' Hs IH' Hy]; simpl; [repeat constructor|].
  destruct (String.leb x y) eqn:E.
  - constructor; [now constructor|].
    constructor; [exact E|].
    eapply Forall_impl; [|exact Hy]. simpl. intros z Hz.
    exact (string_leb_trans _ _ _ E Hz).
  - constructor; [exact IH'|].
    eapply Permutation_Forall; [symmetry; apply insert_str_perm|].
    constructor; [|exact Hy].
    destruct (String.leb_total x y); congruence.
Qed.

Lemma words_lower (s : string) :
  words (PyStr.lower s) = map PyStr.lower (words s).
Proof.
  induction s as [|c s IH]; [reflexivity|].
  cbn [PyStr.lower].
  destruct (PyStr.isspace c) eqn:Hc.
  - simpl. now rewrite isspace_lower_char, Hc.
  - assert (Hl : PyStr.isspace (PyStr.lower_char c) = false)
      by now rewrite isspace_lower_char.
    rewrite (words_cons_eq _ _ Hl), (words_cons_eq _ _ Hc).
    destruct s as [|d s]; [reflexivity|].
    cbn [PyStr.lower] in *. rewrite isspace_lower_char.
    destruct (PyStr.isspace d).
    + cbn [map]. now rewrite IH.
    + rewrite IH. now destruct (words (String d s)).
Qed.

(** entries that differ in casing only are the same entry *)
Lemma same_entry_case (a b : string) :
  PyStr.lower a = PyStr.lower b -> same_entry a b.
Proof.
  intros E. unfold same_entry. now rewrite <- !words_lower, E.
Qed.

(** entries with the same words are the same entry, whatever white space
    separates or surrounds the words *)
Lemma same_entry_words (a b : string) : words a = words b -> same_entry a b.
Proof. intros E. unfold same_entry. now rewrite E. Qed.

Lemma forall2_same_entry_norm (l1 l2 : list string) :
  Forall2 same_entry l1 l2 -> map _norm l1 = map _norm l2.
Proof.
  induction 1 as [|a b l1 l2 Hab Hl IH]; simpl; [reflexivity|].
  now rewrite (same_entry_norm a b Hab), IH.
Qed.

Lemma existsb_perm {A : Type} (f : A -> bool) (l1 l2 : list A) :
  Permutation l1 l2 -> existsb f l1 = existsb f l2.
Proof.
  induction 1 as [|x l1 l2 Hp IH|x y l|l1 l2 l3 H1 IH1 H2 IH2]; simpl.
  - reflexivity.
  - now rewrite IH.
  - now destruct (f x), (f y).
  - congruence.
Qed.

Lemma same_symptoms_norm (l1 l2 : list string) :
  same_symptoms l1 l2 -> Permutation (map _norm l1) (map _norm l2).
Proof.
  intros [l1' [Hp Hf]]. rewrite <- (forall2_same_entry_norm _ _ Hf).
  now apply Permutation_map.
Qed.

Lemma sorted_desc_ext {A : Type} (k1 k2 : A -> Z) (l : list A) :
  (forall x, k1 x = k2 x) -> sorted_desc k1 l = sorted_desc k2 l.
Proof.
  intros Hk. induction l as [|x l IH]; simpl; [reflexivity|].
  rewrite IH. generalize (sorted_desc k2 l) as r.
  induction r as [|y r IHr]; simpl; [reflexivity|].
  rewrite !Hk. now rewrite IHr.
Qed.

Lemma score_same_symptoms (P1 P2 : Patient) (c : Citation) :
  same_symptoms (get_list (symptoms P1)) (get_list (symptoms P2)) ->
  risk_assessor._score_citation c P1 = risk_assessor._score_citation c P2.
Proof.
  intros Hs. apply same_symptoms_norm in Hs.
  unfold risk_assessor._score_citation. cbv zeta.
  now rewrite !(existsb_perm _ _ _ Hs).
Qed.

(** *** The builder on any record *)

Section AnyRecord.
Context `{PyRuntime}.

Lemma norm_any_string (s : string) :
  any_record._norm (JStr s) = Returned (_norm s).
Proof.
  unfold any_record._norm. simpl.
  destruct (String.eqb_spec s ""); [subst|]; reflexivity.
Qed.

Lemma norm_each_texts (items : list json) (l : list string) :
  texts items = Some l -> any_record.norm_each items = Returned (map _norm l).
Proof.
  revert l. induction items as [|x items IH]; intros l E; simpl in E.
  - injection E as <-. reflexivity.
  - destruct x; try discriminate.
    destruct (texts items) as [l'|]; [|discriminate].
    injection E as <-. cbn [any_record.norm_each].
    now rewrite norm_any_string, (IH l' eq_refl).
Qed.

Lemma texts_strings (l : list string) : texts (map JStr l) = Some l.
Proof. induction l as [|x l IH]; simpl; [reflexivity | now rewrite IH]. Qed.

(** an entry is normalized, or the call raises [AttributeError] *)
Lemma norm_any_cases (x : json) :
  (entry_ok x = true /\ exists s, any_record._norm x = Returned s)
  \/ (entry_ok x = false
      /\ py_truthy x = true /\ (forall s, x <> JStr s)
      /\ any_record._norm x
         = Raised "AttributeError"
             ("'" ++ type_name x ++ "' object has no attribute 'strip'")).
Proof.
  unfold entry_ok, any_record._norm.
  destruct (py_truthy x) eqn:Et; [|left; split; [reflexivity | eauto]].
  destruct x; try (right; repeat split; [discriminate]);
    try (right; repeat split; intros s; discriminate).
  left. split; [reflexivity | eauto].
Qed.

Lemma norm_each_returns_iff (items : list json) :
  (exists r, any_record.norm_each items = Returned r)
  <-> forallb entry_ok items = true.
Proof.
  induction items as [|x items IH]; cbn [any_record.norm_each forallb].
  - split; [reflexivity | eauto].
  - destruct (norm_any_cases x) as [[Hok [s Hs]]|[Hok [_ [_ Hr]]]];
      rewrite Hok.
    + rewrite Hs. cbn [andb]. rewrite <- IH. split.
      * intros [r Hr].
        destruct (any_record.norm_each items); [eauto | discriminate].
      * intros [r ->]. eauto.
    + rewrite Hr. cbn [andb]. split; [intros [r Hr']|]; discriminate.
Qed.

Lemma norm_each_raises (items : list json) (x : json) :
  In x items -> py_truthy x = true -> (forall s, x <> JStr s) ->
  exists y,
    In y items /\ py_truthy y = true /\ (forall s, y <> JStr s)
    /\ any_record.norm_each items
       = Raised "AttributeError"
           ("'" ++ type_name y ++ "' object has no attribute 'strip'").
Proof.
  induction items as [|z items IH]; intros Hin Ht Hns; [destruct Hin|].
  cbn [any_record.norm_each].
  destruct (norm_any_cases z) as [[Hok [s Hs]]|[Hok [Hzt [Hzs Hr]]]].
  - rewrite Hs. destruct Hin as [->|Hin].
    + exfalso. unfold entry_ok in Hok. rewrite Ht in Hok. simpl in Hok.
      destruct x; try discriminate. now apply (Hns s0).
    + destruct (IH Hin Ht Hns) as [y [Hy [Hyt [Hys Hyr]]]].
      exists y. rewrite Hyr. repeat split; auto. now right.
  - exists z. rewrite Hr. repeat split; auto. now left.
Qed.

Lemma segment_default (k : string) (d : list (string * json)) :
  py_str match dict_get k d with Some v => v | None => JStr "" end
  = segment k d.
Proof. unfold segment. now destruct (dict_get k d). Qed.

(** the query of a record with free-text symptoms *)
Lemma stable_query_free_text (d : list (string * json)) (l : list string) :
  symptom_texts d = Some l ->
  any_record._stable_query d
  = Returned
      ("NICE NG12 suspected cancer recognition and referral." ++ nl
       ++ "Patient: age=" ++ segment "age" d ++ ", sex=" ++ segment "sex" d
       ++ ", duration=" ++ segment "duration" d ++ nl
       ++ "Symptoms: " ++ PyStr.join ", " (PyStr.sorted (map _norm l)) ++ nl
       ++ "Question: Based on NG12, what is the recommended next action and urgency category?").
Proof.
  intros E. unfold any_record._stable_query. cbv zeta.
  rewrite !segment_default.
  assert (Hn : match
                 any_record.iter
                   match dict_get "symptoms" d with
                   | Some v => if py_truthy v then v else JArr []
                   | None => JArr []
                   end
               with
               | Returned items => any_record.norm_each items
               | Raised ty msg => Raised ty msg
               end = Returned (map _norm l)).
  { unfold symptom_texts in E.
    destruct (dict_get "symptoms" d) as [v|].
    - destruct v; try discriminate.
      + injection E as <-. reflexivity.
      + destruct l0 as [|x items].
        * injection E as <-. reflexivity.
        * cbn [py_truthy any_record.iter]. now apply norm_each_texts.
    - injection E as <-. reflexivity. }
  destruct (any_record.iter _) as [items|ty msg]; [|discriminate].
  now rewrite Hn.
Qed.

Lemma dict_get_scalar_item (k k' : string) (f : option pyscalar)
  (rest : list (string * json)) :
  dict_get k (scalar_item k' f ++ rest)
  = if String.eqb k k'
    then match f with
         | Some v => Some (json_of_scalar v)
         | None => dict_get k rest
         end
    else dict_get k rest.
Proof.
  destruct f as [v|]; simpl.
  - now destruct (String.eqb k k').
  - now destruct (String.eqb k k').
Qed.

Lemma dict_get_list_item (k k' : string) (f : option (list string))
  (rest : list (string * json)) :
  dict_get k (list_item k' f ++ rest)
  = if String.eqb k k'
    then match f with
         | Some l => Some (JArr (map JStr l))
         | None => dict_get k rest
         end
    else dict_get k rest.
Proof.
  destruct f as [v|]; simpl.
  - now destruct (String.eqb k k').
  - now destruct (String.eqb k k').
Qed.

Lemma py_str_scalar (v : pyscalar) : py_str (json_of_scalar v) = scalar_str v.
Proof. now destruct v as [|[|]| |]. Qed.

Lemma dict_of_fields (P : Patient) :
  segment "age" (dict_of P) = get_str (age P)
  /\ segment "sex" (dict_of P) = get_str (sex P)
  /\ segment "duration" (dict_of P) = get_str (duration P)
  /\ symptom_texts (dict_of P) = Some (get_list (symptoms P)).
Proof.
  unfold segment, symptom_texts, dict_of.
  rewrite !dict_get_scalar_item, !dict_get_list_item.
  rewrite <- (app_nil_r (list_item "investigations" (investigations P))).
  rewrite !dict_get_list_item. cbn.
  destruct (age P), (sex P), (duration P), (symptoms P); cbn;
    rewrite ?py_str_scalar, ?texts_strings; auto.
Qed.

(** on the [dict] of a record of the data model the builder returns the
    query of the record *)
Lemma stable_query_dict_of (P : Patient) :
  any_record._stable_query (dict_of P)
  = Returned (risk_assessor._stable_query P).
Proof.
  destruct (dict_of_fields P) as [Ea [Es [Ed Ey]]].
  rewrite (stable_query_free_text _ _ Ey), Ea, Es, Ed. reflexivity.
Qed.

Lemma chars_ok (s : string) : forallb entry_ok (any_record.chars s) = true.
Proof.
  induction s as [|c s IH]; [reflexivity|].
  cbn [any_record.chars forallb]. rewrite IH.
  unfold entry_ok. simpl. now rewrite ?orb_true_r.
Qed.

Lemma keys_ok (d : list (string * json)) :
  forallb entry_ok (map (fun kv => JStr (fst kv)) d) = true.
Proof.
  induction d as [|kv d IH]; [reflexivity|].
  cbn [map forallb]. rewrite IH.
  unfold entry_ok. simpl. now rewrite ?orb_true_r.
Qed.

Lemma stable_query_returns_iff (d : list (string * json)) :
  (exists q, any_record._stable_query d = Returned q)
  <-> match dict_get "symptoms" d with
      | None => True
      | Some v => readable v = true
      end.
Proof.
  unfold any_record._stable_query. cbv zeta.
  assert (Hshape : forall items,
    (exists q,
       match any_record.norm_each items with
       | Returned normed =>
           Returned
             ("NICE NG12 suspected cancer recognition and referral." ++ nl
              ++ "Patient: age="
              ++ py_str match dict_get "age" d with
                        | Some v => v | None => JStr "" end
              ++ ", sex="
              ++ py_str match dict_get "sex" d with
                        | Some v => v | None => JStr "" end
              ++ ", duration="
              ++ py_str match dict_get "duration" d with
                        | Some v => v | None => JStr "" end
              ++ nl
              ++ "Symptoms: " ++ PyStr.join ", " (PyStr.sorted normed) ++ nl
              ++ "Question: Based on NG12, what is the recommended next action and urgency category?")
       | Raised ty msg => Raised ty msg
       end = Returned q)
    <-> forallb entry_ok items = true).
  { intros items. rewrite <- norm_each_returns_iff.
    destruct (any_record.norm_each items); split; intros [q Hq];
      eauto; discriminate. }
  destruct (dict_get "symptoms" d) as [v|].
  - unfold readable. destruct (py_truthy v) eqn:Et; cbn [negb orb].
    + destruct v; cbn [any_record.iter];
        try (split; [intros [q Hq]|]; discriminate).
      * rewrite Hshape, chars_ok. tauto.
      * apply Hshape.
      * rewrite Hshape, keys_ok. tauto.
    + cbn [any_record.iter]. rewrite Hshape. tauto.
  - cbn [any_record.iter]. rewrite Hshape. tauto.
Qed.

(** C8, as amended.  For a record whose symptom list holds free text (or
    is missing or null) the assess-flow query builder returns the query
    whose symptom segment is the normalized symptoms in ascending order,
    joined by a comma and a space, and whose age, sex and duration segments
    are the values as text, empty for a missing key.  Two such records
    with the same age, sex and duration whose symptom lists differ only in
    the order of the entries and in the casing and white space of each
    entry get the same query, and the scorer and the ranking treat them
    alike.  The builder returns exactly for the records whose [symptoms]
    value it can read; it raises [AttributeError] when the list holds an
    entry that counts as true and is no string, and [TypeError] when the
    value is a number or a boolean that counts as true. *)
Theorem stable_query_ignores_order_case_whitespace :
  (forall (d : list (string * json)) (l : list string),
     symptom_texts d = Some l ->
     exists segs : list string,
       Permutation segs (map _norm l) /\ ascending segs
       /\ any_record._stable_query d
          = Returned
              ("NICE NG12 suspected cancer recognition and referral." ++ nl
               ++ "Patient: age=" ++ segment "age" d
               ++ ", sex=" ++ segment "sex" d
               ++ ", duration=" ++ segment "duration" d ++ nl
               ++ "Symptoms: " ++ PyStr.join ", " segs ++ nl
               ++ "Question: Based on NG12, what is the recommended next action and urgency category?"))
  /\ (forall (d1 d2 : list (string * json)) (l1 l2 : list string),
        symptom_texts d1 = Some l1 -> symptom_texts d2 = Some l2 ->
        dict_get "age" d1 = dict_get "age" d2 ->
        dict_get "sex" d1 = dict_get "sex" d2 ->
        dict_get "duration" d1 = dict_get "duration" d2 ->
        same_symptoms l1 l2 ->
        exists q : string,
          any_record._stable_query d1 = Returned q
          /\ any_record._stable_query d2 = Returned q)
  /\ (forall P : Patient,
        any_record._stable_query (dict_of P)
        = Returned (risk_assessor._stable_query P))
  /\ (forall P1 P2 : Patient,
        same_symptoms (get_list (symptoms P1)) (get_list (symptoms P2)) ->
        forall cands : list Citation,
          risk_assessor._rank_citations cands P1
          = risk_assessor._rank_citations cands P2)
  /\ (forall d : list (string * json),
        (exists q, any_record._stable_query d = Returned q)
        <-> match dict_get "symptoms" d with
            | None => True
            | Some v => readable v = true
            end)
  /\ (forall (d : list (string * json)) (items : list json) (x : json),
        dict_get "symptoms" d = Some (JArr items) ->
        In x items -> py_truthy x = true -> (forall s, x <> JStr s) ->
        exists y : json,
          In y items /\ py_truthy y = true /\ (forall s, y <> JStr s)
          /\ any_record._stable_query d
             = Raised "AttributeError"
                 ("'" ++ type_name y ++ "' object has no attribute 'strip'"))
  /\ (forall (d : list (string * json)) (v : json),
        dict_get "symptoms" d = Some v -> py_truthy v = true ->
        type_name v = "int" \/ type_name v = "float"
        \/ type_name v = "bool" ->
        any_record._stable_query d
        = Raised "TypeError"
            ("'" ++ type_name v ++ "' object is not iterable")).
Proof.
  split; [|split; [|split; [|split; [|split; [|split]]]]].
  - intros d l E. exists (PyStr.sorted (map _norm l)).
    split; [apply sorted_perm|]. split; [apply sorted_ascending|].
    now apply stable_query_free_text.
  - intros d1 d2 l1 l2 E1 E2 Ha Hs Hd Hsym.
    rewrite (stable_query_free_text _ _ E1), (stable_query_free_text _ _ E2).
    unfold segment. rewrite Ha, Hs, Hd.
    rewrite (sorted_perm_eq _ _ (same_symptoms_norm _ _ Hsym)).
    eauto.
  - exact stable_query_dict_of.
  - intros P1 P2 Hsym cands. unfold risk_assessor._rank_citations.
    apply sorted_desc_ext. intros c. now apply score_same_symptoms.
  - exact stable_query_returns_iff.
  - intros d items x Hd Hin Ht Hns.
    destruct (norm_each_raises items x Hin Ht Hns) as [y [Hy [Hyt [Hys Hr]]]].
    exists y. repeat split; auto.
    unfold any_record._stable_query. cbv zeta. rewrite Hd.
    assert (Hit : py_truthy (JArr items) = true)
      by (destruct items; [destruct Hin | reflexivity]).
    rewrite Hit. cbn [any_record.iter]. now rewrite Hr.
  - intros d v Hd Ht Hty.
    unfold any_record._stable_query. cbv zeta. rewrite Hd, Ht.
    destruct v; simpl in Hty;
      try (exfalso; destruct Hty as [E|[E|E]]; discriminate);
      reflexivity.
Qed.
End AnyRecord.

(** ** The category normalizer *)

(** C6, as stated, fails: "no_urgent action" spells the category
    no_urgent_action up to case and up to a space for an underscore, and
    it is mapped to the default urgent_investigation. *)
Lemma map_category_mixed_separators_default :
  In "no_urgent_action" canonical_categories
  /\ spells "no_urgent_action" "no_urgent action" = true
  /\ risk_assessor._map_category "no_urgent action" = "urgent_investigation"
  /\ risk_assessor._map_category "no_urgent action" <> "no_urgent_action".
Proof.
  split; [simpl; tauto|]. split; [reflexivity|].
  split; [reflexivity|]. discriminate.
Qed.

Lemma map_category_unrecognised (s : string) :
  ~ In (_norm s) recognised_spellings ->
  risk_assessor._map_category s = "urgent_investigation".
Proof.
  intros Hn. unfold risk_assessor._map_category.
  assert (E : forall x, In x recognised_spellings ->
                        String.eqb (_norm s) x = false).
  { intros x Hx. apply String.eqb_neq. intros Heq. apply Hn.
    now rewrite Heq. }
  unfold recognised_spellings in E. cbv zeta. cbn [existsb].
  rewrite !E by (simpl; tauto). reflexivity.
Qed.

Lemma map_category_canonical (s : string) :
  In (risk_assessor._map_category s) canonical_categories.
Proof.
  unfold risk_assessor._map_category, canonical_categories. cbv zeta.
  repeat match goal with
         | |- context [if ?b then _ else _] => destruct b
         end; simpl; tauto.
Qed.

(** C6, amended.  The normalizer maps to a canonical category every input
    that is the category in any case (white space around it allowed), and
    every input that consists of the words of the category in any case,
    separated by white space; every input whose normal form is not one of
    the ten recognised spellings goes to the default urgent_investigation;
    the output is always one of the four canonical values. *)
Theorem map_category_uniform_spellings :
  (forall c s : string,
     In c canonical_categories ->
     map PyStr.lower (words s) = [c]
     \/ map PyStr.lower (words s) = words (spaced c) ->
     risk_assessor._map_category s = c)
  /\ (forall s : string,
        ~ In (_norm s) recognised_spellings ->
        risk_assessor._map_category s = "urgent_investigation")
  /\ (forall s : string,
        In (risk_assessor._map_category s) canonical_categories)
  /\ risk_assessor._map_category "Urgent Referral" = "urgent_referral"
  /\ risk_assessor._map_category "urgent_referral" = "urgent_referral"
  /\ risk_assessor._map_category "banana" = "urgent_investigation".
Proof.
  split; [|split; [exact map_category_unrecognised|
           split; [exact map_category_canonical|
           repeat split; reflexivity]]].
  intros c s Hc Hs. unfold risk_assessor._map_category. cbv zeta.
  rewrite norm_words.
  destruct Hs as [-> | ->];
    destruct Hc as [<-|[<-|[<-|[<-|[]]]]]; reflexivity.
Qed.

Lemma map_category_uniform_spellings_witness :
  risk_assessor._map_category "  No   URGENT action " = "no_urgent_action"
  /\ risk_assessor._map_category "Insufficient_Evidence"
     = "insufficient_evidence".
Proof.
  destruct map_category_uniform_spellings as [H _]. split.
  - apply H; [simpl; tauto | right; reflexivity].
  - apply H; [simpl; tauto | left; reflexivity].
Defined.

(** ** The assess flow *)

Lemma rank_nonempty (cands : list Citation) (P : Patient) :
  cands <> [] -> risk_assessor._rank_citations cands P <> [].
Proof.
  intros Hne Hr. apply Hne. apply Permutation_nil.
  rewrite <- Hr. apply sorted_desc_perm.
Qed.

Lemma firstn_in {A : Type} (n : nat) (l : list A) (x : A) :
  In x (firstn n l) -> In x l.
Proof.
  revert l. induction n as [|n IH]; intros [|y l]; simpl; try tauto.
  intros [->|Hx]; [now left | right; now apply IH].
Qed.

Section AssessFlow.
Context `{PyRuntime} (env : Env) (svc : Services).

(** how [assess_patient] ends once the retriever has returned candidates
    of which [best] is ranked first *)
Lemma assess_patient_ranked (patient : Patient) (cands : list Citation)
  (best : Citation) (rest : list Citation) :
  retrieve svc (risk_assessor._stable_query patient) (NG12_TOP_K env)
  = Returned cands ->
  risk_assessor._rank_citations cands patient = best :: rest ->
  snd (risk_assessor.assess_patient env svc patient)
  = let pid := get_str (patient_id patient) in
    match snd (risk_assessor.generate_object env svc
                 (risk_assessor.assess_prompt patient best)) with
    | Raised ty msg =>
        Returned (risk_assessor.model_failed pid best ty msg)
    | Returned (JObj obj) =>
        Returned (risk_assessor.from_object pid best obj)
    | Returned v => Raised "AttributeError" (no_get_message v)
    end.
Proof.
  intros Hr Hk. unfold risk_assessor.assess_patient. cbv zeta. rewrite Hr.
  destruct cands as [|c cands]; [discriminate|].
  rewrite Hk.
  destruct (risk_assessor.generate_object env svc
              (risk_assessor.assess_prompt patient best)) as [calls g].
  reflexivity.
Qed.

(** C2, amended.  A result the assess flow returns carries at most one
    citation, and a citation it carries is the first element of the
    score-ranked list of the retrieved candidates; the assess flow
    applies no evidence gate. *)
Theorem assess_cites_at_most_the_top_ranked
  (patient : Patient) (r : AssessResponse) :
  snd (risk_assessor.assess_patient env svc patient) = Returned r ->
  (List.length (citations r) <= 1)%nat
  /\ forall c : Citation,
       In c (citations r) ->
       citations r = [c]
       /\ exists cands rest,
            retrieve svc (risk_assessor._stable_query patient)
              (NG12_TOP_K env) = Returned cands
            /\ risk_assessor._rank_citations cands patient = c :: rest.
Proof.
  unfold risk_assessor.assess_patient. cbv zeta.
  destruct (retrieve svc (risk_assessor._stable_query patient)
              (NG12_TOP_K env)) as [cands|ty msg] eqn:Hr.
  - destruct cands as [|c0 cands].
    + simpl. intros [= <-]. simpl. split; [lia | intros c []].
    + destruct (risk_assessor._rank_citations (c0 :: cands) patient)
        as [|best rest] eqn:Hk; [discriminate|].
      destruct (risk_assessor.generate_object env svc
                  (risk_assessor.assess_prompt patient best))
        as [calls g].
      assert (Hc : citations r = [best] ->
                   (List.length (citations r) <= 1)%nat
                   /\ forall c, In c (citations r) ->
                        citations r = [c]
                        /\ exists cands' rest',
                             Returned (c0 :: cands) = Returned cands'
                             /\ risk_assessor._rank_citations cands' patient
                                = c :: rest').
      { intros ->. split; [simpl; lia|].
        intros c [<-|[]]. split; [reflexivity|].
        now exists (c0 :: cands), rest. }
      simpl. destruct g as [v|ty msg].
      * destruct v; try discriminate.
        intros [= <-]. apply Hc.
        unfold risk_assessor.from_object. cbv zeta.
        now destruct (if String.eqb _ "" then _ else _).
      * intros [= <-]. apply Hc. unfold risk_assessor.model_failed.
        cbv zeta.
        repeat match goal with
               | |- context [if ?b then _ else _] => destruct b
               end; reflexivity.
  - simpl. intros [= <-]. simpl. split; [lia | intros c []].
Qed.

(** C3.  When the [try] block of the assess flow raises, the flow still
    returns a result, with the best-ranked excerpt as its citation: the
    category is urgent_referral when the normalized excerpt contains
    "suspected cancer pathway" or "urgent referral"; otherwise it is
    urgent_investigation when the excerpt contains "urgent
    investigation"; otherwise it is insufficient_evidence, with a
    rationale that reports the failure. *)
Theorem assess_generation_failure_fallback
  (patient : Patient) (cands : list Citation) (best : Citation)
  (rest : list Citation) (ty msg : string) :
  retrieve svc (risk_assessor._stable_query patient) (NG12_TOP_K env)
  = Returned cands ->
  risk_assessor._rank_citations cands patient = best :: rest ->
  snd (risk_assessor.generate_object env svc
         (risk_assessor.assess_prompt patient best)) = Raised ty msg ->
  let text := _norm (excerpt best) in
  let referral :=
    occurs "suspected cancer pathway" text \/ occurs "urgent referral" text in
  let investigation := occurs "urgent investigation" text in
  exists r : AssessResponse,
    snd (risk_assessor.assess_patient env svc patient) = Returned r
    /\ citations r = [best]
    /\ (referral -> category r = "urgent_referral")
    /\ (~ referral -> investigation -> category r = "urgent_investigation")
    /\ (~ referral -> ~ investigation ->
        category r = "insufficient_evidence"
        /\ rationale r
           = "Model failed: " ++ ty ++ ": " ++ msg
             ++ ". Returning best available citation.").
Proof.
  intros Hr Hk Hg text referral investigation.
  rewrite (assess_patient_ranked patient cands best rest Hr Hk).
  cbv zeta. rewrite Hg.
  eexists. split; [reflexivity|].
  unfold risk_assessor.model_failed. cbv zeta. fold text.
  assert (Eref : PyStr.contains "suspected cancer pathway" text
                 || PyStr.contains "urgent referral" text = true
                 <-> referral).
  { unfold referral. now rewrite orb_true_iff, !contains_occurs. }
  assert (Einv : PyStr.contains "urgent investigation" text = true
                 <-> investigation) by apply contains_occurs.
  destruct (PyStr.contains "suspected cancer pathway" text
            || PyStr.contains "urgent referral" text) eqn:E1.
  - assert (Href : referral) by now apply Eref.
    simpl. repeat split; intros; try reflexivity; exfalso; tauto.
  - assert (Hnr : ~ referral) by (intros Hx; apply Eref in Hx; discriminate).
    destruct (PyStr.contains "urgent investigation" text) eqn:E2.
    + assert (Hi : investigation) by now apply Einv.
      simpl. repeat split; intros; try reflexivity; exfalso; tauto.
    + assert (Hni : ~ investigation)
        by (intros Hx; apply Einv in Hx; discriminate).
      simpl. repeat split; intros; try reflexivity; exfalso; tauto.
Qed.

(** C10, amended.  When the model answers with a mapping, an empty (or
    absent) recommended_action makes the flow take category and action
    from the best excerpt: urgent_referral for "suspected cancer pathway"
    or "urgent referral", else urgent_investigation for "urgent
    investigation", whatever category the model returned.  The normalized
    model category is kept when the action is not empty, whatever the
    rationale, and when the action is empty and the excerpt contains
    none of the phrases. *)
Theorem assess_empty_action_takes_category_from_excerpt
  (patient : Patient) (cands : list Citation) (best : Citation)
  (rest : list Citation) (obj : list (string * json)) :
  retrieve svc (risk_assessor._stable_query patient) (NG12_TOP_K env)
  = Returned cands ->
  risk_assessor._rank_citations cands patient = best :: rest ->
  snd (risk_assessor.generate_object env svc
         (risk_assessor.assess_prompt patient best))
  = Returned (JObj obj) ->
  let text := _norm (excerpt best) in
  let referral :=
    occurs "suspected cancer pathway" text \/ occurs "urgent referral" text in
  let investigation := occurs "urgent investigation" text in
  let action := PyStr.strip (get_or_empty_str "recommended_action" obj) in
  let model_category :=
    risk_assessor._map_category
      (match dict_get "category" obj with
       | Some v => py_str v
       | None => ""
       end) in
  exists r : AssessResponse,
    snd (risk_assessor.assess_patient env svc patient) = Returned r
    /\ (action = "" -> referral -> category r = "urgent_referral")
    /\ (action = "" -> ~ referral -> investigation ->
        category r = "urgent_investigation")
    /\ (action = "" -> ~ referral -> ~ investigation ->
        category r = model_category)
    /\ (action <> "" ->
        category r = model_category /\ recommended_action r = action).
Proof.
  intros Hr Hk Hg text referral investigation action model_category.
  rewrite (assess_patient_ranked patient cands best rest Hr Hk).
  cbv zeta. rewrite Hg.
  eexists. split; [reflexivity|].
  unfold risk_assessor.from_object. cbv zeta.
  fold text. fold action. fold model_category.
  assert (Eref : PyStr.contains "suspected cancer pathway" text
                 || PyStr.contains "urgent referral" text = true
                 <-> referral).
  { unfold referral. now rewrite orb_true_iff, !contains_occurs. }
  assert (Einv : PyStr.contains "urgent investigation" text = true
                 <-> investigation) by apply contains_occurs.
  destruct (String.eqb action "") eqn:Ea.
  - apply String.eqb_eq in Ea.
    destruct (PyStr.contains "suspected cancer pathway" text
              || PyStr.contains "urgent referral" text) eqn:E1.
    + assert (Href : referral) by now apply Eref.
      simpl. repeat split; intros; try reflexivity; exfalso; tauto.
    + assert (Hnr : ~ referral)
        by (intros Hx; apply Eref in Hx; discriminate).
      destruct (PyStr.contains "urgent investigation" text) eqn:E2.
      * assert (Hi : investigation) by now apply Einv.
        simpl. repeat split; intros; try reflexivity; exfalso; tauto.
      * assert (Hni : ~ investigation)
          by (intros Hx; apply Einv in Hx; discriminate).
        simpl. repeat split; intros; try reflexivity; exfalso; tauto.
  - apply String.eqb_neq in Ea. simpl.
    repeat split; intros; try reflexivity; exfalso; tauto.
Qed.

(** When the retriever returns no candidate, the assess flow returns the
    fixed insufficient_evidence result with no citation, and it has
    called the retriever only. *)
Lemma assess_no_candidates (patient : Patient) :
  retrieve svc (risk_assessor._stable_query patient) (NG12_TOP_K env)
  = Returned [] ->
  risk_assessor.assess_patient env svc patient
  = ([EvRetrieve (risk_assessor._stable_query patient) (NG12_TOP_K env)],
     Returned
       (mkAssessResponse (get_str (patient_id patient))
          "insufficient_evidence"
          "No relevant NG12 guidance could be retrieved for the given symptoms."
          "Review NG12 guidance manually and consider clinical review."
          [])).
Proof.
  intros Hr. unfold risk_assessor.assess_patient. cbv zeta.
  now rewrite Hr.
Qed.

(** When no ranked candidate passes the gate, the chat flow returns the
    fixed sentence with no citation, and it has called the retriever
    only. *)
Lemma chat_no_gated_evidence (patient : Patient) (message : string)
  (raw : list Citation) :
  retrieve svc (chat_agent.chat_query patient message) (NG12_TOP_K env)
  = Returned raw ->
  filter (fun c => chat_agent._citation_supported_by_patient c patient)
    (chat_agent._rank_citations raw patient message) = [] ->
  chat_agent.answer_question env svc patient message
  = ([EvRetrieve (chat_agent.chat_query patient message) (NG12_TOP_K env)],
     Returned (chat_agent.no_excerpt_sentence, [])).
Proof.
  intros Hr Hf. unfold chat_agent.answer_question. cbv zeta.
  rewrite Hr, Hf. now rewrite firstn_nil.
Qed.

(** Whatever the chat flow returns as citations has passed the gate,
    wherever the ranking had put it. *)
Lemma chat_citations_pass_gate (patient : Patient) (message answer : string)
  (cits : list Citation) :
  snd (chat_agent.answer_question env svc patient message)
  = Returned (answer, cits) ->
  forall c : Citation,
    In c cits -> chat_agent._citation_supported_by_patient c patient = true.
Proof.
  unfold chat_agent.answer_question. cbv zeta.
  destruct (retrieve svc (chat_agent.chat_query patient message)
              (NG12_TOP_K env)) as [raw|ty msg]; [|discriminate].
  set (gated := filter
                  (fun c => chat_agent._citation_supported_by_patient c patient)
                  (chat_agent._rank_citations raw patient message)).
  set (top := firstn (Z.to_nat (Z.max 1 (NG12_CHAT_TOP_CITATIONS env))) gated).
  assert (Htop : forall c, In c top ->
            chat_agent._citation_supported_by_patient c patient = true).
  { intros c Hc. apply firstn_in in Hc. unfold gated in Hc.
    now apply filter_In in Hc. }
  destruct top as [|c0 top'] eqn:Et.
  - simpl. intros [= <- <-] c [].
  - destruct (project_set env); [|discriminate]. simpl.
    destruct (generate svc _ _) as [text|ty msg]; [|discriminate].
    destruct (_extract_json text); try discriminate.
    intros [= <- <-]. exact Htop.
Qed.

(** C4, amended.  When the retriever returns no candidate, the assess
    flow returns the fixed insufficient_evidence result with an empty
    citation list.  When no ranked candidate passes the evidence gate,
    the chat flow returns its fixed sentence with an empty citation list.
    In both cases the only call made is the one to the retriever: the
    generation service is not called. *)
Theorem empty_evidence_terminal_results :
  (forall patient : Patient,
     retrieve svc (risk_assessor._stable_query patient) (NG12_TOP_K env)
     = Returned [] ->
     risk_assessor.assess_patient env svc patient
     = ([EvRetrieve (risk_assessor._stable_query patient)
           (NG12_TOP_K env)],
        Returned
          (mkAssessResponse (get_str (patient_id patient))
             "insufficient_evidence"
             "No relevant NG12 guidance could be retrieved for the given symptoms."
             "Review NG12 guidance manually and consider clinical review."
             [])))
  /\ (forall (patient : Patient) (message : string)
         (raw : list Citation),
        retrieve svc (chat_agent.chat_query patient message)
          (NG12_TOP_K env) = Returned raw ->
        filter (fun c => chat_agent._citation_supported_by_patient c patient)
          (chat_agent._rank_citations raw patient message) = [] ->
        chat_agent.answer_question env svc patient message
        = ([EvRetrieve (chat_agent.chat_query patient message)
              (NG12_TOP_K env)],
           Returned (chat_agent.no_excerpt_sentence, []))).
Proof.
  split.
  - exact assess_no_candidates.
  - exact chat_no_gated_evidence.
Qed.
End AssessFlow.


(** ** [json.loads] after [json.dumps] *)

Lemma string_app_nil_r (a : string) : a ++ "" = a.
Proof. induction a as [|x a IH]; simpl; [reflexivity | now rewrite IH]. Qed.

Lemma string_app_length (a b : string) :
  String.length (a ++ b) = (String.length a + String.length b)%nat.
Proof. induction a as [|x a IH]; simpl; [reflexivity | now rewrite IH]. Qed.

(** *** Strings *)

Lemma scanstring_escape_char (c : ascii) (t : string) :
  Json.scanstring (Json.escape_char c ++ t)
  = match Json.scanstring t with
    | Some (u, rest) => Some (String c u, rest)
    | None => None
    end.
Proof. destruct c as [[] [] [] [] [] [] [] []]; reflexivity. Qed.

Lemma scanstring_escape (s rest : string) :
  Json.scanstring (Json.escape s ++ String "034" rest) = Some (s, rest).
Proof.
  induction s as [|c s IH]; [reflexivity|].
  cbn [Json.escape]. rewrite string_app_assoc, scanstring_escape_char.
  now rewrite IH.
Qed.

Lemma encode_string_scan (s rest : string) :
  Json.encode_string s ++ rest
  = String "034" (Json.escape s ++ String "034" rest).
Proof.
  unfold Json.encode_string. simpl. now rewrite string_app_assoc.
Qed.

(** *** Numbers *)

Lemma ends_value_cases (rest : string) :
  ends_value rest = true ->
  rest = "" \/ exists r, rest = String "," r \/ rest = String "]" r
                         \/ rest = String "}" r.
Proof.
  destruct rest as [|c r]; [now left|]. simpl. intros Hc. right. exists r.
  rewrite !orb_true_iff in Hc.
  destruct Hc as [[Hc|Hc]|Hc]; apply Ascii.eqb_eq in Hc; subst; auto.
Qed.

Lemma span_digits_uint (d : Decimal.uint) (rest : string) :
  ends_value rest = true ->
  Json.span_digits (NilEmpty.string_of_uint d ++ rest)
  = (NilEmpty.string_of_uint d, rest).
Proof.
  intros Hr. induction d; simpl; try (rewrite IHd; reflexivity).
  destruct (ends_value_cases rest Hr) as [->|[r [->|[->| ->]]]]; reflexivity.
Qed.

Lemma pos_to_uint_head (p : positive) :
  match Pos.to_uint p with
  | Decimal.Nil | Decimal.D0 _ => False
  | _ => True
  end.
Proof.
  pose proof (DecimalPos.Unsigned.to_of (Pos.to_uint p)) as Hn.
  rewrite DecimalPos.Unsigned.of_to in Hn. simpl in Hn.
  pose proof (DecimalPos.Unsigned.to_uint_nonzero p) as Hz.
  pose proof (DecimalPos.Unsigned.to_uint_nonnil p) as Hnil.
  destruct (Pos.to_uint p) as [|u|u|u|u|u|u|u|u|u|u] eqn:E; auto.
  assert (Hh : Decimal.nzhead (Decimal.D0 u) <> Decimal.Nil).
  { intros Hx. apply DecimalFacts.unorm_0 in Hx. congruence. }
  apply DecimalFacts.unorm_nzhead in Hh. rewrite <- Hn in Hh.
  symmetry in Hh. now apply DecimalFacts.nzhead_nonzero in Hh.
Qed.

(** the number pattern reads back the digits of a positive number *)
Lemma match_number_digits (neg : bool) (d : Decimal.uint) (rest : string) :
  match d with
  | Decimal.Nil | Decimal.D0 _ => False
  | _ => True
  end ->
  ends_value rest = true ->
  Json.match_number
    ((if neg then "-" else "") ++ NilEmpty.string_of_uint d ++ rest)
  = Some (JInt (Json.int_of_literal
                  ((if neg then "-" else "") ++ NilEmpty.string_of_uint d)),
          rest).
Proof.
  intros Hd Hr.
  destruct d as [|u|u|u|u|u|u|u|u|u|u]; try contradiction;
    destruct neg; cbn [NilEmpty.string_of_uint append];
    unfold Json.match_number, Json.match_int;
    cbn [Json.is_digit Ascii.eqb Bool.eqb];
    simpl Json.is_digit; cbv iota;
    rewrite (span_digits_uint u rest Hr);
    destruct (ends_value_cases rest Hr) as [->|[r [->|[->| ->]]]];
    reflexivity.
Qed.

Lemma match_number_zero (rest : string) :
  ends_value rest = true ->
  Json.match_number ("0" ++ rest) = Some (JInt 0, rest).
Proof.
  intros Hr.
  destruct (ends_value_cases rest Hr) as [->|[r [->|[->| ->]]]]; reflexivity.
Qed.

Lemma int_of_literal_str (z : Z) : Json.int_of_literal (PyStr.str_of_Z z) = z.
Proof.
  unfold Json.int_of_literal, PyStr.str_of_Z.
  assert (Hi : NilZero.int_of_string (NilZero.string_of_int (Z.to_int z))
               = Some (Z.to_int z)).
  { destruct z as [|p|p]; [reflexivity| |];
      apply NilZero.isi; simpl; intros [= Hx];
      now apply DecimalPos.Unsigned.to_uint_nonnil in Hx. }
  rewrite Hi. apply DecimalZ.of_to.
Qed.

Lemma match_number_str (z : Z) (rest : string) :
  ends_value rest = true ->
  Json.match_number (PyStr.str_of_Z z ++ rest) = Some (JInt z, rest).
Proof.
  intros Hr. rewrite <- (int_of_literal_str z) at 2.
  unfold PyStr.str_of_Z.
  destruct z as [|p|p]; [now apply match_number_zero| |];
    pose proof (pos_to_uint_head p) as Hh; simpl Z.to_int;
    unfold NilZero.string_of_int, NilZero.string_of_uint.
  - destruct (Pos.to_uint p) eqn:E; try contradiction;
      rewrite <- E in *;
      apply (match_number_digits false (Pos.to_uint p) rest); auto;
      rewrite E; exact I.
  - destruct (Pos.to_uint p) eqn:E; try contradiction;
      rewrite <- E in *;
      apply (match_number_digits true (Pos.to_uint p) rest); auto;
      rewrite E; exact I.
Qed.

(** *** Values *)

Lemma scan_once_S (f : nat) (s : string) :
  Json.scan_once (S f) s
  = match s with
    | String "034" r =>
        match Json.scanstring r with
        | Some (t, rest) => Some (JStr t, rest)
        | None => None
        end
    | String "{" r =>
        match Json.skip_ws r with
        | String "}" rest => Some (JObj [], rest)
        | String "034" r' =>
            match Json.object_members f [] r' with
            | Some (d, rest) => Some (JObj d, rest)
            | None => None
            end
        | _ => None
        end
    | String "[" r =>
        match Json.skip_ws r with
        | String "]" rest => Some (JArr [], rest)
        | r' =>
            match Json.array_items f r' with
            | Some (l, rest) => Some (JArr l, rest)
            | None => None
            end
        end
    | _ => Json.scan_atom s
    end.
Proof. reflexivity. Qed.

Lemma scan_once_bracket (f : nat) (r : string) :
  Json.scan_once (S f) (String "[" r)
  = match Json.skip_ws r with
    | EmptyString =>
        match Json.array_items f "" with
        | Some (l, rest) => Some (JArr l, rest)
        | None => None
        end
    | String c r' =>
        if Ascii.eqb c "]"%char then Some (JArr [], r')
        else
          match Json.array_items f (String c r') with
          | Some (l, rest) => Some (JArr l, rest)
          | None => None
          end
    end.
Proof.
  rewrite scan_once_S. cbv iota.
  destruct (Json.skip_ws r) as [|c r']; [reflexivity|].
  destruct c as [[] [] [] [] [] [] [] []]; reflexivity.
Qed.

Lemma scan_once_brace (f : nat) (r : string) :
  Json.scan_once (S f) (String "{" r)
  = match Json.skip_ws r with
    | EmptyString => None
    | String c r' =>
        if Ascii.eqb c "}"%char then Some (JObj [], r')
        else if Ascii.eqb c "034"%char then
          match Json.object_members f [] r' with
          | Some (d, rest) => Some (JObj d, rest)
          | None => None
          end
        else None
    end.
Proof.
  rewrite scan_once_S. cbv iota.
  destruct (Json.skip_ws r) as [|c r']; [reflexivity|].
  destruct c as [[] [] [] [] [] [] [] []]; reflexivity.
Qed.

Lemma array_items_S (f : nat) (s : string) :
  Json.array_items (S f) s
  = match Json.scan_once f s with
    | None => None
    | Some (value, r) =>
        match Json.skip_ws r with
        | EmptyString => None
        | String c r1 =>
            if Ascii.eqb c "]"%char then Some ([value], r1)
            else if Ascii.eqb c ","%char then
              match Json.array_items f (Json.skip_ws r1) with
              | Some (l, rest) => Some (value :: l, rest)
              | None => None
              end
            else None
        end
    end.
Proof.
  cbn [Json.array_items]. destruct (Json.scan_once f s) as [[value r]|];
    [|reflexivity].
  destruct (Json.skip_ws r) as [|c r1]; [reflexivity|].
  destruct c as [[] [] [] [] [] [] [] []]; reflexivity.
Qed.

Lemma object_members_S (f : nat) (acc : list (string * json)) (s : string) :
  Json.object_members (S f) acc s
  = match Json.scanstring s with
    | None => None
    | Some (key, r) =>
        match Json.skip_ws r with
        | EmptyString => None
        | String c r1 =>
            if Ascii.eqb c ":"%char then
              match Json.scan_once f (Json.skip_ws r1) with
              | None => None
              | Some (value, r2) =>
                  match Json.skip_ws r2 with
                  | EmptyString => None
                  | String c2 r3 =>
                      if Ascii.eqb c2 "}"%char
                      then Some (dict_set key value acc, r3)
                      else if Ascii.eqb c2 ","%char then
                        match Json.skip_ws r3 with
                        | EmptyString => None
                        | String c3 r4 =>
                            if Ascii.eqb c3 "034"%char
                            then Json.object_members f
                                   (dict_set key value acc) r4
                            else None
                        end
                      else None
                  end
              end
            else None
        end
    end.
Proof.
  cbn [Json.object_members].
  destruct (Json.scanstring s) as [[key r]|]; [|reflexivity].
  destruct (Json.skip_ws r) as [|c r1]; [reflexivity|].
  destruct c as [[] [] [] [] [] [] [] []]; try reflexivity.
  destruct (Json.scan_once f (Json.skip_ws r1)) as [[value r2]|];
    [|reflexivity].
  cbv zeta.
  destruct (Json.skip_ws r2) as [|c2 r3]; [reflexivity|].
  destruct c2 as [[] [] [] [] [] [] [] []]; try reflexivity.
  destruct (Json.skip_ws r3) as [|c3 r4]; [reflexivity|].
  destruct c3 as [[] [] [] [] [] [] [] []]; reflexivity.
Qed.

Lemma value_start_not_ws (c : ascii) :
  value_start c = true -> Json.is_ws c = false.
Proof. destruct c as [[] [] [] [] [] [] [] []]; (reflexivity || discriminate). Qed.

Lemma skip_ws_value_start (c : ascii) (t : string) :
  value_start c = true -> Json.skip_ws (String c t) = String c t.
Proof. intros Hc. simpl. now rewrite (value_start_not_ws c Hc). Qed.

Lemma scan_once_number (f : nat) (c : ascii) (t : string)
  (res : json * string) :
  (Json.is_digit c || Ascii.eqb c "-")%char = true ->
  Json.match_number (String c t) = Some res ->
  Json.scan_once (S f) (String c t) = Some res.
Proof.
  intros Hc Hm.
  assert (E : Json.scan_once (S f) (String c t)
              = match Json.match_number (String c t) with
                | Some r => Some r
                | None =>
                    match Json.strip_prefix "-Infinity" (String c t) with
                    | Some r => Some (JFloat "-Infinity", r)
                    | None => None
                    end
                end).
  { rewrite scan_once_S. unfold Json.scan_atom.
    destruct (Json.match_number (String c t)); clear Hm;
      destruct c as [[] [] [] [] [] [] [] []]; try discriminate Hc;
      reflexivity. }
  now rewrite E, Hm.
Qed.

Lemma str_of_Z_head (z : Z) :
  exists c t, PyStr.str_of_Z z = String c t
              /\ (Json.is_digit c || Ascii.eqb c "-")%char = true.
Proof.
  unfold PyStr.str_of_Z.
  destruct z as [|p|p]; simpl.
  - now exists "0"%char, "".
  - pose proof (pos_to_uint_head p) as Hh.
    destruct (Pos.to_uint p); try contradiction; simpl; eauto.
  - now exists "-"%char,
      (NilZero.string_of_uint (Pos.to_uint p)).
Qed.

Section Roundtrip.
Context `{PyRuntime}.

Lemma dumps_head (v : json) :
  well_formed v = true ->
  exists c t, Json.dumps v = String c t /\ value_start c = true.
Proof.
  destruct v as [|[]|z|lit|s|l|d]; simpl; intros Hw; try discriminate;
    try (eexists; eexists; split; [reflexivity | reflexivity]).
  destruct (str_of_Z_head z) as [c [t [E Hc]]]. exists c, t.
  split; [exact E|]. unfold value_start.
  apply orb_true_iff in Hc as [Hc|Hc]; rewrite Hc; simpl;
    now rewrite ?orb_true_r.
Qed.

Lemma reads_back_atoms :
  reads_back JNull
  /\ (forall b, reads_back (JBool b))
  /\ (forall z, reads_back (JInt z))
  /\ (forall s, reads_back (JStr s)).
Proof.
  unfold reads_back. repeat split.
  - intros _ rest [|f] _ Hf; [simpl in Hf; lia | reflexivity].
  - intros [] _ rest [|f] _ Hf; try (simpl in Hf; lia); reflexivity.
  - intros z _ rest fuel Hr Hf. simpl Json.dumps in *.
    destruct (str_of_Z_head z) as [c [t [E Hc]]].
    destruct fuel as [|f]; [rewrite E in Hf; simpl in Hf; lia|].
    pose proof (match_number_str z rest Hr) as Hm.
    rewrite E in *. simpl append in *.
    now apply scan_once_number.
  - intros s _ rest [|f] _ Hf; [simpl in Hf; lia|].
    simpl Json.dumps. rewrite encode_string_scan, scan_once_S.
    now rewrite scanstring_escape.
Qed.

(** *** Arrays *)

Lemma items_text_head (l : list json) :
  l <> [] -> forallb well_formed l = true ->
  exists c t, PyStr.join ", " (map Json.dumps l) = String c t
              /\ value_start c = true.
Proof.
  destruct l as [|x l]; [contradiction|]. intros _ Hw.
  cbn [forallb] in Hw. apply andb_true_iff in Hw as [Hx _].
  destruct (dumps_head x Hx) as [c [t [E Hc]]].
  cbn [map]. rewrite join_cons.
  destruct (map Json.dumps l); rewrite E; simpl; eauto.
Qed.

Lemma array_items_reads_back (l : list json) :
  l <> [] -> Forall reads_back l -> forallb well_formed l = true ->
  forall (rest : string) (fuel : nat),
    ends_value rest = true ->
    (String.length (PyStr.join ", " (map Json.dumps l)) < fuel)%nat ->
    Json.array_items fuel
      (PyStr.join ", " (map Json.dumps l) ++ String "]" rest)
    = Some (l, rest).
Proof.
  induction l as [|x l IH]; [contradiction|].
  intros _ Hrb Hw rest fuel Hr Hf.
  inversion Hrb as [|? ? Hx Hl]; subst.
  cbn [forallb] in Hw. apply andb_true_iff in Hw as [Hwx Hwl].
  destruct fuel as [|f]; [lia|].
  rewrite array_items_S.
  destruct l as [|y l].
  - cbn [map PyStr.join] in *.
    rewrite (Hx Hwx (String "]" rest) f eq_refl) by lia.
    reflexivity.
  - set (T := PyStr.join ", " (map Json.dumps (y :: l))) in *.
    change (PyStr.join ", " (map Json.dumps (x :: y :: l)))
      with (Json.dumps x ++ ", " ++ T) in Hf |- *.
    rewrite !string_app_assoc.
    rewrite !string_app_length in Hf. simpl String.length in Hf.
    rewrite (Hx Hwx (", " ++ T ++ String "]" rest) f eq_refl) by lia.
    change (Json.skip_ws (", " ++ T ++ String "]" rest))
      with (String "," (String " " (T ++ String "]" rest))).
    cbn [Ascii.eqb Bool.eqb]. cbv iota.
    destruct (items_text_head (y :: l) ltac:(discriminate) Hwl)
      as [c [t [E Hc]]].
    assert (Es : Json.skip_ws (String " " (T ++ String "]" rest))
                 = T ++ String "]" rest).
    { change (Json.skip_ws (String " " (T ++ String "]" rest)))
        with (Json.skip_ws (T ++ String "]" rest)).
      unfold T. rewrite E. simpl append. now apply skip_ws_value_start. }
    rewrite Es.
    rewrite (IH ltac:(discriminate) Hl Hwl rest f Hr) by lia.
    reflexivity.
Qed.

Lemma value_start_not_close (c : ascii) :
  value_start c = true ->
  Ascii.eqb c "]"%char = false /\ Ascii.eqb c "}"%char = false.
Proof.
  destruct c as [[] [] [] [] [] [] [] []]; (discriminate || now split).
Qed.

Lemma reads_back_array (l : list json) :
  Forall reads_back l -> reads_back (JArr l).
Proof.
  intros Hl Hw rest fuel Hr Hf. cbn [well_formed] in Hw.
  cbn [Json.dumps] in *.
  destruct fuel as [|f]; [simpl in Hf; lia|].
  change (("[" ++ PyStr.join ", " (map Json.dumps l) ++ "]") ++ rest)
    with (String "[" ((PyStr.join ", " (map Json.dumps l) ++ "]") ++ rest)).
  rewrite scan_once_bracket, string_app_assoc.
  change ("]" ++ rest) with (String "]" rest).
  destruct l as [|x l]; [reflexivity|].
  destruct (items_text_head (x :: l) ltac:(discriminate) Hw)
    as [c [t [E Hc]]].
  assert (Hai := array_items_reads_back (x :: l) ltac:(discriminate) Hl Hw
                   rest f Hr).
  change (String.length
            ("[" ++ PyStr.join ", " (map Json.dumps (x :: l)) ++ "]"))
    with (S (String.length
               (PyStr.join ", " (map Json.dumps (x :: l)) ++ "]"))) in Hf.
  rewrite string_app_length in Hf. simpl (String.length "]") in Hf.
  specialize (Hai ltac:(lia)).
  rewrite E in *. simpl append in *.
  rewrite (skip_ws_value_start c _ Hc).
  destruct (value_start_not_close c Hc) as [-> _].
  now rewrite Hai.
Qed.

(** *** Objects *)

Local Abbreviation member_text :=
  (fun kv : string * json =>
     Json.encode_string (fst kv) ++ ": " ++ Json.dumps (snd kv)).

Lemma string_eqb_sym (a b : string) : String.eqb a b = String.eqb b a.
Proof.
  destruct (String.eqb a b) eqn:E.
  - apply String.eqb_eq in E. subst. symmetry. apply String.eqb_refl.
  - symmetry. apply String.eqb_neq. apply String.eqb_neq in E. congruence.
Qed.

Lemma dict_set_fresh (k : string) (v : json) (acc : list (string * json))
  (l : list string) :
  distinct (map fst acc ++ k :: l)%list = true ->
  dict_set k v acc = (acc ++ [(k, v)])%list.
Proof.
  induction acc as [|[k' v'] acc IH]; [reflexivity|].
  cbn [map fst app distinct dict_set]. intros Hd.
  apply andb_true_iff in Hd as [Hk Hd].
  apply negb_true_iff in Hk. rewrite existsb_app in Hk.
  apply orb_false_iff in Hk as [_ Hk]. cbn [existsb] in Hk.
  apply orb_false_iff in Hk as [Hk _].
  rewrite string_eqb_sym, Hk. now rewrite IH.
Qed.

Lemma member_text_app (k : string) (v : json) (tail : string) :
  (Json.encode_string k ++ ": " ++ Json.dumps v) ++ tail
  = String "034"
      (Json.escape k
       ++ String "034" (String ":" (String " " (Json.dumps v ++ tail)))).
Proof.
  unfold Json.encode_string. simpl.
  now rewrite !string_app_assoc.
Qed.

(** one turn of the loop of [JSONObject] on a member [dumps] wrote *)
Lemma object_member_step (k : string) (v : json)
  (acc : list (string * json)) (tail : string) (f : nat) :
  reads_back v -> well_formed v = true -> ends_value tail = true ->
  (String.length (Json.dumps v) <= f)%nat ->
  Json.object_members (S f) acc
    (Json.escape k
     ++ String "034" (String ":" (String " " (Json.dumps v ++ tail))))
  = match Json.skip_ws tail with
    | EmptyString => None
    | String c2 r3 =>
        if Ascii.eqb c2 "}"%char then Some (dict_set k v acc, r3)
        else if Ascii.eqb c2 ","%char then
          match Json.skip_ws r3 with
          | EmptyString => None
          | String c3 r4 =>
              if Ascii.eqb c3 "034"%char
              then Json.object_members f (dict_set k v acc) r4
              else None
          end
        else None
    end.
Proof.
  intros Hv Hw Ht Hf.
  rewrite object_members_S, scanstring_escape.
  destruct (dumps_head v Hw) as [c [t [Ev Hc]]].
  change (Json.skip_ws (String ":" (String " " (Json.dumps v ++ tail))))
    with (String ":" (String " " (Json.dumps v ++ tail))).
  cbn [Ascii.eqb Bool.eqb]. cbv iota.
  assert (Es : Json.skip_ws (String " " (Json.dumps v ++ tail))
               = Json.dumps v ++ tail).
  { change (Json.skip_ws (String " " (Json.dumps v ++ tail)))
      with (Json.skip_ws (Json.dumps v ++ tail)).
    rewrite Ev. simpl append. now apply skip_ws_value_start. }
  rewrite Es, (Hv Hw tail f Ht Hf). reflexivity.
Qed.

Lemma object_members_reads_back (d : list (string * json)) :
  d <> [] ->
  Forall (fun kv => reads_back (snd kv)) d ->
  forallb (fun kv => well_formed (snd kv)) d = true ->
  forall (acc : list (string * json)) (rest : string) (fuel : nat),
    ends_value rest = true ->
    distinct (map fst acc ++ map fst d)%list = true ->
    (String.length (PyStr.join ", " (map member_text d)) <= fuel)%nat ->
    exists body,
      PyStr.join ", " (map member_text d) = String "034" body
      /\ Json.object_members fuel acc (body ++ String "}" rest)
         = Some ((acc ++ d)%list, rest).
Proof.
  induction d as [|[k v] d IH]; [contradiction|].
  intros _ Hrb Hw acc rest fuel Hr Hd Hf.
  inversion Hrb as [|? ? Hv Hl]; subst. cbn [snd] in Hv.
  cbn [forallb snd] in Hw. apply andb_true_iff in Hw as [Hwv Hwl].
  cbn [map fst] in Hd.
  set (M := PyStr.join ", " (map member_text ((k, v) :: d))) in *.
  destruct d as [|kv' d].
  - (* the last member *)
    assert (EM : M = (Json.encode_string k ++ ": " ++ Json.dumps v) ++ "")
      by (unfold M; cbn [map PyStr.join fst snd];
          now rewrite string_app_nil_r).
    rewrite member_text_app in EM. eexists. split; [exact EM|].
    rewrite EM in Hf. cbn [String.length] in Hf.
    rewrite !string_app_length in Hf. cbn [String.length] in Hf.
    rewrite string_app_length in Hf.
    destruct fuel as [|f]; [lia|].
    rewrite ?string_app_assoc. cbn [append].
    rewrite ?string_app_assoc. cbn [append].
    rewrite (object_member_step k v acc (String "}" rest) f Hv Hwv eq_refl)
      by (simpl; lia).
    cbn. rewrite (dict_set_fresh k v acc [] Hd). reflexivity.
  - (* a member followed by others *)
    set (T := PyStr.join ", " (map member_text (kv' :: d))) in *.
    assert (EM : M = (Json.encode_string k ++ ": " ++ Json.dumps v)
                     ++ ", " ++ T) by reflexivity.
    rewrite member_text_app in EM. eexists. split; [exact EM|].
    rewrite EM in Hf. cbn [String.length] in Hf.
    rewrite !string_app_length in Hf. cbn [String.length] in Hf.
    rewrite !string_app_length in Hf. cbn [String.length] in Hf.
    destruct fuel as [|f]; [lia|].
    assert (Hd' : distinct (map fst (acc ++ [(k, v)]) ++ map fst (kv' :: d))%list
                  = true).
    { rewrite map_app, <- app_assoc. exact Hd. }
    destruct (IH ltac:(discriminate) Hl Hwl (acc ++ [(k, v)])%list rest f
                Hr Hd' ltac:(fold T; lia)) as [body' [ET Hom]].
    fold T in ET.
    rewrite ?string_app_assoc. cbn [append].
    rewrite ?string_app_assoc. cbn [append].
    rewrite ?string_app_assoc.
    rewrite (object_member_step k v acc
               (String "," (String " " (T ++ String "}" rest)))
               f Hv Hwv eq_refl)
      by lia.
    rewrite ET. cbn.
    rewrite (dict_set_fresh k v acc (map fst (kv' :: d)) Hd).
    rewrite Hom, <- app_assoc. reflexivity.
Qed.

Lemma reads_back_object (d : list (string * json)) :
  Forall (fun kv => reads_back (snd kv)) d -> reads_back (JObj d).
Proof.
  intros Hl Hw rest fuel Hr Hf. cbn [well_formed] in Hw.
  apply andb_true_iff in Hw as [Hd Hw].
  cbn [Json.dumps] in *.
  destruct fuel as [|f]; [simpl in Hf; lia|].
  change (("{" ++ PyStr.join ", " (map member_text d) ++ "}") ++ rest)
    with (String "{" ((PyStr.join ", " (map member_text d) ++ "}") ++ rest)).
  rewrite scan_once_brace, string_app_assoc.
  change ("}" ++ rest) with (String "}" rest).
  destruct d as [|kv d]; [reflexivity|].
  change (String.length
            ("{" ++ PyStr.join ", " (map member_text (kv :: d)) ++ "}"))
    with (S (String.length
               (PyStr.join ", " (map member_text (kv :: d)) ++ "}"))) in Hf.
  rewrite string_app_length in Hf. simpl (String.length "}") in Hf.
  destruct (object_members_reads_back (kv :: d) ltac:(discriminate) Hl Hw
              [] rest f Hr Hd ltac:(lia)) as [body [EM Hom]].
  rewrite EM. cbn [append].
  change (Json.skip_ws (String "034" (body ++ String "}" rest)))
    with (String "034" (body ++ String "}" rest)).
  cbn. now rewrite Hom.
Qed.

(** every well-formed value is read back *)
Lemma reads_back_all (v : json) : reads_back v.
Proof.
  induction v using json_induction.
  - apply reads_back_atoms.
  - apply reads_back_atoms.
  - apply reads_back_atoms.
  - intros Hw. discriminate.
  - apply reads_back_atoms.
  - now apply reads_back_array.
  - now apply reads_back_object.
Qed.

Lemma loads_dumps (v : json) :
  well_formed v = true -> Json.loads (Json.dumps v) = Some v.
Proof.
  intros Hw. unfold Json.loads.
  destruct (dumps_head v Hw) as [c [t [E Hc]]].
  assert (Es : Json.skip_ws (Json.dumps v) = Json.dumps v)
    by (rewrite E; now apply skip_ws_value_start).
  rewrite Es. cbv zeta.
  rewrite <- (string_app_nil_r (Json.dumps v)) at 2.
  rewrite (reads_back_all v Hw "" _ eq_refl) by lia.
  reflexivity.
Qed.
End Roundtrip.

(** ** The response extractor *)

Lemma rstrip_app_last (a : string) (c : ascii) :
  PyStr.isspace c = false ->
  PyStr.rstrip (a ++ String c "") = a ++ String c "".
Proof.
  intros Hc. induction a as [|x a IH]; simpl; [now rewrite Hc|].
  rewrite IH. now destruct a.
Qed.

Lemma strip_braced (mid : string) :
  PyStr.strip ("{" ++ mid ++ "}") = "{" ++ mid ++ "}".
Proof.
  unfold PyStr.strip.
  change (PyStr.lstrip ("{" ++ mid ++ "}")) with ("{" ++ mid ++ "}").
  rewrite <- string_app_assoc. now apply rstrip_app_last.
Qed.

(** *** The brace span *)







(** ** The bound on nested calls is enough

    A successful scan consumes at least as many characters as it makes
    nested calls, so whatever some bound lets [scan_once] read, the bound
    [S (length s)] that [loads] uses lets it read too: a [None] of [loads]
    is a decoding error, never a lack of fuel. *)















Section Extract.
Context `{PyRuntime}.


End Extract.

(** * More properties of the code *)

(** ** Words, and the shape of a normal form *)

Lemma words_app_word (w r : string) :
  wordy w ->
  match r with String d _ => PyStr.isspace d | EmptyString => true end = true ->
  words (w ++ r) = w :: words r.
Proof.
  intros [Hne Hns] Hr. induction w as [|c w IH]; [congruence|].
  simpl in Hns. apply andb_prop in Hns as [Hc Hw].
  apply negb_true_iff in Hc.
  change (String c w ++ r) with (String c (w ++ r)).
  rewrite (words_cons_eq c (w ++ r) Hc).
  destruct w as [|c' w'].
  - simpl append. destruct r as [|d r']; [reflexivity|].
    now rewrite Hr.
  - assert (IH' : words (String c' w' ++ r) = String c' w' :: words r)
      by (apply IH; [discriminate | assumption]).
    change (String c' w' ++ r) with (String c' (w' ++ r)) in *.
    simpl in Hw. apply andb_prop in Hw as [Hc' _].
    apply negb_true_iff in Hc'. rewrite Hc'. now rewrite IH'.
Qed.

Lemma words_wordy (s : string) : Forall wordy (words s).
Proof.
  induction s as [|c s IH]; [constructor|].
  destruct (PyStr.isspace c) eqn:Hc.
  - simpl. now rewrite Hc.
  - rewrite (words_cons_eq c s Hc).
    assert (Hone : wordy (String c "")).
    { split; [discriminate|]. simpl. now rewrite Hc. }
    destruct s as [|d s]; [now constructor|].
    destruct (PyStr.isspace d) eqn:Hd; [now constructor|].
    destruct (words (String d s)) as [|w ws]; [now constructor|].
    inversion IH as [|? ? [Hw1 Hw2] Hws]; subst.
    constructor; [|assumption].
    split; [discriminate|]. simpl. now rewrite Hc, Hw2.
Qed.

Lemma words_join_wordy (ws : list string) :
  Forall wordy ws -> words (PyStr.join " " ws) = ws.
Proof.
  induction 1 as [|w ws Hw Hws IH]; [reflexivity|].
  rewrite join_cons. destruct ws as [|w' ws'].
  - rewrite <- (string_app_nil_r w) at 1.
    now rewrite (words_app_word w "" Hw eq_refl).
  - rewrite (words_app_word w (" " ++ PyStr.join " " (w' :: ws')) Hw eq_refl).
    change (words (" " ++ PyStr.join " " (w' :: ws')))
      with (words (PyStr.join " " (w' :: ws'))).
    now rewrite IH.
Qed.

Lemma wordy_lower (w : string) : wordy w -> wordy (PyStr.lower w).
Proof.
  intros [Hne Hns]. split.
  - destruct w; [congruence | discriminate].
  - clear Hne. induction w as [|c w IH]; [reflexivity|].
    simpl in *. apply andb_prop in Hns as [Hc Hw].
    now rewrite isspace_lower_char, Hc, IH.
Qed.

Lemma lower_idem (s : string) : PyStr.lower (PyStr.lower s) = PyStr.lower s.
Proof.
  induction s as [|c s IH]; simpl; [reflexivity|].
  now rewrite lower_char_idem, IH.
Qed.

Lemma words_blank (s : string) : words s = [] <-> blank s = true.
Proof.
  induction s as [|c s IH]; [simpl; tauto|].
  destruct (PyStr.isspace c) eqn:Hc.
  - simpl. now rewrite Hc.
  - simpl blank. rewrite Hc. simpl. split; [|discriminate].
    intros Hw. now apply (words_cons_nonspace c s Hc) in Hw.
Qed.

Lemma join_wordy_empty (ws : list string) :
  Forall wordy ws -> (PyStr.join " " ws = "" <-> ws = []).
Proof.
  intros Hws. split; [|now intros ->].
  destruct Hws as [|w ws [Hne _] _]; [reflexivity|].
  rewrite join_cons. destruct w; [congruence|].
  destruct ws; discriminate.
Qed.

Lemma lstrip_wordy_head (w r : string) :
  wordy w -> PyStr.lstrip (w ++ r) = w ++ r.
Proof.
  intros [Hne Hns]. destruct w as [|c w]; [congruence|].
  simpl in *. apply andb_prop in Hns as [Hc _].
  apply negb_true_iff in Hc. now rewrite Hc.
Qed.

Lemma rstrip_wordy (w : string) : no_space w = true -> PyStr.rstrip w = w.
Proof.
  induction w as [|c w IH]; [reflexivity|].
  intros Hns. simpl in Hns. apply andb_prop in Hns as [Hc Hw].
  apply negb_true_iff in Hc.
  rewrite (rstrip_cons_nonspace c w Hc). now rewrite IH.
Qed.

Lemma rstrip_app_fix (a j : string) :
  PyStr.rstrip j = j -> j <> "" -> PyStr.rstrip (a ++ j) = a ++ j.
Proof.
  intros Hj Hne. induction a as [|c a IH]; [exact Hj|].
  change (String c a ++ j) with (String c (a ++ j)).
  rewrite rstrip_cons_nonempty; rewrite IH; [reflexivity|].
  destruct a; [exact Hne | discriminate].
Qed.

Lemma rstrip_join_wordy (ws : list string) :
  Forall wordy ws -> PyStr.rstrip (PyStr.join " " ws) = PyStr.join " " ws.
Proof.
  induction 1 as [|w ws Hw Hws IH]; [reflexivity|].
  rewrite join_cons. destruct ws as [|w' ws'].
  - apply rstrip_wordy, Hw.
  - rewrite <- string_app_assoc. apply rstrip_app_fix; [exact IH|].
    intros Hn. apply (join_wordy_empty _ Hws) in Hn. discriminate.
Qed.

Lemma strip_join_wordy (ws : list string) :
  Forall wordy ws -> PyStr.strip (PyStr.join " " ws) = PyStr.join " " ws.
Proof.
  intros Hws. unfold PyStr.strip.
  assert (Hl : PyStr.lstrip (PyStr.join " " ws) = PyStr.join " " ws).
  { destruct Hws as [|w ws Hw Hws]; [reflexivity|].
    rewrite join_cons. destruct ws.
    - rewrite <- (string_app_nil_r w). now apply lstrip_wordy_head.
    - now apply lstrip_wordy_head. }
  rewrite Hl. now apply rstrip_join_wordy.
Qed.

(** *** Lengths *)

Lemma lstrip_length (s : string) :
  (String.length (PyStr.lstrip s) <= String.length s)%nat.
Proof.
  induction s as [|c s IH]; simpl; [lia|].
  destruct (PyStr.isspace c); simpl; lia.
Qed.

Lemma rstrip_length (s : string) :
  (String.length (PyStr.rstrip s) <= String.length s)%nat.
Proof.
  induction s as [|c s IH]; simpl; [lia|].
  destruct (PyStr.rstrip s); [destruct (PyStr.isspace c)|];
    cbn [String.length] in *; lia.
Qed.

Lemma strip_length (s : string) :
  (String.length (PyStr.strip s) <= String.length s)%nat.
Proof.
  unfold PyStr.strip.
  pose proof (rstrip_length (PyStr.lstrip s)). pose proof (lstrip_length s).
  lia.
Qed.

Lemma lower_length (s : string) :
  String.length (PyStr.lower s) = String.length s.
Proof. induction s as [|c s IH]; simpl; [reflexivity | now rewrite IH]. Qed.

Lemma sub_ws_from_length (b : bool) (s : string) :
  (String.length (PyStr.sub_ws_from b s) <= String.length s)%nat.
Proof.
  revert b. induction s as [|c s IH]; intros b; simpl; [lia|].
  destruct (PyStr.isspace c); [destruct b|]; cbn [String.length];
    [specialize (IH true) | specialize (IH true) | specialize (IH false)];
    lia.
Qed.

Lemma norm_length (s : string) :
  (String.length (_norm s) <= String.length s)%nat.
Proof.
  unfold _norm, PyStr.sub_ws.
  pose proof (sub_ws_from_length false (PyStr.lower (PyStr.strip s))) as H1.
  rewrite lower_length in H1. pose proof (strip_length s). lia.
Qed.

Lemma norm_wordy (s : string) : Forall wordy (map PyStr.lower (words s)).
Proof.
  apply Forall_map. eapply Forall_impl; [|apply words_wordy].
  apply wordy_lower.
Qed.

Lemma norm_idem (s : string) : _norm (_norm s) = _norm s.
Proof.
  rewrite (norm_words (_norm s)), (norm_words s).
  rewrite (words_join_wordy _ (norm_wordy s)), map_map.
  f_equal. apply map_ext. intros w. apply lower_idem.
Qed.

(** X1.  The normal form [_norm] both agents compare texts in is a normal
    form indeed: it is the words of the text in lower case with one space
    between them; normalizing twice is normalizing once, each of the three
    steps (strip, lower-case, collapse white space) leaves a normal form as
    it is, and the normal form is empty exactly for a text of white space
    only. *)
Theorem norm_is_a_normal_form (s : string) :
  _norm s = PyStr.join " " (map PyStr.lower (words s))
  /\ _norm (_norm s) = _norm s
  /\ PyStr.strip (_norm s) = _norm s
  /\ PyStr.lower (_norm s) = _norm s
  /\ PyStr.sub_ws (_norm s) = _norm s
  /\ (_norm s = "" <-> blank s = true).
Proof.
  pose proof (norm_wordy s) as Hw.
  assert (Hstrip : PyStr.strip (_norm s) = _norm s)
    by (rewrite norm_words; now apply strip_join_wordy).
  assert (Hlower : PyStr.lower (_norm s) = _norm s).
  { rewrite norm_words, lower_join, map_map. f_equal.
    apply map_ext. intros w. apply lower_idem. }
  split; [apply norm_words|].
  split; [apply norm_idem|]. split; [exact Hstrip|].
  split; [exact Hlower|]. split.
  - pose proof (norm_idem s) as Hi. unfold _norm at 1 in Hi.
    now rewrite Hstrip, Hlower in Hi.
  - rewrite norm_words, (join_wordy_empty _ Hw), <- words_blank.
    destruct (words s); simpl; split; congruence.
Qed.

(** ** The two flows: what they return and when they raise *)

Lemma descending_filter {A : Type} (key : A -> Z) (f : A -> bool)
  (l : list A) :
  descending key l -> descending key (filter f l).
Proof.
  unfold descending. induction 1 as [|x l Hs IH Hx]; simpl; [constructor|].
  destruct (f x); [|assumption].
  constructor; [assumption|].
  rewrite Forall_forall in *. intros y Hy. apply Hx.
  now apply filter_In in Hy.
Qed.

Lemma descending_firstn {A : Type} (key : A -> Z) (n : nat) (l : list A) :
  descending key l -> descending key (firstn n l).
Proof.
  unfold descending. intros Hd. revert n.
  induction Hd as [|x l Hs IH Hx]; intros [|n]; simpl; try constructor.
  - apply IH.
  - rewrite Forall_forall in *. intros y Hy. apply Hx.
    now apply firstn_in in Hy.
Qed.

Lemma string_cons_app_neq (c : ascii) (a b : string) :
  String c a ++ b <> "".
Proof. discriminate. Qed.

Section FlowsMore.
Context `{PyRuntime} (env : Env) (svc : Services).

Lemma from_object_invariants (pid : string) (best : Citation)
  (obj : list (string * json)) :
  let r := risk_assessor.from_object pid best obj in
  In (category r) canonical_categories
  /\ rationale r <> "" /\ recommended_action r <> ""
  /\ ar_patient_id r = pid /\ citations r = [best].
Proof.
  unfold risk_assessor.from_object. cbv zeta.
  pose proof (map_category_canonical
                match dict_get "category" obj with
                | Some v => py_str v
                | None => ""
                end) as Hcat.
  destruct (String.eqb (PyStr.strip (get_or_empty_str "rationale" obj)) "")
    eqn:Er;
    destruct (String.eqb
                (PyStr.strip (get_or_empty_str "recommended_action" obj)) "")
      eqn:Ea;
    try apply String.eqb_neq in Er; try apply String.eqb_neq in Ea;
    repeat match goal with
           | |- context [if ?b then _ else _] => destruct b
           end;
    cbn [category rationale recommended_action ar_patient_id citations];
    repeat split; try assumption; try discriminate;
    simpl; tauto.
Qed.

Lemma model_failed_invariants (pid : string) (best : Citation)
  (ty msg : string) :
  let r := risk_assessor.model_failed pid best ty msg in
  In (category r) canonical_categories
  /\ rationale r <> "" /\ recommended_action r <> ""
  /\ ar_patient_id r = pid /\ citations r = [best].
Proof.
  unfold risk_assessor.model_failed. cbv zeta.
  repeat match goal with
         | |- context [if ?b then _ else _] => destruct b
         end;
    cbn [category rationale recommended_action ar_patient_id citations];
    repeat split; try discriminate; simpl; tauto.
Qed.

(** X2.  Whatever the retriever and the model do, a response the assess
    flow returns is well formed: its category is one of the four canonical
    values (so the response model never refuses it), rationale and
    recommended action are not empty, and the patient id is the one of the
    record.  It carries no citation exactly when nothing was retrieved (the
    retriever raised, or returned no candidate), and its category is then
    insufficient_evidence. *)
Theorem assess_response_well_formed (patient : Patient) (r : AssessResponse) :
  snd (risk_assessor.assess_patient env svc patient) = Returned r ->
  let retrieved :=
    retrieve svc (risk_assessor._stable_query patient) (NG12_TOP_K env) in
  In (category r) canonical_categories
  /\ rationale r <> ""
  /\ recommended_action r <> ""
  /\ ar_patient_id r = get_str (patient_id patient)
  /\ (citations r = [] <->
      retrieved = Returned [] \/ exists ty msg, retrieved = Raised ty msg)
  /\ (citations r = [] -> category r = "insufficient_evidence").
Proof.
  unfold risk_assessor.assess_patient. cbv zeta.
  destruct (retrieve svc (risk_assessor._stable_query patient)
              (NG12_TOP_K env)) as [cands|ty msg] eqn:Hr.
  - destruct cands as [|c0 cands].
    + simpl. intros [= <-]. simpl.
      repeat split; try discriminate; try tauto.
    + destruct (risk_assessor._rank_citations (c0 :: cands) patient)
        as [|best rest] eqn:Hk; [discriminate|].
      destruct (risk_assessor.generate_object env svc
                  (risk_assessor.assess_prompt patient best))
        as [calls g].
      assert (Hgoal : forall r0 : AssessResponse,
                In (category r0) canonical_categories
                /\ rationale r0 <> "" /\ recommended_action r0 <> ""
                /\ ar_patient_id r0 = get_str (patient_id patient)
                /\ citations r0 = [best] ->
                In (category r0) canonical_categories
                /\ rationale r0 <> ""
                /\ recommended_action r0 <> ""
                /\ ar_patient_id r0 = get_str (patient_id patient)
                /\ (citations r0 = [] <->
                    Returned (c0 :: cands) = Returned []
                    \/ exists ty msg,
                         @Returned (list Citation) (c0 :: cands)
                         = Raised ty msg)
                /\ (citations r0 = [] ->
                    category r0 = "insufficient_evidence")).
      { intros r0 [H1 [H2 [H3 [H4 H5]]]].
        repeat split; try assumption; rewrite H5; try discriminate.
        intros [Hx|[ty [msg Hx]]]; discriminate. }
      simpl. destruct g as [v|ty msg].
      * destruct v; try discriminate. intros [= <-].
        apply Hgoal, from_object_invariants.
      * intros [= <-]. apply Hgoal, model_failed_invariants.
  - simpl. intros [= <-]. simpl.
    repeat split; try discriminate; try tauto.
    intros _. right. now exists ty, msg.
Qed.
Lemma descending_firstn_skipn {A : Type} (key : A -> Z) (n : nat)
  (l : list A) (x y : A) :
  descending key l -> In x (firstn n l) -> In y (skipn n l) ->
  key y <= key x.
Proof.
  unfold descending. intros Hd. revert n.
  induction Hd as [|a l Hs IH Ha]; intros [|n]; simpl; try tauto.
  intros [->|Hx] Hy.
  - rewrite Forall_forall in Ha. apply Ha.
    rewrite <- (firstn_skipn n l). apply in_or_app. now right.
  - now apply (IH n).
Qed.

(** X4.  What the chat flow returns is grounded in gated evidence, best
    first: the answer is never empty; the citations are at most
    [max(1, NG12_CHAT_TOP_CITATIONS)], each was retrieved and passes the
    evidence gate, their scores never increase, and a retrieved candidate
    that passes the gate and is not cited scores no higher than any
    citation.  There is no citation exactly when no retrieved candidate
    passes the gate; the answer is then the fixed sentence, and the model
    was called exactly when there is a citation. *)
Theorem chat_answer_grounded_best_first
  (patient : Patient) (message answer : string) (cits : list Citation) :
  snd (chat_agent.answer_question env svc patient message)
  = Returned (answer, cits) ->
  let score := fun c => chat_agent._score_citation c patient message in
  let gate := fun c => chat_agent._citation_supported_by_patient c patient in
  let query := chat_agent.chat_query patient message in
  answer <> ""
  /\ (List.length cits
      <= Z.to_nat (Z.max 1 (NG12_CHAT_TOP_CITATIONS env)))%nat
  /\ descending score cits
  /\ (exists raw : list Citation,
        retrieve svc query (NG12_TOP_K env) = Returned raw
        /\ (forall c, In c cits -> In c raw /\ gate c = true)
        /\ (forall c, In c raw -> gate c = true ->
            In c cits \/ forall c', In c' cits -> score c <= score c')
        /\ (cits = [] <-> forall c, In c raw -> gate c = false))
  /\ (cits = [] -> answer = chat_agent.no_excerpt_sentence)
  /\ (cits = [] <->
      fst (chat_agent.answer_question env svc patient message)
      = [EvRetrieve query (NG12_TOP_K env)])
  /\ (cits <> [] <->
      fst (chat_agent.answer_question env svc patient message)
      = [EvRetrieve query (NG12_TOP_K env);
         EvGenerate (NG12_MODEL env)
           (chat_agent.chat_prompt patient message cits)]).
Proof.
  intros Hres score gate query. revert Hres.
  unfold chat_agent.answer_question. cbv zeta. fold query.
  destruct (retrieve svc query (NG12_TOP_K env)) as [raw|ty msg] eqn:Hr;
    [|discriminate].
  fold gate.
  set (ranked := chat_agent._rank_citations raw patient message).
  set (k := Z.to_nat (Z.max 1 (NG12_CHAT_TOP_CITATIONS env))).
  assert (Hk : (1 <= k)%nat) by (unfold k; lia).
  assert (Hperm : Permutation ranked raw) by apply sorted_desc_perm.
  assert (Hdesc : descending score (filter gate ranked))
    by (apply descending_filter, sorted_desc_descending).
  assert (Hshape :
    let top := firstn k (filter gate ranked) in
    (List.length top <= k)%nat
    /\ descending score top
    /\ (forall c, In c top -> In c raw /\ gate c = true)
    /\ (forall c, In c raw -> gate c = true ->
        In c top \/ forall c', In c' top -> score c <= score c')
    /\ (top = [] <-> forall c, In c raw -> gate c = false)).
  { cbv zeta. split; [apply firstn_le_length|].
    split; [now apply descending_firstn|]. split; [|split].
    - intros c Hc. apply firstn_in, filter_In in Hc as [Hc Hg].
      split; [|exact Hg]. now apply (Permutation_in c Hperm).
    - intros c Hc Hg.
      assert (Hin : In c (filter gate ranked)).
      { apply filter_In. split; [|exact Hg].
        now apply (Permutation_in c (Permutation_sym Hperm)). }
      rewrite <- (firstn_skipn k (filter gate ranked)) in Hin.
      apply in_app_or in Hin as [Hin|Hin]; [now left | right].
      intros c' Hc'.
      now apply (descending_firstn_skipn score k (filter gate ranked)).
    - split.
      + intros Htop c Hc.
        destruct (gate c) eqn:Hg; [exfalso | reflexivity].
        assert (Hin : In c (filter gate ranked)).
        { apply filter_In. split; [|exact Hg].
          now apply (Permutation_in c (Permutation_sym Hperm)). }
        destruct (filter gate ranked) as [|x l]; [destruct Hin|].
        destruct k; [lia | discriminate].
      + intros Hall.
        destruct (filter gate ranked) as [|x l] eqn:Ef;
          [now rewrite firstn_nil|].
        assert (Hx : In x (filter gate ranked)) by (rewrite Ef; now left).
        apply filter_In in Hx as [Hx Hg].
        rewrite (Hall x) in Hg; [discriminate|].
        now apply (Permutation_in x Hperm). }
  cbv zeta in Hshape.
  destruct (firstn k (filter gate ranked)) as [|c0 top'] eqn:Et.
  - cbn [snd fst]. intros [= <- <-].
    destruct Hshape as [H1 [H2 [H3 [H4 H5]]]].
    split; [discriminate|]. split; [simpl; lia|]. split; [exact H2|].
    split; [exists raw; repeat split; try apply H3; try apply H4;
            try apply H5; auto|].
    split; [reflexivity|]. split; [tauto|].
    split; [congruence | discriminate].
  - destruct (project_set env); [|discriminate]. cbn [snd fst].
    destruct (generate svc (NG12_MODEL env)
                (chat_agent.chat_prompt patient message (c0 :: top')))
      as [text|ty msg]; [|discriminate].
    destruct (_extract_json text) as [| | | | | |obj]; try discriminate.
    intros [= <- <-].
    destruct Hshape as [H1 [H2 [H3 [H4 H5]]]].
    split.
    { destruct (String.eqb (PyStr.strip (get_or_empty_str "answer" obj)) "")
        eqn:Ea; [discriminate | now apply String.eqb_neq in Ea]. }
    split; [exact H1|]. split; [exact H2|].
    split; [exists raw; repeat split; try apply H3; try apply H4;
            try apply H5; auto|].
    split; [discriminate|]. split; [split; discriminate|].
    split; [reflexivity | discriminate].
Qed.

End FlowsMore.

(** ** The session store *)

Lemma store_get_setitem (k k' : string) (v : list models.Message)
  (st : session_store.store) :
  session_store.get k' (session_store.setitem k v st)
  = if String.eqb k' k then Some v else session_store.get k' st.
Proof.
  induction st as [|[k0 v0] st IH]; simpl.
  - now destruct (String.eqb k' k).
  - destruct (String.eqb k k0) eqn:E0; simpl.
    + apply String.eqb_eq in E0. subst k0.
      now destruct (String.eqb k' k).
    + rewrite IH. destruct (String.eqb k' k) eqn:E1; [|reflexivity].
      apply String.eqb_eq in E1. subst k'. now rewrite E0.
Qed.

Lemma store_get_pop (k k' : string) (st : session_store.store) :
  session_store.get k' (session_store.pop k st)
  = if String.eqb k' k then None else session_store.get k' st.
Proof.
  unfold session_store.pop.
  induction st as [|[k0 v0] st IH]; simpl.
  - now destruct (String.eqb k' k).
  - destruct (String.eqb k k0) eqn:E0; simpl.
    + apply String.eqb_eq in E0. subst k0. rewrite IH.
      now destruct (String.eqb k' k).
    + rewrite IH. destruct (String.eqb k' k) eqn:E1; [|reflexivity].
      apply String.eqb_eq in E1. subst k'. now rewrite E0.
Qed.

Lemma store_pop_absent (k : string) (st : session_store.store) :
  session_store.get k st = None -> session_store.pop k st = st.
Proof.
  unfold session_store.pop.
  induction st as [|[k0 v0] st IH]; simpl; [reflexivity|].
  destruct (String.eqb k k0); [discriminate|].
  intros Hg. simpl. now rewrite IH.
Qed.

(** the history after a call of [add_message] with one of the two
    roles *)
Lemma add_message_valid (st : session_store.store)
  (pid role content : string) :
  role = "user" \/ role = "assistant" ->
  snd (session_store.add_message st pid role content) = session_store.Done
  /\ (forall q : string,
        session_store.get_history
          (fst (session_store.add_message st pid role content)) q
        = if String.eqb q pid
          then (session_store.get_history st pid
                ++ [models.mkMessage role content])%list
          else session_store.get_history st q).
Proof.
  intros Hrole. unfold session_store.add_message. cbv zeta.
  assert (Hm : models.new_Message role content
               = Some (models.mkMessage role content))
    by (destruct Hrole as [->| ->]; reflexivity).
  rewrite Hm. cbn [fst snd]. split; [reflexivity|].
  intros q. unfold session_store.get_history.
  rewrite store_get_setitem.
  destruct (session_store.get pid st) as [l|] eqn:Eg.
  - rewrite Eg. now destruct (String.eqb q pid).
  - rewrite !store_get_setitem, String.eqb_refl.
    destruct (String.eqb q pid); reflexivity.
Qed.

(** X6.  [add_message] appends to the history of its patient and to no
    other: with one of the two roles the call returns, and the patient's
    history is the old one followed by the new message.  With any other
    role the construction of the message raises, and every history reads
    as before.  The history of another patient is the same after the call
    in both cases. *)
Theorem add_message_appends_to_one_history
  (st : session_store.store) (pid role content : string) :
  let after := session_store.add_message st pid role content in
  (role = "user" \/ role = "assistant" ->
   snd after = session_store.Done
   /\ session_store.get_history (fst after) pid
      = (session_store.get_history st pid
         ++ [models.mkMessage role content])%list)
  /\ (role <> "user" -> role <> "assistant" ->
      snd after = session_store.ValidationError
      /\ session_store.get_history (fst after) pid
         = session_store.get_history st pid)
  /\ (forall q : string,
        q <> pid ->
        session_store.get_history (fst after) q
        = session_store.get_history st q).
Proof.
  cbv zeta. split; [|split].
  - intros Hrole.
    destruct (add_message_valid st pid role content Hrole) as [Hd Hh].
    split; [exact Hd|]. now rewrite Hh, String.eqb_refl.
  - intros Hu Ha. unfold session_store.add_message, models.new_Message.
    cbv zeta. apply String.eqb_neq in Hu, Ha. rewrite Hu, Ha.
    cbn [orb fst snd]. split; [reflexivity|].
    unfold session_store.get_history.
    destruct (session_store.get pid st) eqn:Eg; [now rewrite Eg|].
    now rewrite store_get_setitem, String.eqb_refl.
  - intros q Hq. apply String.eqb_neq in Hq.
    unfold session_store.add_message, models.new_Message,
      session_store.get_history. cbv zeta.
    destruct (String.eqb role "user" || String.eqb role "assistant");
      cbn [fst]; destruct (session_store.get pid st) eqn:Eg;
      rewrite ?store_get_setitem, ?Hq; reflexivity.
Qed.

(** X7.  [clear] forgets the history of its patient and of no other; for a
    patient without a history it changes nothing and does not fail; and a
    message added after it starts a new history. *)
Theorem clear_forgets_one_history
  (st : session_store.store) (pid : string) :
  session_store.get_history (session_store.clear st pid) pid = []
  /\ (forall q : string,
        q <> pid ->
        session_store.get_history (session_store.clear st pid) q
        = session_store.get_history st q)
  /\ (session_store.get pid st = None -> session_store.clear st pid = st)
  /\ (forall role content : string,
        role = "user" \/ role = "assistant" ->
        session_store.get_history
          (fst (session_store.add_message (session_store.clear st pid)
                  pid role content)) pid
        = [models.mkMessage role content]).
Proof.
  unfold session_store.clear.
  assert (Hc : session_store.get_history (session_store.pop pid st) pid = []).
  { unfold session_store.get_history.
    now rewrite store_get_pop, String.eqb_refl. }
  split; [exact Hc|]. split; [|split].
  - intros q Hq. apply String.eqb_neq in Hq.
    unfold session_store.get_history. now rewrite store_get_pop, Hq.
  - apply store_pop_absent.
  - intros role content Hrole.
    destruct (add_message_valid (session_store.pop pid st) pid role content
                Hrole) as [_ Hh].
    now rewrite Hh, String.eqb_refl, Hc.
Qed.

(** ** The request handlers *)

Section HandlersMore.
Context `{PyRuntime} (env : Env) (svc : Services).
Variable patients_file : option string.
Variable as_patient : list (string * json) -> Patient.

Lemma found_patient_cases (pid : string) :
  (main.found_patient patients_file pid = None <->
   patient_lookup.get_patient patients_file pid = None
   \/ patient_lookup.get_patient patients_file pid = Some [])
  /\ (forall p, main.found_patient patients_file pid = Some p ->
                patient_lookup.get_patient patients_file pid = Some p
                /\ p <> []).
Proof.
  unfold main.found_patient.
  destruct (patient_lookup.get_patient patients_file pid) as [[|kv p]|].
  - split; [tauto | discriminate].
  - split.
    + split; [discriminate | intros [Hx|Hx]; discriminate].
    + intros p' [= <-]. split; [reflexivity | discriminate].
  - split; [tauto | discriminate].
Qed.

Lemma chat_answer_nonempty (patient : Patient) (message answer : string)
  (cits : list Citation) :
  snd (chat_agent.answer_question env svc patient message)
  = Returned (answer, cits) ->
  answer <> "".
Proof.
  unfold chat_agent.answer_question. cbv zeta.
  destruct (retrieve svc _ _) as [raw|ty msg]; [|discriminate].
  destruct (firstn _ _) as [|c0 top'].
  - cbn [snd]. intros [= <- <-]. discriminate.
  - destruct (project_set env); [|discriminate]. cbn [snd].
    destruct (generate svc _ _) as [text|ty msg]; [|discriminate].
    destruct (_extract_json text) as [| | | | | |obj]; try discriminate.
    intros [= <- <-].
    destruct (String.eqb (PyStr.strip (get_or_empty_str "answer" obj)) "")
      eqn:Ea; [discriminate | now apply String.eqb_neq in Ea].
Qed.

(** X9.  A [POST /chat] that succeeds records the exchange: the history in
    the response is the patient's history before the request followed by
    the user's message and the assistant's answer, in this order; it is
    what the store holds for the patient afterwards; the answer is not
    empty; and the history of every other patient is untouched. *)
Theorem chat_endpoint_records_exchange
  (st st' : session_store.store) (pid message : string)
  (log : list event) (resp : models.ChatResponse) :
  main.chat env svc patients_file as_patient st pid message
  = (st', log, main.OK resp) ->
  models.patient_id resp = pid
  /\ models.answer resp <> ""
  /\ models.history resp
     = (session_store.get_history st pid
        ++ [models.mkMessage "user" message;
            models.mkMessage "assistant" (models.answer resp)])%list
  /\ session_store.get_history st' pid = models.history resp
  /\ (forall q : string,
        q <> pid ->
        session_store.get_history st' q = session_store.get_history st q)
  /\ exists p : list (string * json),
       patient_lookup.get_patient patients_file pid = Some p
       /\ p <> []
       /\ chat_agent.answer_question env svc (as_patient p) message
          = (log, Returned (models.answer resp, models.citations resp)).
Proof.
  unfold main.chat.
  destruct (found_patient_cases pid) as [_ Hfound].
  destruct (main.found_patient patients_file pid) as [p|];
    [|discriminate].
  destruct (Hfound p eq_refl) as [Hlook Hne]. cbv zeta.
  destruct (chat_agent.answer_question env svc (as_patient p) message)
    as [log0 [[answer cits]|ty msg]] eqn:Hflow; [|discriminate].
  destruct (String.eqb answer "") eqn:Ea; [discriminate|].
  intros [= <- <- <-]. cbn [models.patient_id models.answer
                            models.history models.citations].
  set (st1 := fst (session_store.add_message st pid "user" message)).
  destruct (add_message_valid st pid "user" message (or_introl eq_refl))
    as [_ H1].
  destruct (add_message_valid st1 pid "assistant" answer
              (or_intror eq_refl)) as [_ H2].
  fold st1 in H1.
  split; [reflexivity|]. split; [now apply String.eqb_neq in Ea|].
  split; [|split; [reflexivity|split]].
  - rewrite H2, String.eqb_refl, H1, String.eqb_refl.
    now rewrite <- app_assoc.
  - intros q Hq. apply String.eqb_neq in Hq. now rewrite H2, Hq, H1, Hq.
  - exists p. repeat split; assumption.
Qed.

End HandlersMore.

(** ** The patient lookup *)

Lemma lstrip_blank_app (ws t : string) :
  blank ws = true -> PyStr.lstrip (ws ++ t) = PyStr.lstrip t.
Proof.
  induction ws as [|c ws IH]; [reflexivity|].
  simpl. intros Hb. apply andb_prop in Hb as [Hc Hb]. now rewrite Hc, IH.
Qed.

Lemma rstrip_blank (ws : string) : blank ws = true -> PyStr.rstrip ws = "".
Proof. intros Hb. now apply rstrip_empty_iff, words_blank. Qed.

Lemma rstrip_app_blank (t ws : string) :
  blank ws = true -> PyStr.rstrip (t ++ ws) = PyStr.rstrip t.
Proof.
  intros Hb. induction t as [|c t IH]; [now apply rstrip_blank|].
  simpl. now rewrite IH.
Qed.

Lemma strip_blank (ws : string) : blank ws = true -> PyStr.strip ws = "".
Proof.
  intros Hb. unfold PyStr.strip.
  apply rstrip_empty_iff. rewrite words_lstrip. now apply words_blank.
Qed.

(** white space around a text that has none at its ends is stripped *)
Lemma strip_padded (ws1 t ws2 : string) :
  blank ws1 = true -> blank ws2 = true -> PyStr.strip t = t ->
  PyStr.strip (ws1 ++ t ++ ws2) = t.
Proof.
  intros H1 H2 Ht. unfold PyStr.strip in *.
  rewrite (lstrip_blank_app ws1 _ H1).
  destruct t as [|c t].
  - simpl append. rewrite <- (string_app_nil_r ws2).
    rewrite (lstrip_blank_app ws2 "" H2). reflexivity.
  - assert (Hc : PyStr.isspace c = false).
    { destruct (PyStr.isspace c) eqn:Hc; [|reflexivity].
      pose proof (lstrip_head (String c t)) as Hh.
      pose proof (lstrip_length t) as Hl.
      simpl in Ht, Hh. rewrite Hc in Ht, Hh.
      pose proof (rstrip_length (PyStr.lstrip t)) as Hr.
      rewrite Ht in Hr. cbn [String.length] in Hr. lia. }
    change (String c t ++ ws2) with (String c (t ++ ws2)).
    assert (Hl : forall x, PyStr.lstrip (String c x) = String c x)
      by (intros x; simpl; now rewrite Hc).
    rewrite Hl in *. change (String c (t ++ ws2)) with (String c t ++ ws2).
    now rewrite (rstrip_app_blank _ ws2 H2).
Qed.

Lemma strip_bracketed (mid : string) :
  PyStr.strip ("[" ++ mid ++ "]") = "[" ++ mid ++ "]".
Proof.
  unfold PyStr.strip.
  change (PyStr.lstrip ("[" ++ mid ++ "]")) with ("[" ++ mid ++ "]").
  rewrite <- string_app_assoc. now apply rstrip_app_last.
Qed.

Lemma first_with_id_some (pid : string) (l : list json)
  (p : list (string * json)) :
  patient_lookup.first_with_id pid l = Some p <->
  exists l1 l2 : list json,
    l = (l1 ++ JObj p :: l2)%list
    /\ patient_lookup.first_with_id pid l1 = None
    /\ dict_get "patient_id" p = Some (JStr pid).
Proof.
  induction l as [|x l IH].
  - simpl. split; [discriminate|].
    intros [l1 [l2 [Hl _]]]. now destruct l1.
  - assert (Hskip :
      patient_lookup.first_with_id pid (x :: l)
      = patient_lookup.first_with_id pid l ->
      (forall q, x = JObj q -> dict_get "patient_id" q <> Some (JStr pid)) ->
      patient_lookup.first_with_id pid (x :: l) = Some p <->
      exists l1 l2 : list json,
        (x :: l) = (l1 ++ JObj p :: l2)%list
        /\ patient_lookup.first_with_id pid l1 = None
        /\ dict_get "patient_id" p = Some (JStr pid)).
    { intros Hs Hx. rewrite Hs, IH. split.
      - intros [l1 [l2 [-> [Hn Hp]]]]. exists (x :: l1), l2.
        split; [reflexivity|]. split; [|exact Hp].
        assert (Hs' : patient_lookup.first_with_id pid (x :: l1)
                      = patient_lookup.first_with_id pid l1).
        { clear - Hx. destruct x as [| | | | | |q]; try reflexivity.
          simpl. specialize (Hx q eq_refl).
          destruct (dict_get "patient_id" q) as [[| | | |s| |]|];
            try reflexivity.
          destruct (String.eqb s pid) eqn:Es; [|reflexivity].
          apply String.eqb_eq in Es. now subst s. }
        now rewrite Hs'.
      - intros [l1 [l2 [Hl [Hn Hp]]]]. destruct l1 as [|y l1].
        + simpl in Hl. injection Hl as -> ->.
          now contradiction (Hx p eq_refl).
        + simpl in Hl. injection Hl as <- ->. exists l1, l2.
          split; [reflexivity|]. split; [|exact Hp].
          assert (Hs' : patient_lookup.first_with_id pid (x :: l1)
                        = patient_lookup.first_with_id pid l1).
          { clear - Hx. destruct x as [| | | | | |q]; try reflexivity.
            simpl. specialize (Hx q eq_refl).
            destruct (dict_get "patient_id" q) as [[| | | |s| |]|];
              try reflexivity.
            destruct (String.eqb s pid) eqn:Es; [|reflexivity].
            apply String.eqb_eq in Es. now subst s. }
          now rewrite <- Hs'. }
    destruct x as [| | | | | |q];
      try (apply Hskip; [reflexivity | intros q0; discriminate]).
    destruct (dict_get "patient_id" q) as [v|] eqn:Eq.
    + destruct v as [| | | |s| |];
        try (apply Hskip;
             [simpl; now rewrite Eq
             | intros q0 [= <-]; rewrite Eq; discriminate]).
      destruct (String.eqb s pid) eqn:Es.
      * apply String.eqb_eq in Es. subst s. simpl. rewrite Eq.
        rewrite String.eqb_refl. split.
        -- intros [= <-]. exists [], l. repeat split; assumption.
        -- intros [l1 [l2 [Hl [Hn Hp]]]]. destruct l1 as [|y l1].
           ++ simpl in Hl. now injection Hl as ->.
           ++ simpl in Hl. injection Hl as <- ->. simpl in Hn.
              rewrite Eq, String.eqb_refl in Hn. discriminate.
      * apply Hskip; [simpl; now rewrite Eq, Es|].
        intros q0 [= <-]. rewrite Eq. intros [= ->].
        now rewrite String.eqb_refl in Es.
    + apply Hskip; [simpl; now rewrite Eq|].
      intros q0 [= <-]. rewrite Eq. discriminate.
Qed.

Section LookupRoundtrip.
Context `{PyRuntime}.

Lemma dumps_nonempty_container (v : json) :
  (exists d, v = JObj d) \/ (exists l, v = JArr l) ->
  PyStr.strip (Json.dumps v) = Json.dumps v
  /\ String.eqb (Json.dumps v) "" = false.
Proof.
  intros [[d ->]|[l ->]]; split; try reflexivity.
  - apply strip_braced.
  - apply strip_bracketed.
Qed.

(** X12.  [get_patient] reads back a patients file that [json.dumps] has
    written, white space around it allowed.  For a mapping from ids to
    records it returns the record under the id, when that is an object.
    For a list it returns the first record with the id; so when no two
    records of the list share an id, every record of the list is found
    under its own id. *)
Theorem get_patient_reads_dumped_file (pid ws1 ws2 : string) :
  blank ws1 = true -> blank ws2 = true ->
  (forall db : list (string * json),
     well_formed (JObj db) = true ->
     patient_lookup.get_patient
       (Some (ws1 ++ Json.dumps (JObj db) ++ ws2)) pid
     = match dict_get pid db with
       | Some (JObj p) => Some p
       | _ => None
       end)
  /\ (forall l : list json,
        well_formed (JArr l) = true ->
        patient_lookup.get_patient
          (Some (ws1 ++ Json.dumps (JArr l) ++ ws2)) pid
        = patient_lookup.first_with_id pid l)
  /\ (forall (l : list json) (p : list (string * json)),
        well_formed (JArr l) = true ->
        In (JObj p) l ->
        dict_get "patient_id" p = Some (JStr pid) ->
        (forall q, In (JObj q) l ->
                   dict_get "patient_id" q = Some (JStr pid) -> q = p) ->
        patient_lookup.get_patient
          (Some (ws1 ++ Json.dumps (JArr l) ++ ws2)) pid
        = Some p).
Proof.
  intros H1 H2.
  assert (Hread : forall v : json,
    (exists d, v = JObj d) \/ (exists l, v = JArr l) ->
    well_formed v = true ->
    patient_lookup.get_patient (Some (ws1 ++ Json.dumps v ++ ws2)) pid
    = match v with
      | JObj patients =>
          match dict_get pid patients with
          | Some (JObj p) => Some p
          | _ => None
          end
      | JArr patients => patient_lookup.first_with_id pid patients
      | _ => None
      end).
  { intros v Hv Hw. unfold patient_lookup.get_patient. cbv zeta.
    destruct (dumps_nonempty_container v Hv) as [Hs Hne].
    rewrite (strip_padded ws1 _ ws2 H1 H2 Hs), Hne.
    now rewrite (loads_dumps v Hw). }
  split; [|split].
  - intros db Hw. apply (Hread (JObj db)); [left; now exists db | exact Hw].
  - intros l Hw. apply (Hread (JArr l)); [right; now exists l | exact Hw].
  - intros l p Hw Hin Hp Huniq.
    rewrite (Hread (JArr l)); [|right; now exists l | exact Hw].
    clear Hw Hread. induction l as [|x l IH]; [destruct Hin|].
    destruct x as [| | | | | |q];
      try (destruct Hin as [Hx|Hin]; [discriminate|];
           simpl; apply IH; [exact Hin|];
           intros q0 Hq0; apply Huniq; now right).
    simpl. destruct (dict_get "patient_id" q) as [v|] eqn:Eq.
    + destruct v as [| | | |s| |];
        try (destruct Hin as [[= ->]|Hin]; [congruence|];
             apply IH; [exact Hin|];
             intros q0 Hq0; apply Huniq; now right).
      destruct (String.eqb s pid) eqn:Es.
      * apply String.eqb_eq in Es. subst s. f_equal.
        apply Huniq; [now left | exact Eq].
      * destruct Hin as [[= ->]|Hin].
        -- rewrite Hp in Eq. injection Eq as <-.
           now rewrite String.eqb_refl in Es.
        -- apply IH; [exact Hin|]. intros q0 Hq0. apply Huniq. now right.
    + destruct Hin as [[= ->]|Hin]; [congruence|].
      apply IH; [exact Hin|]. intros q0 Hq0. apply Huniq. now right.
Qed.
End LookupRoundtrip.

(** ** The properties at the example data *)

Ltac occurs_here := apply contains_occurs; vm_compute; reflexivity.
Ltac occurs_not := apply contains_false_iff; vm_compute; reflexivity.

Lemma gate_rejects_iff_gated_term_unsupported_witness :
  chat_agent._citation_supported_by_patient
    Examples.fever_citation Examples.cough_patient = false.
Proof.
  destruct gate_rejects_iff_gated_term_unsupported as [_ [Hrej _]].
  apply Hrej. exists "fever". split; [simpl; tauto|].
  split; [occurs_here | occurs_not].
Defined.

(** C9, as stated, fails: for a patient with weight loss, a change in
    bowel habit and abdominal pain, an excerpt that recommends direct-access
    CT in the words "urgent investigation", and names no referral pathway,
    gets both urgent-language bonuses and scores 150; the excerpt with the
    referral-pathway phrase scores 140 and is ranked second. *)
Lemma urgent_ct_excerpt_outranks_pathway_excerpt :
  existsb (PyStr.contains "weight loss")
    (map _norm (get_list (symptoms Examples.bowel_patient))) = true
  /\ existsb (PyStr.contains "change in bowel")
       (map _norm (get_list (symptoms Examples.bowel_patient))) = true
  /\ PyStr.contains referral_pathway_phrase
       (_norm (excerpt Examples.pathway_citation)) = true
  /\ PyStr.contains "direct access ct"
       (_norm (excerpt Examples.urgent_ct_citation)) = true
  /\ PyStr.contains referral_pathway_phrase
       (_norm (excerpt Examples.urgent_ct_citation)) = false
  /\ PyStr.contains "pathway"
       (_norm (excerpt Examples.urgent_ct_citation)) = false
  /\ PyStr.contains "referral"
       (_norm (excerpt Examples.urgent_ct_citation)) = false
  /\ risk_assessor._score_citation Examples.pathway_citation
       Examples.bowel_patient = 140
  /\ risk_assessor._score_citation Examples.urgent_ct_citation
       Examples.bowel_patient = 150
  /\ risk_assessor._rank_citations
       [Examples.pathway_citation; Examples.urgent_ct_citation]
       Examples.bowel_patient
     = [Examples.urgent_ct_citation; Examples.pathway_citation].
Proof. repeat split; vm_compute; reflexivity. Qed.

Lemma urgent_phrase_excerpt_outranks_direct_access_ct_witness :
  risk_assessor._score_citation Examples.ct_citation Examples.bowel_patient
  < risk_assessor._score_citation Examples.pathway_citation
      Examples.bowel_patient
  /\ risk_assessor._score_citation Examples.ct_citation
       Examples.bowel_patient <= 18.
Proof.
  destruct (urgent_phrase_excerpt_outranks_direct_access_ct
              Examples.bowel_patient Examples.pathway_citation
              Examples.ct_citation) as [Hlt [_ Hb]].
  - exists "suspected cancer pathway". split; [simpl; tauto | occurs_here].
  - intros ph [<-|[<-|[<-|[]]]]; occurs_not.
  - split; [exact Hlt|].
    apply Hb.
    + exists "Weight loss". split; [simpl; tauto | occurs_here].
    + exists "Change in bowel habit". split; [simpl; tauto|].
      left. occurs_here.
    + left. occurs_here.
Defined.

(** C8, as stated, fails: the patients file holds a record whose symptom
    list has the number 3 among its entries; the lookup returns the record
    as it is, and the query builder raises on it. *)
Lemma stable_query_raises_on_non_string_symptom :
  patient_lookup.get_patient (Some Examples.ill_typed_patients_file) "PT-404"
  = Some Examples.ill_typed_record
  /\ @any_record._stable_query Examples.runtime Examples.ill_typed_record
     = Raised "AttributeError" "'int' object has no attribute 'strip'".
Proof. split; vm_compute; reflexivity. Qed.

Lemma stable_query_ignores_order_case_whitespace_witness :
  exists q : string,
    @any_record._stable_query Examples.runtime
      (dict_of Examples.bowel_patient) = Returned q
    /\ @any_record._stable_query Examples.runtime
         (dict_of Examples.bowel_patient_variant) = Returned q.
Proof.
  destruct (@stable_query_ignores_order_case_whitespace Examples.runtime)
    as [_ [Hsame _]].
  apply (Hsame (dict_of Examples.bowel_patient)
           (dict_of Examples.bowel_patient_variant)
           ["Weight loss"; "Change in bowel habit"; "Abdominal pain"]
           ["abdominal  pain"; " WEIGHT LOSS"; "change in Bowel habit "]);
    try reflexivity.
  exists ["Abdominal pain"; "Weight loss"; "Change in bowel habit"]. split.
  - apply (Permutation_app_comm
             ["Weight loss"; "Change in bowel habit"] ["Abdominal pain"]).
  - repeat constructor.
Defined.

(** C2, as stated, fails: the one candidate names fever and
    lymphadenopathy, which the patient does not have, so no candidate
    passes the gate; the assess flow returns it as the citation. *)
Lemma assess_cites_excerpt_the_gate_rejects :
  filter (fun c => chat_agent._citation_supported_by_patient
                     c Examples.cough_patient)
    (risk_assessor._rank_citations [Examples.fever_citation]
       Examples.cough_patient) = []
  /\ snd (@risk_assessor.assess_patient Examples.runtime Examples.env
            (Examples.failing_model [Examples.fever_citation])
            Examples.cough_patient)
     = Returned
         (mkAssessResponse "PT-202" "urgent_referral"
            "NG12 excerpt indicates a suspected cancer pathway referral."
            "Refer using a suspected cancer pathway referral."
            [Examples.fever_citation]).
Proof. split; vm_compute; reflexivity. Qed.

Lemma assess_cites_at_most_the_top_ranked_witness :
  exists cands rest,
    retrieve (Examples.failing_model
                [Examples.plain_citation; Examples.investigation_citation])
      (risk_assessor._stable_query Examples.cough_patient)
      (NG12_TOP_K Examples.env) = Returned cands
    /\ risk_assessor._rank_citations cands Examples.cough_patient
       = Examples.investigation_citation :: rest.
Proof.
  destruct (@assess_cites_at_most_the_top_ranked Examples.runtime Examples.env
              (Examples.failing_model
                 [Examples.plain_citation; Examples.investigation_citation])
              Examples.cough_patient
              (mkAssessResponse "PT-202" "urgent_investigation"
                 "NG12 excerpt indicates urgent investigation."
                 "Offer urgent investigation."
                 [Examples.investigation_citation]))
    as [_ Hc].
  - vm_compute. reflexivity.
  - apply (Hc Examples.investigation_citation). simpl. now left.
Defined.

Lemma assess_generation_failure_fallback_witness :
  exists r : AssessResponse,
    snd (@risk_assessor.assess_patient Examples.runtime Examples.env
           (Examples.failing_model [Examples.investigation_citation])
           Examples.cough_patient) = Returned r
    /\ citations r = [Examples.investigation_citation]
    /\ category r = "urgent_investigation".
Proof.
  destruct (@assess_generation_failure_fallback Examples.runtime Examples.env
              (Examples.failing_model [Examples.investigation_citation])
              Examples.cough_patient [Examples.investigation_citation]
              Examples.investigation_citation []
              "ServiceUnavailable" "503 backend down"
              eq_refl eq_refl eq_refl)
    as [r [Hr [Hc [_ [Hi _]]]]].
  exists r. split; [exact Hr|]. split; [exact Hc|].
  apply Hi.
  - intros [Ho|Ho]; revert Ho; occurs_not.
  - occurs_here.
Defined.

(** C10, as stated, fails: the model's answer has no rationale, and its
    category is kept, although the excerpt contains "urgent referral". *)
Lemma assess_keeps_model_category_without_rationale :
  _extract_json Examples.answer_without_rationale
  = JObj [("category", JStr "no_urgent_action");
          ("recommended_action", JStr "Reassure and review.")]
  /\ occurs "urgent referral" (_norm (excerpt Examples.fever_citation))
  /\ snd (@risk_assessor.assess_patient Examples.runtime Examples.env
            (Examples.answering_model [Examples.fever_citation]
               Examples.answer_without_rationale)
            Examples.cough_patient)
     = Returned
         (mkAssessResponse "PT-202" "no_urgent_action"
            "Recommendation is grounded in the retrieved NG12 excerpt."
            "Reassure and review."
            [Examples.fever_citation]).
Proof.
  split; [vm_compute; reflexivity|].
  split; [occurs_here | vm_compute; reflexivity].
Qed.

Lemma assess_empty_action_takes_category_from_excerpt_witness :
  exists r : AssessResponse,
    snd (@risk_assessor.assess_patient Examples.runtime Examples.env
           (Examples.answering_model [Examples.sweats_citation]
              Examples.answer_without_action)
           Examples.cough_patient) = Returned r
    /\ category r = "urgent_investigation".
Proof.
  destruct (@assess_empty_action_takes_category_from_excerpt
              Examples.runtime Examples.env
              (Examples.answering_model [Examples.sweats_citation]
                 Examples.answer_without_action)
              Examples.cough_patient [Examples.sweats_citation]
              Examples.sweats_citation []
              [("category", JStr "no_urgent_action");
               ("rationale", JStr "The excerpt asks for investigation.")]
              eq_refl eq_refl eq_refl)
    as [r [Hr [_ [Hi _]]]].
  exists r. split; [exact Hr|].
  apply Hi.
  - reflexivity.
  - intros [Ho|Ho]; revert Ho; occurs_not.
  - occurs_here.
Defined.

(** C4, as stated, fails for the assess flow: no candidate passes the
    gate, and the flow calls the model and returns a category with a
    citation. *)
Lemma assess_proceeds_when_no_candidate_passes_the_gate :
  filter (fun c => chat_agent._citation_supported_by_patient
                     c Examples.cough_patient)
    (risk_assessor._rank_citations [Examples.sweats_citation]
       Examples.cough_patient) = []
  /\ snd (@risk_assessor.assess_patient Examples.runtime Examples.env
            (Examples.answering_model [Examples.sweats_citation]
               Examples.answer_without_action)
            Examples.cough_patient)
     = Returned
         (mkAssessResponse "PT-202" "urgent_investigation"
            "The excerpt asks for investigation."
            "Offer urgent investigation."
            [Examples.sweats_citation])
  /\ List.length
       (fst (@risk_assessor.assess_patient Examples.runtime Examples.env
               (Examples.answering_model [Examples.sweats_citation]
                  Examples.answer_without_action)
               Examples.cough_patient)) = 2%nat.
Proof. repeat split; vm_compute; reflexivity. Qed.

Lemma empty_evidence_terminal_results_witness :
  snd (@risk_assessor.assess_patient Examples.runtime Examples.env
         (Examples.failing_model []) Examples.cough_patient)
  = Returned
      (mkAssessResponse "PT-202" "insufficient_evidence"
         "No relevant NG12 guidance could be retrieved for the given symptoms."
         "Review NG12 guidance manually and consider clinical review."
         [])
  /\ snd (@chat_agent.answer_question Examples.runtime Examples.env
            (Examples.failing_model
               [Examples.sweats_citation; Examples.fever_citation])
            Examples.cough_patient "What should happen next?")
     = Returned (chat_agent.no_excerpt_sentence, []).
Proof.
  destruct (@empty_evidence_terminal_results Examples.runtime Examples.env
              (Examples.failing_model [])) as [Ha _].
  destruct (@empty_evidence_terminal_results Examples.runtime Examples.env
              (Examples.failing_model
                 [Examples.sweats_citation; Examples.fever_citation]))
    as [_ Hc].
  split.
  - rewrite (Ha Examples.cough_patient eq_refl). reflexivity.
  - rewrite (Hc Examples.cough_patient "What should happen next?"
               [Examples.sweats_citation; Examples.fever_citation]
               eq_refl); [reflexivity|].
    vm_compute. reflexivity.
Defined.


(** ** Slices, strips and decimal formats *)

Lemma occurs_refl (s : string) : occurs s s.
Proof. exists "", "". simpl. now rewrite string_app_nil_r. Qed.

Lemma occurs_trans (a b c : string) : occurs a b -> occurs b c -> occurs a c.
Proof.
  intros [x [y ->]] [u [v ->]]. exists (u ++ x), (y ++ v).
  now rewrite !string_app_assoc.
Qed.

Lemma lstrip_suffix (s : string) : exists a, s = a ++ PyStr.lstrip s.
Proof.
  induction s as [|c s [a IH]]; [now exists ""|].
  simpl. destruct (PyStr.isspace c).
  - exists (String c a). simpl. now rewrite <- IH.
  - now exists "".
Qed.

Lemma rstrip_prefix (s : string) : exists b, s = PyStr.rstrip s ++ b.
Proof.
  induction s as [|c s [b IH]]; [now exists ""|].
  simpl. destruct (PyStr.rstrip s) as [|d r] eqn:Er.
  - destruct (PyStr.isspace c).
    + now exists (String c s).
    + exists b. simpl. now rewrite IH at 1.
  - exists b. simpl. now rewrite IH at 1.
Qed.

Lemma strip_occurs (s : string) : occurs (PyStr.strip s) s.
Proof.
  unfold PyStr.strip. destruct (lstrip_suffix s) as [a Ha].
  destruct (rstrip_prefix (PyStr.lstrip s)) as [b Hb].
  exists a, b. now rewrite <- Hb.
Qed.

Lemma rstrip_idem (s : string) :
  PyStr.rstrip (PyStr.rstrip s) = PyStr.rstrip s.
Proof.
  induction s as [|c s IH]; [reflexivity|].
  simpl. destruct (PyStr.rstrip s) as [|d r] eqn:Er.
  - destruct (PyStr.isspace c) eqn:Hc; [reflexivity|].
    simpl. now rewrite Hc.
  - rewrite rstrip_cons_nonempty; rewrite IH; [reflexivity | discriminate].
Qed.

Lemma rstrip_head (s : string) :
  match PyStr.rstrip s, s with
  | String c _, String d _ => c = d
  | String _ _, EmptyString => False
  | EmptyString, _ => True
  end.
Proof.
  destruct s as [|d s]; [exact I|].
  simpl. destruct (PyStr.rstrip s); [destruct (PyStr.isspace d)|];
    simpl; auto.
Qed.

Lemma strip_idem (s : string) : PyStr.strip (PyStr.strip s) = PyStr.strip s.
Proof.
  unfold PyStr.strip.
  assert (Hl : PyStr.lstrip (PyStr.rstrip (PyStr.lstrip s))
               = PyStr.rstrip (PyStr.lstrip s)).
  { pose proof (lstrip_head s) as Hh.
    pose proof (rstrip_head (PyStr.lstrip s)) as Hr.
    destruct (PyStr.rstrip (PyStr.lstrip s)) as [|c r]; [reflexivity|].
    destruct (PyStr.lstrip s) as [|d u]; [contradiction|].
    subst d. simpl. now rewrite Hh. }
  rewrite Hl. apply rstrip_idem.
Qed.

Lemma substring_prefix (m : nat) (s : string) :
  exists y, s = substring 0 m s ++ y.
Proof.
  revert m. induction s as [|c s IH]; intros m.
  - exists "". now destruct m.
  - destruct m as [|m]; [now exists (String c s)|].
    destruct (IH m) as [y Hy]. exists y. simpl. now rewrite Hy at 1.
Qed.

Lemma substring_occurs (a m : nat) (s : string) : occurs (substring a m s) s.
Proof.
  revert a. induction s as [|c s IH]; intros a.
  - destruct a, m; apply occurs_refl.
  - destruct a as [|a].
    + destruct (substring_prefix m (String c s)) as [y Hy].
      now exists "", y.
    + simpl. destruct (IH a) as [x [y Hxy]].
      exists (String c x), y. simpl. now rewrite Hxy at 1.
Qed.

Lemma substring_length (a m : nat) (s : string) :
  (String.length (substring a m s) <= m)%nat.
Proof.
  revert a m. induction s as [|c s IH]; intros a m.
  - destruct a, m; simpl; lia.
  - destruct a as [|a]; simpl.
    + destruct m as [|m]; simpl; [lia|]. specialize (IH 0%nat m). lia.
    + apply IH.
Qed.

Lemma substring_all (s : string) : substring 0 (String.length s) s = s.
Proof. induction s as [|c s IH]; simpl; [reflexivity | now rewrite IH]. Qed.

Lemma slice_occurs (s : string) (i j : Z) : occurs (slice s i j) s.
Proof. unfold slice. apply substring_occurs. Qed.

Lemma slice_window (s : string) (i j : Z) :
  0 <= i <= PyStr.len s -> i <= j <= PyStr.len s ->
  slice s i j = substring (Z.to_nat i) (Z.to_nat (j - i)) s.
Proof.
  intros Hi Hj. unfold slice, slice_index. cbv zeta.
  assert (Ei : (i <? 0) = false) by lia.
  assert (Ej : (j <? 0) = false) by lia.
  rewrite Ei, Ej. now rewrite !Z.min_l by lia.
Qed.

Lemma slice_whole (s : string) : slice s 0 (PyStr.len s) = s.
Proof.
  unfold PyStr.len. rewrite slice_window by (unfold PyStr.len; lia).
  rewrite Z.sub_0_r, Nat2Z.id. apply substring_all.
Qed.

Lemma substring_prefix_length (m : nat) (s : string) :
  (m <= String.length s)%nat -> String.length (substring 0 m s) = m.
Proof.
  revert m. induction s as [|c s IH]; intros m Hm.
  - simpl in Hm. now replace m with 0%nat by lia.
  - destruct m as [|m]; [reflexivity|]. simpl in *.
    rewrite IH; [reflexivity | lia].
Qed.

Lemma slice_prefix_length (s : string) (k : Z) :
  0 <= k -> PyStr.len (slice s 0 k) = Z.min k (PyStr.len s).
Proof.
  intros Hk. unfold slice, slice_index, PyStr.len. cbv zeta.
  assert (Ek : (k <? 0) = false) by lia. rewrite Ek.
  change (0 <? 0) with false. cbv iota.
  replace (Z.min 0 (Z.of_nat (String.length s))) with 0 by lia.
  rewrite Z.sub_0_r. change (Z.to_nat 0) with 0%nat.
  rewrite substring_prefix_length by lia. lia.
Qed.

Lemma string_app_inv_head (a x y : string) : a ++ x = a ++ y -> x = y.
Proof.
  induction a as [|c a IH]; simpl; [auto|]. intros [= Hx]. now apply IH.
Qed.

(** *** [format(z, "0Wd")] *)

Lemma zeros_app_length (n : nat) : String.length (zeros n) = n.
Proof. induction n; simpl; [reflexivity | now rewrite IHn]. Qed.

Lemma uint_of_zeros (k : nat) (t : string) :
  NilEmpty.uint_of_string (zeros k ++ t)
  = option_map (Nat.iter k Decimal.D0) (NilEmpty.uint_of_string t).
Proof.
  induction k as [|k IH]; simpl; [now destruct (NilEmpty.uint_of_string t)|].
  rewrite IH. now destruct (NilEmpty.uint_of_string t).
Qed.

Lemma of_uint_zeros (k : nat) (d : Decimal.uint) :
  Pos.of_uint (Nat.iter k Decimal.D0 d) = Pos.of_uint d.
Proof. induction k as [|k IH]; simpl; [reflexivity | exact IH]. Qed.

(** the digits of a number that is not negative *)
Lemma str_of_Z_digits (z : Z) :
  0 <= z ->
  exists d : Decimal.uint,
    PyStr.str_of_Z z = NilEmpty.string_of_uint d
    /\ d <> Decimal.Nil /\ Z.of_N (Pos.of_uint d) = z.
Proof.
  intros Hz. unfold PyStr.str_of_Z. destruct z as [|p|p]; [| |lia].
  - exists (Decimal.D0 Decimal.Nil). repeat split. discriminate.
  - exists (Pos.to_uint p). simpl.
    assert (Hn : Pos.to_uint p <> Decimal.Nil)
      by apply DecimalPos.Unsigned.to_uint_nonnil.
    split; [|split; [exact Hn|]].
    + unfold NilZero.string_of_uint. now destruct (Pos.to_uint p).
    + now rewrite DecimalPos.Unsigned.of_to.
Qed.

Lemma padded_digits_value (k : nat) (z : Z) :
  0 <= z ->
  exists d : Decimal.uint,
    NilEmpty.uint_of_string (zeros k ++ PyStr.str_of_Z z) = Some d
    /\ Z.of_N (Pos.of_uint d) = z
    /\ exists c t, zeros k ++ PyStr.str_of_Z z = String c t
                   /\ Ascii.eqb c "-" = false.
Proof.
  intros Hz. destruct (str_of_Z_digits z Hz) as [d [Hs [Hn Hv]]].
  exists (Nat.iter k Decimal.D0 d).
  rewrite uint_of_zeros, Hs, NilEmpty.usu. split; [reflexivity|].
  split; [now rewrite of_uint_zeros|].
  destruct k as [|k]; [|now exists "0"%char, (zeros k ++ NilEmpty.string_of_uint d)].
  simpl. destruct d; try contradiction; simpl; eauto.
Qed.

(** [int(format(z, "0Wd")) == z] *)
Lemma int_of_format_0d (w : nat) (z : Z) :
  Json.int_of_literal (format_0d w z) = z.
Proof.
  unfold format_0d, zero_padded, Json.int_of_literal.
  destruct (z <? 0) eqn:Ez.
  - apply Z.ltb_lt in Ez.
    destruct (padded_digits_value
                (w - 1 - String.length (PyStr.str_of_Z (- z))) (- z))
      as [d [Hd [Hv [c [t [Hs Hc]]]]]]; [lia|].
    change ("-" ++ ?x) with (String "-" x). unfold NilZero.int_of_string.
    rewrite Ascii.eqb_refl. unfold NilZero.uint_of_string.
    rewrite Hs, <- Hs, Hd. simpl. unfold Z.of_uint. lia.
  - apply Z.ltb_ge in Ez.
    destruct (padded_digits_value
                (w - String.length (PyStr.str_of_Z z)) z Ez)
      as [d [Hd [Hv [c [t [Hs Hc]]]]]].
    unfold NilZero.int_of_string. rewrite Hs, Hc, <- Hs.
    unfold NilZero.uint_of_string. rewrite Hs, <- Hs, Hd. simpl.
    exact Hv.
Qed.

Lemma format_0d_inj (w : nat) (z1 z2 : Z) :
  format_0d w z1 = format_0d w z2 -> z1 = z2.
Proof.
  intros E. rewrite <- (int_of_format_0d w z1), <- (int_of_format_0d w z2).
  now rewrite E.
Qed.

Lemma free_of_app (c : ascii) (a b : string) :
  free_of c (a ++ b) = free_of c a && free_of c b.
Proof.
  induction a as [|x a IH]; simpl; [reflexivity|].
  now rewrite IH, andb_assoc.
Qed.

Lemma string_of_uint_free (d : Decimal.uint) :
  free_of "_" (NilEmpty.string_of_uint d) = true.
Proof. induction d; simpl; auto. Qed.

Lemma zeros_free (k : nat) : free_of "_" (zeros k) = true.
Proof. induction k; simpl; auto. Qed.

Lemma format_0d_free (w : nat) (z : Z) : free_of "_" (format_0d w z) = true.
Proof.
  assert (Hd : forall x, 0 <= x -> free_of "_" (PyStr.str_of_Z x) = true).
  { intros x Hx. destruct (str_of_Z_digits x Hx) as [d [-> _]].
    apply string_of_uint_free. }
  unfold format_0d, zero_padded. destruct (z <? 0) eqn:Ez.
  - apply Z.ltb_lt in Ez. change ("-" ++ ?x) with (String "-" x).
    cbn [free_of]. rewrite free_of_app, zeros_free, Hd by lia. reflexivity.
  - apply Z.ltb_ge in Ez. now rewrite free_of_app, zeros_free, Hd.
Qed.

(** two texts without the separator, each followed by the separator: the
    whole determines the parts *)
Lemma split_at_separator (c : ascii) (a a' x x' : string) :
  free_of c a = true -> free_of c a' = true ->
  a ++ String c x = a' ++ String c x' -> a = a' /\ x = x'.
Proof.
  revert a'. induction a as [|y a IH]; intros [|y' a']; simpl.
  - intros _ _ [= ->]. auto.
  - intros _ Hf [= <- _]. rewrite Ascii.eqb_refl in Hf. discriminate.
  - intros Hf _ [= -> _]. rewrite Ascii.eqb_refl in Hf. discriminate.
  - intros Hf Hf' [= <- E].
    apply andb_prop in Hf as [_ Hf]. apply andb_prop in Hf' as [_ Hf'].
    destruct (IH a' Hf Hf' E) as [-> ->]. auto.
Qed.

(** ** The chunkers *)

Lemma chunk_loop_S (fuel : nat) (clean : string)
  (page cs ov start idx : Z) (chunks : list chunking.Chunk) :
  chunking.chunk_loop (S fuel) clean page cs ov start idx chunks
  = if start <? PyStr.len clean then
      let end_ := Z.min (PyStr.len clean) (start + cs) in
      let chunk_text := PyStr.strip (slice clean start end_) in
      let chunks' :=
        if String.eqb chunk_text "" then chunks
        else (chunks
              ++ [chunking.mkChunk (ng12_chunk_id page idx) page
                    chunk_text])%list in
      let idx' := if String.eqb chunk_text "" then idx else idx + 1 in
      if end_ =? PyStr.len clean then Some chunks'
      else chunking.chunk_loop fuel clean page cs ov
             (Z.max 0 (end_ - ov)) idx' chunks'
    else Some chunks.
Proof.
  cbn [chunking.chunk_loop]. cbv zeta.
  destruct (start <? PyStr.len clean); [|reflexivity].
  now destruct (String.eqb _ "").
Qed.

(** with an overlap that is not smaller than the chunk size, on a text
    longer than the chunk size, the loop comes back to its first state *)
Lemma chunk_loop_stuck (fuel : nat) (clean : string)
  (page cs ov idx : Z) (chunks : list chunking.Chunk) :
  cs < PyStr.len clean -> 0 < PyStr.len clean -> cs <= ov ->
  chunking.chunk_loop fuel clean page cs ov 0 idx chunks = None.
Proof.
  intros Hcs Hn Hov. revert idx chunks.
  induction fuel as [|fuel IH]; intros idx chunks; [reflexivity|].
  rewrite chunk_loop_S. cbv zeta.
  assert (E1 : (0 <? PyStr.len clean) = true) by lia.
  assert (E2 : Z.min (PyStr.len clean) (0 + cs) = cs) by lia.
  rewrite E1, E2.
  assert (E3 : (cs =? PyStr.len clean) = false) by lia.
  assert (E4 : Z.max 0 (cs - ov) = 0) by lia.
  rewrite E3, E4. apply IH.
Qed.

Lemma chunk_loop_ends (fuel : nat) (clean : string)
  (page cs ov start idx : Z) (chunks : list chunking.Chunk) :
  ov < cs -> 0 <= start ->
  (Z.to_nat (PyStr.len clean - start) < fuel)%nat ->
  chunking.chunk_loop fuel clean page cs ov start idx chunks <> None.
Proof.
  intros Hov. revert start idx chunks.
  induction fuel as [|fuel IH]; intros start idx chunks Hs Hf; [lia|].
  rewrite chunk_loop_S. cbv zeta.
  destruct (start <? PyStr.len clean) eqn:E1; [|discriminate].
  destruct (Z.min (PyStr.len clean) (start + cs) =? PyStr.len clean)
    eqn:E2; [discriminate|].
  apply IH; lia.
Qed.

Lemma chunk_loop_mono (fuel : nat) (clean : string)
  (page cs ov start idx : Z) (chunks r : list chunking.Chunk) :
  chunking.chunk_loop fuel clean page cs ov start idx chunks = Some r ->
  chunking.chunk_loop (S fuel) clean page cs ov start idx chunks = Some r.
Proof.
  revert start idx chunks.
  induction fuel as [|fuel IH]; intros start idx chunks; [discriminate|].
  rewrite (chunk_loop_S (S fuel)), (chunk_loop_S fuel). cbv zeta.
  destruct (start <? PyStr.len clean); [|auto].
  destruct (Z.min (PyStr.len clean) (start + cs) =? PyStr.len clean);
    [auto|]. apply IH.
Qed.

Lemma chunk_loop_more_fuel (f g : nat) (clean : string)
  (page cs ov start idx : Z) (chunks r : list chunking.Chunk) :
  (f <= g)%nat ->
  chunking.chunk_loop f clean page cs ov start idx chunks = Some r ->
  chunking.chunk_loop g clean page cs ov start idx chunks = Some r.
Proof.
  induction 1 as [|g Hle IH]; [auto|].
  intros Hf. now apply chunk_loop_mono, IH.
Qed.

Lemma len_pos_iff (s : string) : 0 < PyStr.len s <-> s <> "".
Proof.
  unfold PyStr.len. destruct s; cbn [String.length]; split;
    try congruence; try lia; try discriminate.
Qed.

(** X13.  [simple_chunk_text] ends exactly when the overlap is smaller
    than the chunk size, or the normalized text is no longer than the
    chunk size (or empty).  In the other case, a chunk size that is at most
    the overlap on a longer text, the loop never ends: it reaches no
    result within any number of iterations.  When it ends, the number of
    iterations the definition allows was enough; with the default
    parameters it always ends. *)
Theorem simple_chunk_text_ends_iff (text : string) (page cs ov : Z) :
  let clean := clean_text text in
  (chunking.simple_chunk_text text page cs ov = None <->
   clean <> "" /\ cs <= ov /\ cs < PyStr.len clean)
  /\ (chunking.simple_chunk_text text page cs ov = None ->
      forall fuel : nat,
        chunking.chunk_loop fuel clean page cs ov 0 0 [] = None)
  /\ (forall (fuel : nat) (chunks : list chunking.Chunk),
        clean <> "" ->
        chunking.chunk_loop fuel clean page cs ov 0 0 [] = Some chunks ->
        chunking.simple_chunk_text text page cs ov = Some chunks)
  /\ chunking.simple_chunk_text text page
       chunking.default_chunk_size chunking.default_overlap <> None.
Proof.
  cbv zeta. unfold chunking.simple_chunk_text. fold (clean_text text).
  set (clean := clean_text text). cbv zeta.
  assert (Hiff : forall cs' ov' : Z,
    (if String.eqb clean "" then Some []
     else chunking.chunk_loop (S (String.length clean)) clean page cs' ov'
            0 0 []) = None <->
    clean <> "" /\ cs' <= ov' /\ cs' < PyStr.len clean).
  { intros cs' ov'. destruct (String.eqb clean "") eqn:Ec.
    - apply String.eqb_eq in Ec. split; [discriminate | tauto].
    - apply String.eqb_neq in Ec.
      pose proof (proj2 (len_pos_iff clean) Ec) as Hn. split.
      + intros Hnone. split; [exact Ec|].
        destruct (Z_lt_le_dec ov' cs') as [Hlt|Hle].
        * exfalso. revert Hnone. apply chunk_loop_ends; [exact Hlt|lia|].
          unfold PyStr.len. lia.
        * split; [exact Hle|].
          destruct (Z_lt_le_dec cs' (PyStr.len clean)) as [Hc|Hc];
            [exact Hc|].
          exfalso. revert Hnone. rewrite chunk_loop_S. cbv zeta.
          assert (E1 : (0 <? PyStr.len clean) = true) by lia.
          assert (E2 : (Z.min (PyStr.len clean) (0 + cs')
                        =? PyStr.len clean) = true) by lia.
          rewrite E1, E2. discriminate.
      + intros [_ [Hle Hc]]. now apply chunk_loop_stuck. }
  split; [apply Hiff|]. split; [|split].
  - intros Hnone fuel. apply Hiff in Hnone as [Hc [Hle Hlt]].
    apply chunk_loop_stuck; try assumption. now apply len_pos_iff.
  - intros fuel chunks Hc Hsome.
    assert (Ec : String.eqb clean "" = false) by now apply String.eqb_neq.
    rewrite Ec.
    destruct (chunking.chunk_loop (S (String.length clean)) clean page cs ov
                0 0 []) as [r|] eqn:Hcanon.
    + pose proof (chunk_loop_more_fuel _ _ clean page cs ov 0 0 [] r
                    (Nat.le_max_l (S (String.length clean)) fuel) Hcanon)
        as H1.
      pose proof (chunk_loop_more_fuel _ _ clean page cs ov 0 0 [] chunks
                    (Nat.le_max_r (S (String.length clean)) fuel) Hsome)
        as H2.
      congruence.
    + assert (Hn : (if String.eqb clean "" then Some []
                    else chunking.chunk_loop (S (String.length clean)) clean
                           page cs ov 0 0 []) = None)
        by now rewrite Ec.
      apply Hiff in Hn as [_ [Hle Hlt]].
      rewrite chunk_loop_stuck in Hsome;
        [discriminate | exact Hlt | now apply len_pos_iff | exact Hle].
  - intros Hnone. apply Hiff in Hnone as [_ [Hle _]].
    unfold chunking.default_chunk_size, chunking.default_overlap in Hle.
    lia.
Qed.

(** ** What the chunks are *)

Lemma seq_shift_map {A : Type} (f : Z -> A) (idx : Z) (n : nat) :
  map (fun i => f (idx + 1 + Z.of_nat i)) (seq 0 n)
  = map (fun i => f (idx + Z.of_nat i)) (seq 1 n).
Proof.
  rewrite <- seq_shift, map_map. apply map_ext. intros i.
  f_equal. lia.
Qed.

(** the chunk an iteration of [simple_chunk_text] builds *)
Lemma window_chunk (clean : string) (cs start : Z) :
  0 <= start < PyStr.len clean ->
  let t := PyStr.strip
             (slice clean start (Z.min (PyStr.len clean) (start + cs))) in
  PyStr.strip t = t
  /\ occurs t clean
  /\ (0 < cs -> PyStr.len t <= cs).
Proof.
  intros Hs. cbv zeta. split; [apply strip_idem|]. split.
  - eapply occurs_trans; [apply strip_occurs | apply slice_occurs].
  - intros Hcs.
    pose proof (strip_length
                  (slice clean start
                     (Z.min (PyStr.len clean) (start + cs)))) as H1.
    rewrite slice_window in H1 by lia.
    pose proof (substring_length (Z.to_nat start)
                  (Z.to_nat (Z.min (PyStr.len clean) (start + cs) - start))
                  clean) as H2.
    rewrite slice_window by lia. unfold PyStr.len in *. lia.
Qed.

Lemma chunk_loop_inv (fuel : nat) (clean : string)
  (page cs ov start idx : Z) (chunks r : list chunking.Chunk) :
  0 <= start ->
  chunking.chunk_loop fuel clean page cs ov start idx chunks = Some r ->
  exists new : list chunking.Chunk,
    r = (chunks ++ new)%list
    /\ Forall (fun c =>
                 chunking.page c = page
                 /\ chunking.text c <> ""
                 /\ PyStr.strip (chunking.text c) = chunking.text c
                 /\ occurs (chunking.text c) clean
                 /\ (0 < cs -> PyStr.len (chunking.text c) <= cs)) new
    /\ map chunking.chunk_id new
       = map (fun i => ng12_chunk_id page (idx + Z.of_nat i))
           (seq 0 (List.length new)).
Proof.
  revert start idx chunks.
  induction fuel as [|fuel IH]; intros start idx chunks Hs; [discriminate|].
  rewrite chunk_loop_S. cbv zeta.
  destruct (start <? PyStr.len clean) eqn:E1.
  2:{ intros [= <-]. exists []. rewrite app_nil_r. repeat constructor. }
  assert (Hw : 0 <= start < PyStr.len clean) by lia.
  destruct (window_chunk clean cs start Hw) as [W1 [W2 W3]].
  set (t := PyStr.strip
              (slice clean start (Z.min (PyStr.len clean) (start + cs))))
    in *.
  destruct (String.eqb t "") eqn:Et.
  - destruct (Z.min (PyStr.len clean) (start + cs) =? PyStr.len clean).
    + intros [= <-]. exists []. rewrite app_nil_r. repeat constructor.
    + apply IH. lia.
  - apply String.eqb_neq in Et.
    set (c := chunking.mkChunk (ng12_chunk_id page idx) page t).
    assert (Hc : chunking.page c = page
                 /\ chunking.text c <> ""
                 /\ PyStr.strip (chunking.text c) = chunking.text c
                 /\ occurs (chunking.text c) clean
                 /\ (0 < cs -> PyStr.len (chunking.text c) <= cs))
      by (simpl; auto).
    destruct (Z.min (PyStr.len clean) (start + cs) =? PyStr.len clean).
    + intros [= <-]. exists [c]. split; [reflexivity|].
      split; [now constructor|]. simpl. now rewrite Z.add_0_r.
    + intros Hr. apply IH in Hr as [new [-> [Hf Hid]]]; [|lia].
      exists (c :: new). split; [now rewrite <- app_assoc|].
      split; [now constructor|].
      cbn [map List.length seq chunking.chunk_id c].
      rewrite Z.add_0_r. f_equal. now rewrite Hid, seq_shift_map.
Qed.

Lemma ng12_chunk_id_inj (p1 i1 p2 i2 : Z) :
  ng12_chunk_id p1 i1 = ng12_chunk_id p2 i2 -> p1 = p2 /\ i1 = i2.
Proof.
  unfold ng12_chunk_id. intros E.
  apply (string_app_inv_head "ng12_") in E.
  change ("_" ++ ?x) with (String "_" x) in E.
  apply split_at_separator in E as [Hp Hi]; try apply format_0d_free.
  split; [now apply format_0d_inj in Hp | now apply format_0d_inj in Hi].
Qed.

Lemma nodup_map_seq {A : Type} (f : nat -> A) (n : nat) :
  (forall i j : nat, f i = f j -> i = j) ->
  NoDup (map f (seq 0 n)).
Proof.
  intros Hinj. generalize 0%nat.
  induction n as [|n IH]; intros a; simpl; constructor.
  - intros Hin. apply in_map_iff in Hin as [j [Hj Hin]].
    apply Hinj in Hj. subst j. apply in_seq in Hin. lia.
  - apply IH.
Qed.

(** X14.  Every chunk [simple_chunk_text] returns belongs to the page, has
    a text that is not empty, has no white space at its ends and occurs in
    the normalized text, and, for a positive chunk size, is not longer
    than the chunk size.  The chunks are numbered from 0 in their order:
    the id of chunk number i is ng12_PPPP_II for the page and i; ids
    determine page and number, so no two chunks share an id. *)
Theorem simple_chunk_text_chunks
  (text : string) (page cs ov : Z) (chunks : list chunking.Chunk) :
  chunking.simple_chunk_text text page cs ov = Some chunks ->
  Forall (fun c =>
            chunking.page c = page
            /\ chunking.text c <> ""
            /\ PyStr.strip (chunking.text c) = chunking.text c
            /\ occurs (chunking.text c) (clean_text text)
            /\ (0 < cs -> PyStr.len (chunking.text c) <= cs)) chunks
  /\ map chunking.chunk_id chunks
     = map (fun i => ng12_chunk_id page (Z.of_nat i))
         (seq 0 (List.length chunks))
  /\ NoDup (map chunking.chunk_id chunks)
  /\ (forall p1 i1 p2 i2 : Z,
        ng12_chunk_id p1 i1 = ng12_chunk_id p2 i2 -> p1 = p2 /\ i1 = i2).
Proof.
  unfold chunking.simple_chunk_text. fold (clean_text text). cbv zeta.
  intros Hres.
  assert (Hinv : exists new : list chunking.Chunk,
    chunks = ([] ++ new)%list
    /\ Forall (fun c =>
                 chunking.page c = page
                 /\ chunking.text c <> ""
                 /\ PyStr.strip (chunking.text c) = chunking.text c
                 /\ occurs (chunking.text c) (clean_text text)
                 /\ (0 < cs -> PyStr.len (chunking.text c) <= cs)) new
    /\ map chunking.chunk_id new
       = map (fun i => ng12_chunk_id page (0 + Z.of_nat i))
           (seq 0 (List.length new))).
  { destruct (String.eqb (clean_text text) "").
    - injection Hres as <-. exists []. repeat constructor.
    - eapply chunk_loop_inv; [|exact Hres]. lia. }
  destruct Hinv as [new [-> [Hf Hid]]]. simpl app.
  split; [exact Hf|]. split; [exact Hid|].
  split; [|exact ng12_chunk_id_inj].
  rewrite Hid. apply nodup_map_seq. intros i j E.
  apply ng12_chunk_id_inj in E as [_ E]. lia.
Qed.

(** X15.  A text whose normal form has at most [chunk_size] characters
    gives one chunk, numbered 0, that holds the whole normal form (the
    words of the text, joined by single spaces), whatever the overlap; a
    text of white space only gives no chunk. *)
Theorem simple_chunk_text_short_text (text : string) (page cs ov : Z) :
  (blank text = true ->
   chunking.simple_chunk_text text page cs ov = Some [])
  /\ (blank text = false ->
      PyStr.len (clean_text text) <= cs ->
      chunking.simple_chunk_text text page cs ov
      = Some [chunking.mkChunk (ng12_chunk_id page 0) page
                (clean_text text)]).
Proof.
  unfold chunking.simple_chunk_text. fold (clean_text text). cbv zeta.
  assert (Hb : clean_text text = "" <-> blank text = true).
  { unfold clean_text.
    rewrite (join_wordy_empty _ (words_wordy text)). apply words_blank. }
  split.
  - intros Ht. apply Hb in Ht. now rewrite Ht.
  - intros Ht Hlen.
    assert (Hne : clean_text text <> "").
    { intros Hx. apply Hb in Hx. congruence. }
    assert (Ec : String.eqb (clean_text text) "" = false)
      by now apply String.eqb_neq.
    rewrite Ec, chunk_loop_S. cbv zeta.
    pose proof (proj2 (len_pos_iff _) Hne) as Hpos.
    assert (E1 : (0 <? PyStr.len (clean_text text)) = true) by lia.
    assert (E2 : Z.min (PyStr.len (clean_text text)) (0 + cs)
                 = PyStr.len (clean_text text)) by lia.
    rewrite E1, E2, slice_whole, Z.eqb_refl.
    assert (Es : PyStr.strip (clean_text text) = clean_text text)
      by apply strip_join_wordy, words_wordy.
    now rewrite Es, Ec.
Qed.

(** ** The chunker of the ingestion script *)

Lemma chunk_text_loop_agrees (fuel : nat) (clean : string)
  (page cs ov start idx : Z) (chunks : list chunking.Chunk) :
  ingest_pdf.chunk_text_loop fuel clean cs ov start
    (map chunking.text chunks)
  = option_map (map chunking.text)
      (chunking.chunk_loop fuel clean page cs ov start idx chunks).
Proof.
  revert start idx chunks.
  induction fuel as [|fuel IH]; intros start idx chunks; [reflexivity|].
  rewrite chunk_loop_S. cbn [ingest_pdf.chunk_text_loop]. cbv zeta.
  destruct (start <? PyStr.len clean); [|reflexivity].
  rewrite (Z.min_comm (start + cs) (PyStr.len clean)).
  destruct (String.eqb
              (PyStr.strip
                 (slice clean start (Z.min (PyStr.len clean) (start + cs))))
              "").
  - destruct (Z.min (PyStr.len clean) (start + cs) =? PyStr.len clean);
      [reflexivity | apply IH].
  - destruct (Z.min (PyStr.len clean) (start + cs) =? PyStr.len clean).
    + simpl. now rewrite map_app.
    + rewrite <- IH. now rewrite map_app.
Qed.

(** X16.  The chunker of the ingestion script cuts a text exactly as
    [simple_chunk_text] does: for the same chunk size and overlap it ends
    on the same texts, and its pieces are the texts of the chunks, in the
    same order, whatever the page. *)
Theorem chunk_text_agrees_with_simple_chunk_text
  (text : string) (page cs ov : Z) :
  ingest_pdf.chunk_text text cs ov
  = option_map (map chunking.text)
      (chunking.simple_chunk_text text page cs ov).
Proof.
  unfold ingest_pdf.chunk_text, chunking.simple_chunk_text. cbv zeta.
  destruct (String.eqb (PyStr.join " " (words text)) ""); [reflexivity|].
  apply (chunk_text_loop_agrees _ _ page cs ov 0 0 []).
Qed.

Lemma doc_chunk_id_inj (i j : Z) : doc_chunk_id i = doc_chunk_id j -> i = j.
Proof.
  unfold doc_chunk_id. intros E.
  apply (string_app_inv_head "c") in E. now apply format_0d_inj in E.
Qed.

Lemma page_chunks_spec (idx page_i : Z) (pieces : list string) :
  map ingest_pdf.text (ingest_pdf.page_chunks idx page_i pieces) = pieces
  /\ map ingest_pdf.page (ingest_pdf.page_chunks idx page_i pieces)
     = map (fun _ => page_i) pieces
  /\ map ingest_pdf.chunk_id (ingest_pdf.page_chunks idx page_i pieces)
     = map (fun i => doc_chunk_id (idx + Z.of_nat i))
         (seq 0 (List.length pieces)).
Proof.
  revert idx. induction pieces as [|piece rest IH]; intros idx.
  - repeat split.
  - destruct (IH (idx + 1)) as [H1 [H2 H3]].
    cbn [ingest_pdf.page_chunks map List.length seq ingest_pdf.text
         ingest_pdf.page ingest_pdf.chunk_id].
    rewrite H1, H2, H3, Z.add_0_r. repeat split.
    f_equal. apply seq_shift_map.
Qed.

Lemma page_chunks_length (idx page_i : Z) (pieces : list string) :
  List.length (ingest_pdf.page_chunks idx page_i pieces)
  = List.length pieces.
Proof.
  revert idx. induction pieces as [|p rest IH]; intros idx; simpl;
    [reflexivity | now rewrite IH].
Qed.

Lemma seq_from_map {A : Type} (g : nat -> A) (a m : nat) :
  map g (seq a m) = map (fun i => g (a + i)%nat) (seq 0 m).
Proof.
  revert a. induction m as [|m IH]; intros a; [reflexivity|].
  cbn [seq map]. rewrite Nat.add_0_r. f_equal.
  rewrite (IH (S a)), <- seq_shift, map_map.
  apply map_ext. intros i. f_equal. lia.
Qed.

Lemma seq_app_map {A : Type} (f : Z -> A) (idx : Z) (n m : nat) :
  (map (fun i => f (idx + Z.of_nat i)) (seq 0 n)
   ++ map (fun i => f (idx + Z.of_nat n + Z.of_nat i)) (seq 0 m))%list
  = map (fun i => f (idx + Z.of_nat i)) (seq 0 (n + m)).
Proof.
  rewrite seq_app, map_app. f_equal. simpl.
  rewrite (seq_from_map (fun i => f (idx + Z.of_nat i)) n m).
  apply map_ext. intros i. f_equal. lia.
Qed.

Lemma build_chunks_from_spec (cs ov : Z) (a : nat) (idx : Z)
  (pages : list string) (chunks r : list ingest_pdf.Chunk) :
  ingest_pdf.build_chunks_from cs ov (Z.of_nat a) idx pages chunks = Some r ->
  exists (pieces : list (list string)) (new : list ingest_pdf.Chunk),
    Forall2 (fun p ps => ingest_pdf.chunk_text p cs ov = Some ps)
      pages pieces
    /\ r = (chunks ++ new)%list
    /\ map ingest_pdf.text new = concat pieces
    /\ map ingest_pdf.page new
       = concat (map (fun ip => repeat (Z.of_nat (fst ip))
                                  (List.length (snd ip)))
                   (combine (seq a (List.length pieces)) pieces))
    /\ map ingest_pdf.chunk_id new
       = map (fun i => doc_chunk_id (idx + Z.of_nat i))
           (seq 0 (List.length new)).
Proof.
  revert a idx chunks.
  induction pages as [|p pages IH]; intros a idx chunks.
  - intros [= <-]. exists [], []. rewrite app_nil_r.
    repeat split. constructor.
  - cbn [ingest_pdf.build_chunks_from].
    destruct (ingest_pdf.chunk_text p cs ov) as [ps|] eqn:Ep;
      [|discriminate].
    replace (Z.of_nat a + 1) with (Z.of_nat (S a)) by lia.
    intros Hr. apply IH in Hr as [pieces [new [HF [-> [Ht [Hp Hi]]]]]].
    destruct (page_chunks_spec idx (Z.of_nat a) ps) as [C1 [C2 C3]].
    exists (ps :: pieces), (ingest_pdf.page_chunks idx (Z.of_nat a) ps ++ new)%list.
    split; [now constructor|]. split; [now rewrite app_assoc|].
    rewrite !map_app, C1, C2, C3, Ht, Hp, Hi.
    split; [reflexivity|]. split.
    + cbn [List.length seq combine map concat fst snd]. f_equal.
      clear. induction ps; simpl; [reflexivity | now f_equal].
    + rewrite length_app, page_chunks_length. apply seq_app_map.
Qed.

Lemma build_chunks_from_none (cs ov : Z) (page_i idx : Z)
  (pages : list string) (chunks : list ingest_pdf.Chunk) :
  ingest_pdf.build_chunks_from cs ov page_i idx pages chunks = None <->
  Exists (fun p => ingest_pdf.chunk_text p cs ov = None) pages.
Proof.
  revert page_i idx chunks.
  induction pages as [|p pages IH]; intros page_i idx chunks.
  - simpl. split; [discriminate | intros Hx; inversion Hx].
  - cbn [ingest_pdf.build_chunks_from].
    destruct (ingest_pdf.chunk_text p cs ov) as [ps|] eqn:Ep.
    + rewrite IH. split; [now right|].
      intros Hx. inversion Hx; subst; [congruence | assumption].
    + split; [now left | reflexivity].
Qed.

(** X17.  [build_chunks] numbers the chunks of a document through: the
    texts are the pieces of the pages in page order, each chunk carries
    the index of its page (from 0), and the id of the chunk number i of
    the document is cNNNN for i, so no two chunks share an id.  It ends
    exactly when the chunker ends on every page. *)
Theorem build_chunks_numbers_through
  (cs ov : Z) (pages : list string) :
  (ingest_pdf.build_chunks cs ov pages = None <->
   Exists (fun p => ingest_pdf.chunk_text p cs ov = None) pages)
  /\ (forall chunks : list ingest_pdf.Chunk,
        ingest_pdf.build_chunks cs ov pages = Some chunks ->
        (exists pieces : list (list string),
           Forall2 (fun p ps => ingest_pdf.chunk_text p cs ov = Some ps)
             pages pieces
           /\ map ingest_pdf.text chunks = concat pieces
           /\ map ingest_pdf.page chunks
              = concat (map (fun ip => repeat (Z.of_nat (fst ip))
                                         (List.length (snd ip)))
                          (combine (seq 0 (List.length pieces)) pieces)))
        /\ map ingest_pdf.chunk_id chunks
           = map (fun i => doc_chunk_id (Z.of_nat i))
               (seq 0 (List.length chunks))
        /\ NoDup (map ingest_pdf.chunk_id chunks)).
Proof.
  unfold ingest_pdf.build_chunks. split; [apply build_chunks_from_none|].
  intros chunks Hr.
  apply (build_chunks_from_spec cs ov 0 0 pages [] chunks) in Hr
    as [pieces [new [HF [-> [Ht [Hp Hi]]]]]].
  simpl app. split; [now exists pieces|].
  assert (Hid : map ingest_pdf.chunk_id new
                = map (fun i => doc_chunk_id (Z.of_nat i))
                    (seq 0 (List.length new))).
  { rewrite Hi. apply map_ext. intros i. f_equal. }
  split; [exact Hid|]. rewrite Hid. apply nodup_map_seq.
  intros i j E. apply doc_chunk_id_inj in E. lia.
Qed.

(** ** The retriever *)

Lemma slice_prefix (s : string) (k : Z) :
  0 <= k -> exists rest : string, s = slice s 0 k ++ rest.
Proof.
  intros Hk. unfold slice, slice_index. cbv zeta.
  assert (Ek : (k <? 0) = false) by lia. rewrite Ek.
  change (0 <? 0) with false. cbv iota.
  replace (Z.min 0 (PyStr.len s)) with 0 by (unfold PyStr.len; lia).
  change (Z.to_nat 0) with 0%nat. apply substring_prefix.
Qed.

Lemma slice_short (s : string) (k : Z) :
  PyStr.len s <= k -> slice s 0 k = s.
Proof.
  intros Hk. unfold slice, slice_index. cbv zeta.
  assert (Ek : (k <? 0) = false) by (unfold PyStr.len in Hk; lia).
  rewrite Ek. change (0 <? 0) with false. cbv iota.
  replace (Z.min 0 (PyStr.len s)) with 0 by (unfold PyStr.len; lia).
  rewrite Z.min_r by lia. rewrite Z.sub_0_r. unfold PyStr.len.
  rewrite Nat2Z.id. apply substring_all.
Qed.

Section RetrieverMore.
Variable meta : list ingest_pdf.Chunk.
Variable search : string -> Z -> outcome (list Z).

Lemma citations_loop_returned (ids : list Z) (cits r : list Citation) :
  retriever.citations_loop meta ids cits = Returned r ->
  exists new : list Citation,
    r = (cits ++ new)%list
    /\ Forall2 (fun idx c =>
                  exists m : ingest_pdf.Chunk,
                    nth_error meta (Z.to_nat idx) = Some m
                    /\ c = mkCitation "NG12 PDF" (ingest_pdf.page m)
                             (ingest_pdf.chunk_id m)
                             (slice (ingest_pdf.text m) 0 500))
         (entry_ids ids) new.
Proof.
  revert cits. induction ids as [|idx ids IH]; intros cits.
  - intros [= <-]. exists []. rewrite app_nil_r. split; constructor.
  - cbn [retriever.citations_loop]. unfold entry_ids. cbn [filter].
    destruct (idx <? 0) eqn:Ei; cbn [negb]; [apply IH|].
    destruct (nth_error meta (Z.to_nat idx)) as [m|] eqn:Em;
      [|discriminate].
    intros Hr. apply IH in Hr as [new [-> HF]].
    eexists (_ :: new). split; [now rewrite <- app_assoc|].
    constructor; [|exact HF]. now exists m.
Qed.

Lemma citations_loop_raised (ids : list Z) (cits : list Citation)
  (ty msg : string) :
  retriever.citations_loop meta ids cits = Raised ty msg <->
  (exists idx : Z, In idx ids /\ Z.of_nat (List.length meta) <= idx)
  /\ ty = "IndexError" /\ msg = "list index out of range".
Proof.
  revert cits. induction ids as [|idx ids IH]; intros cits.
  - simpl. split; [discriminate | intros [[idx [[] _]] _]].
  - cbn [retriever.citations_loop].
    destruct (idx <? 0) eqn:Ei.
    + rewrite IH. split; intros [[i [Hin Hi]] Hm]; (split; [|exact Hm]).
      * exists i. split; [now right | exact Hi].
      * destruct Hin as [<-|Hin]; [lia | now exists i].
    + destruct (nth_error meta (Z.to_nat idx)) as [m|] eqn:Em.
      * assert (Hlt : (Z.to_nat idx < List.length meta)%nat)
          by (apply nth_error_Some; congruence).
        rewrite IH. split; intros [[i [Hin Hi]] Hm]; (split; [|exact Hm]).
        -- exists i. split; [now right | exact Hi].
        -- destruct Hin as [<-|Hin]; [lia | now exists i].
      * apply nth_error_None in Em. split.
        -- intros [= <- <-]. split; [|auto].
           exists idx. split; [now left | lia].
        -- intros [_ [-> ->]]. reflexivity.
Qed.

(** X18.  What the retriever returns is cut from the metadata, in the
    order of the neighbours: one citation for each id that is not
    negative (the ids FAISS pads a short row with are skipped), with the
    page and chunk id of the entry, the source NG12 PDF, and as excerpt
    the first 500 characters of the entry's text (the whole text when it
    has no more).  The retriever raises exactly when the search raises
    (the same exception) or an id lies beyond the metadata (an
    [IndexError]). *)
Theorem retrieve_cuts_excerpts_from_meta (query : string) (top_k : Z) :
  (forall cits : list Citation,
     retriever.retrieve meta search query top_k = Returned cits ->
     exists ids : list Z,
       search query top_k = Returned ids
       /\ Forall2 (fun idx c =>
                     exists m : ingest_pdf.Chunk,
                       nth_error meta (Z.to_nat idx) = Some m
                       /\ source c = "NG12 PDF"
                       /\ page c = ingest_pdf.page m
                       /\ chunk_id c = ingest_pdf.chunk_id m
                       /\ PyStr.len (excerpt c)
                          = Z.min 500 (PyStr.len (ingest_pdf.text m))
                       /\ (exists rest : string,
                             ingest_pdf.text m = excerpt c ++ rest)
                       /\ (PyStr.len (ingest_pdf.text m) <= 500 ->
                           excerpt c = ingest_pdf.text m))
            (entry_ids ids) cits)
  /\ (forall ty msg : string,
        retriever.retrieve meta search query top_k = Raised ty msg <->
        search query top_k = Raised ty msg
        \/ exists ids : list Z,
             search query top_k = Returned ids
             /\ (exists idx : Z,
                   In idx ids /\ Z.of_nat (List.length meta) <= idx)
             /\ ty = "IndexError" /\ msg = "list index out of range").
Proof.
  unfold retriever.retrieve. split.
  - intros cits Hr.
    destruct (search query top_k) as [ids|ty msg]; [|discriminate].
    exists ids. split; [reflexivity|].
    apply citations_loop_returned in Hr as [new [-> HF]]. simpl app.
    eapply Forall2_impl; [|exact HF].
    intros idx c [m [Hm ->]]. exists m. cbn [source page chunk_id excerpt].
    repeat split; try assumption.
    + now apply slice_prefix_length.
    + now apply slice_prefix.
    + apply slice_short.
  - intros ty msg.
    destruct (search query top_k) as [ids|ty' msg'].
    + rewrite citations_loop_raised. split.
      * intros Hx. right. now exists ids.
      * intros [Hx|[ids' [[= <-] Hx]]]; [discriminate | exact Hx].
    + split.
      * intros [= <- <-]. now left.
      * intros [[= <- <-]|[ids [Hx _]]]; [reflexivity | discriminate].
Qed.
End RetrieverMore.

(** ** What the overlap is for *)

Lemma strip_fix_parts (w : string) :
  PyStr.strip w = w -> w <> "" ->
  PyStr.rstrip w = w
  /\ exists c r, w = String c r /\ PyStr.isspace c = false.
Proof.
  intros Hw Hne. destruct w as [|c r]; [congruence|].
  assert (Hc : PyStr.isspace c = false).
  { destruct (PyStr.isspace c) eqn:Hc; [|reflexivity].
    unfold PyStr.strip in Hw. simpl in Hw. rewrite Hc in Hw.
    pose proof (rstrip_length (PyStr.lstrip r)) as H1.
    pose proof (lstrip_length r) as H2.
    rewrite Hw in H1. cbn [String.length] in H1. lia. }
  split; [|now exists c, r].
  unfold PyStr.strip in Hw. simpl in Hw. now rewrite Hc in Hw.
Qed.

Lemma rstrip_app_nonempty (a j : string) :
  PyStr.rstrip j <> "" -> PyStr.rstrip (a ++ j) = a ++ PyStr.rstrip j.
Proof.
  intros Hj. induction a as [|c a IH]; [reflexivity|].
  change (String c a ++ j) with (String c (a ++ j)).
  rewrite rstrip_cons_nonempty; rewrite IH; [reflexivity|].
  destruct a; [exact Hj | discriminate].
Qed.

Lemma rstrip_fix_app (w v : string) :
  PyStr.rstrip w = w -> w <> "" ->
  PyStr.rstrip (w ++ v) = w ++ PyStr.rstrip v.
Proof.
  induction w as [|c w IH]; [congruence|]. intros Hw _.
  change (String c w ++ v) with (String c (w ++ v)).
  destruct w as [|d w].
  - simpl append. apply rstrip_cons_nonspace.
    simpl in Hw. destruct (PyStr.isspace c); [discriminate | reflexivity].
  - assert (Hw' : PyStr.rstrip (String d w) = String d w).
    { change (PyStr.rstrip (String c (String d w)))
        with (match PyStr.rstrip (String d w) with
              | EmptyString =>
                  if PyStr.isspace c then EmptyString
                  else String c EmptyString
              | r => String c r
              end) in Hw.
      destruct (PyStr.rstrip (String d w)) as [|e r].
      - destruct (PyStr.isspace c); discriminate.
      - injection Hw as -> ->. reflexivity. }
    rewrite rstrip_cons_nonempty; rewrite (IH Hw') by discriminate;
      [reflexivity | discriminate].
Qed.

Lemma lstrip_keeps (u w v : string) (c : ascii) (r : string) :
  w = String c r -> PyStr.isspace c = false ->
  exists u', PyStr.lstrip (u ++ w ++ v) = u' ++ w ++ v.
Proof.
  intros -> Hc. induction u as [|x u IH].
  - exists "". simpl. now rewrite Hc.
  - simpl. destruct (PyStr.isspace x); [exact IH|].
    now exists (String x u).
Qed.

(** a text without white space at its ends that occurs in a text occurs
    in the stripped text *)
Lemma occurs_in_strip (w t : string) :
  occurs w t -> w <> "" -> PyStr.strip w = w -> occurs w (PyStr.strip t).
Proof.
  intros [u [v ->]] Hne Hw.
  destruct (strip_fix_parts w Hw Hne) as [Hr [c [r [E Hc]]]].
  destruct (lstrip_keeps u w v c r E Hc) as [u' Hl].
  unfold PyStr.strip. rewrite Hl.
  assert (Hwv : PyStr.rstrip (w ++ v) = w ++ PyStr.rstrip v)
    by now apply rstrip_fix_app.
  rewrite rstrip_app_nonempty; rewrite Hwv.
  - now exists u', (PyStr.rstrip v).
  - rewrite E. discriminate.
Qed.

Lemma substring_app_skip (x r : string) (m : nat) :
  substring (String.length x) m (x ++ r) = substring 0 m r.
Proof. induction x as [|c x IH]; [reflexivity | exact IH]. Qed.

Lemma substring_app_take (p q : string) (m : nat) :
  (String.length p <= m)%nat ->
  substring 0 m (p ++ q) = p ++ substring 0 (m - String.length p) q.
Proof.
  revert m. induction p as [|c p IH]; intros m Hm.
  - simpl. now rewrite Nat.sub_0_r.
  - destruct m as [|m]; [simpl in Hm; lia|].
    simpl in *. rewrite IH by lia. reflexivity.
Qed.

(** an occurrence that lies inside a window is in the slice *)
Lemma occurs_in_window (x w y : string) (s e : Z) :
  0 <= s <= PyStr.len x ->
  PyStr.len x + PyStr.len w <= e <= PyStr.len (x ++ w ++ y) ->
  occurs w (slice (x ++ w ++ y) s e).
Proof.
  intros Hs He.
  assert (Hlen : PyStr.len (x ++ w ++ y)
                 = PyStr.len x + PyStr.len w + PyStr.len y).
  { unfold PyStr.len. rewrite !string_app_length. lia. }
  rewrite slice_window by (unfold PyStr.len in *; lia).
  destruct (substring_prefix (Z.to_nat s) x) as [x2 Hx].
  assert (Hl1 : String.length (substring 0 (Z.to_nat s) x) = Z.to_nat s)
    by (apply substring_prefix_length; unfold PyStr.len in *; lia).
  set (x1 := substring 0 (Z.to_nat s) x) in *.
  assert (Hl2 : (String.length x = Z.to_nat s + String.length x2)%nat)
    by (rewrite Hx at 1; rewrite string_app_length; lia).
  rewrite Hx, string_app_assoc. rewrite <- Hl1 at 1.
  rewrite substring_app_skip.
  rewrite substring_app_take by (unfold PyStr.len in *; lia).
  rewrite substring_app_take by (unfold PyStr.len in *; lia).
  now exists x2, (substring 0
                    (Z.to_nat (e - s) - String.length x2 - String.length w)
                    y).
Qed.

Lemma chunk_loop_covers (fuel : nat) (x w y : string)
  (page cs ov start idx : Z) (chunks r : list chunking.Chunk) :
  0 <= ov < cs -> 0 <= start <= PyStr.len x ->
  w <> "" -> PyStr.strip w = w -> PyStr.len w <= ov + 1 ->
  chunking.chunk_loop fuel (x ++ w ++ y) page cs ov start idx chunks
  = Some r ->
  exists c : chunking.Chunk, In c r /\ occurs w (chunking.text c).
Proof.
  intros Hov Hs Hne Hw Hlw. revert start idx chunks Hs.
  induction fuel as [|fuel IH]; intros start idx chunks Hs; [discriminate|].
  set (clean := x ++ w ++ y).
  assert (Hlen : PyStr.len clean
                 = PyStr.len x + PyStr.len w + PyStr.len y).
  { unfold clean, PyStr.len. rewrite !string_app_length. lia. }
  pose proof (proj2 (len_pos_iff w) Hne) as Hwpos.
  assert (Hy : 0 <= PyStr.len y) by (unfold PyStr.len; lia).
  rewrite chunk_loop_S. cbv zeta.
  assert (E1 : (start <? PyStr.len clean) = true) by lia.
  rewrite E1.
  set (e := Z.min (PyStr.len clean) (start + cs)).
  destruct (Z_le_gt_dec (PyStr.len x + PyStr.len w) e) as [Hin|Hout].
  - (* the occurrence lies in this window *)
    assert (Ho : occurs w (PyStr.strip (slice clean start e))).
    { apply occurs_in_strip; try assumption.
      apply occurs_in_window; [lia | unfold e; fold clean; lia]. }
    assert (Et : String.eqb (PyStr.strip (slice clean start e)) "" = false).
    { apply String.eqb_neq. intros Hx. rewrite Hx in Ho.
      destruct Ho as [a [b Hab]]. destruct a; [|discriminate].
      destruct w; [congruence | discriminate]. }
    rewrite Et.
    set (c := chunking.mkChunk (ng12_chunk_id page idx) page
                (PyStr.strip (slice clean start e))).
    assert (Hc : forall r0 new, r0 = ((chunks ++ [c]) ++ new)%list ->
                 exists c0, In c0 r0 /\ occurs w (chunking.text c0)).
    { intros r0 new ->. exists c. split; [|exact Ho].
      apply in_or_app. left. apply in_or_app. right. now left. }
    destruct (e =? PyStr.len clean).
    + intros [= <-]. apply (Hc _ []). now rewrite app_nil_r.
    + intros Hr. apply chunk_loop_inv in Hr as [new [-> _]]; [|lia].
      now apply (Hc _ new).
  - (* the occurrence starts at or after the next window *)
    assert (E2 : (e =? PyStr.len clean) = false) by (unfold e in *; lia).
    rewrite E2. apply IH. unfold e in *. lia.
Qed.

(** X20.  With an overlap below the chunk size and not negative, the
    chunker ends and loses nothing short: every stretch of the normalized
    text that has no white space at its ends and at most overlap + 1
    characters lies whole in the text of some chunk.  So every word of at
    most overlap + 1 characters is in a chunk uncut, and with no overlap
    every character that is not a space is in a chunk. *)
Theorem simple_chunk_text_covers (text : string) (page cs ov : Z) :
  0 <= ov < cs ->
  exists chunks : list chunking.Chunk,
    chunking.simple_chunk_text text page cs ov = Some chunks
    /\ forall w : string,
         occurs w (clean_text text) ->
         w <> "" -> PyStr.strip w = w -> PyStr.len w <= ov + 1 ->
         exists c : chunking.Chunk,
           In c chunks /\ occurs w (chunking.text c).
Proof.
  intros Hov.
  destruct (chunking.simple_chunk_text text page cs ov) as [chunks|] eqn:Hr.
  - exists chunks. split; [reflexivity|].
    intros w [x [y Hx]] Hne Hw Hlw. revert Hr.
    unfold chunking.simple_chunk_text. fold (clean_text text). cbv zeta.
    destruct (String.eqb (clean_text text) "") eqn:Ec.
    + apply String.eqb_eq in Ec. rewrite Ec in Hx.
      destruct x; [|discriminate]. destruct w; [congruence | discriminate].
    + rewrite Hx. apply chunk_loop_covers; try assumption.
      unfold PyStr.len. lia.
  - exfalso. revert Hr.
    unfold chunking.simple_chunk_text. fold (clean_text text). cbv zeta.
    destruct (String.eqb (clean_text text) ""); [discriminate|].
    apply chunk_loop_ends; [lia | lia | unfold PyStr.len; lia].
Qed.

(** ** The further properties at example data *)

Lemma assess_response_well_formed_witness :
  snd (@risk_assessor.assess_patient Examples.runtime Examples.env
         (Examples.failing_model [Examples.investigation_citation])
         Examples.cough_patient)
  = Returned
      (mkAssessResponse "PT-202" "urgent_investigation"
         "NG12 excerpt indicates urgent investigation."
         "Offer urgent investigation."
         [Examples.investigation_citation])
  /\ In "urgent_investigation" canonical_categories.
Proof.
  assert (E : snd (@risk_assessor.assess_patient Examples.runtime
                     Examples.env
                     (Examples.failing_model
                        [Examples.investigation_citation])
                     Examples.cough_patient)
              = Returned
                  (mkAssessResponse "PT-202" "urgent_investigation"
                     "NG12 excerpt indicates urgent investigation."
                     "Offer urgent investigation."
                     [Examples.investigation_citation]))
    by (vm_compute; reflexivity).
  split; [exact E|].
  exact (proj1 (@assess_response_well_formed Examples.runtime Examples.env
                  (Examples.failing_model [Examples.investigation_citation])
                  Examples.cough_patient _ E)).
Defined.

(** one of the two candidates names fever, which the patient does not
    have: the other one is the citation *)
Lemma chat_answer_grounded_best_first_witness :
  snd (@chat_agent.answer_question Examples.runtime Examples.env
         (Examples.answering_model
            [Examples.fever_citation; Examples.plain_citation]
            Samples.chat_answer_text)
         Examples.cough_patient "What should I do next?")
  = Returned ("Offer safety netting.", [Examples.plain_citation])
  /\ "Offer safety netting." <> ""
  /\ (List.length [Examples.plain_citation] <= 3)%nat.
Proof.
  assert (E : snd (@chat_agent.answer_question Examples.runtime Examples.env
                     (Examples.answering_model
                        [Examples.fever_citation; Examples.plain_citation]
                        Samples.chat_answer_text)
                     Examples.cough_patient "What should I do next?")
              = Returned ("Offer safety netting.",
                          [Examples.plain_citation]))
    by (vm_compute; reflexivity).
  split; [exact E|].
  destruct (@chat_answer_grounded_best_first Examples.runtime Examples.env
              (Examples.answering_model
                 [Examples.fever_citation; Examples.plain_citation]
                 Samples.chat_answer_text)
              Examples.cough_patient "What should I do next?" _ _ E)
    as [H1 [H2 _]].
  split; [exact H1 | exact H2].
Defined.

(** a chat request for a patient of the example file: the exchange is
    recorded *)
Lemma chat_endpoint_records_exchange_witness :
  let message := "What should I do next?" in
  let resp :=
    models.mkChatResponse "PT-202" "Offer safety netting."
      [Examples.plain_citation]
      [models.mkMessage "user" message;
       models.mkMessage "assistant" "Offer safety netting."] in
  @main.chat Examples.runtime Examples.env
    (Examples.answering_model
       [Examples.fever_citation; Examples.plain_citation]
       Samples.chat_answer_text)
    (Some Samples.patients_text) Samples.record_of [] "PT-202" message
  = ([("PT-202", models.history resp)],
     [EvRetrieve (chat_agent.chat_query Examples.cough_patient message) 10;
      EvGenerate "gemini-2.0-flash-001"
        (@chat_agent.chat_prompt Examples.runtime Examples.cough_patient
           message [Examples.plain_citation])],
     main.OK resp)
  /\ models.history resp
     = (session_store.get_history [] "PT-202"
        ++ [models.mkMessage "user" message;
            models.mkMessage "assistant" (models.answer resp)])%list.
Proof.
  cbv zeta.
  assert (E : @main.chat Examples.runtime Examples.env
                (Examples.answering_model
                   [Examples.fever_citation; Examples.plain_citation]
                   Samples.chat_answer_text)
                (Some Samples.patients_text) Samples.record_of []
                "PT-202" "What should I do next?"
              = ([("PT-202",
                   [models.mkMessage "user" "What should I do next?";
                    models.mkMessage "assistant" "Offer safety netting."])],
                 [EvRetrieve
                    (chat_agent.chat_query Examples.cough_patient
                       "What should I do next?") 10;
                  EvGenerate "gemini-2.0-flash-001"
                    (@chat_agent.chat_prompt Examples.runtime
                       Examples.cough_patient "What should I do next?"
                       [Examples.plain_citation])],
                 main.OK
                   (models.mkChatResponse "PT-202" "Offer safety netting."
                      [Examples.plain_citation]
                      [models.mkMessage "user" "What should I do next?";
                       models.mkMessage "assistant"
                         "Offer safety netting."])))
    by (vm_compute; reflexivity).
  split; [exact E|].
  exact (proj1 (proj2 (proj2
           (@chat_endpoint_records_exchange Examples.runtime Examples.env
              (Examples.answering_model
                 [Examples.fever_citation; Examples.plain_citation]
                 Samples.chat_answer_text)
              (Some Samples.patients_text) Samples.record_of
              [] _ "PT-202" "What should I do next?" _ _ E)))).
Defined.

(** the example file is what [json.dumps] writes for its two records, and
    a line feed; the second record is found under its id *)
Lemma get_patient_reads_dumped_file_witness :
  blank "" = true /\ blank nl = true
  /\ patient_lookup.get_patient
       (Some ("" ++ @Json.dumps Examples.runtime
                      (JArr [JObj Samples.cough_record;
                             JObj Samples.bare_record]) ++ nl))
       "PT-303"
     = Some Samples.bare_record.
Proof.
  split; [reflexivity|]. split; [reflexivity|].
  apply (proj2 (proj2
           (@get_patient_reads_dumped_file Examples.runtime "PT-303" "" nl
              eq_refl eq_refl))).
  - reflexivity.
  - simpl. tauto.
  - reflexivity.
  - intros q0 [Hq|[Hq|[]]] Hid; injection Hq as <-;
      [vm_compute in Hid; discriminate | reflexivity].
Defined.

(** chunk size and overlap are equal, and the text is longer: the
    chunker does not end *)
Lemma simple_chunk_text_ends_iff_witness :
  chunking.simple_chunk_text Samples.page_text 3 5 5 = None.
Proof.
  apply (proj2 (proj1 (simple_chunk_text_ends_iff Samples.page_text 3 5 5))).
  split; [discriminate|]. split; [lia | vm_compute; reflexivity].
Defined.

Lemma simple_chunk_text_chunks_witness :
  chunking.simple_chunk_text Samples.page_text 3 11 4
  = Some [chunking.mkChunk "ng12_0003_00" 3 "alpha beta";
          chunking.mkChunk "ng12_0003_01" 3 "eta gamma d";
          chunking.mkChunk "ng12_0003_02" 3 "ma delta"]
  /\ NoDup ["ng12_0003_00"; "ng12_0003_01"; "ng12_0003_02"].
Proof.
  assert (E : chunking.simple_chunk_text Samples.page_text 3 11 4
              = Some [chunking.mkChunk "ng12_0003_00" 3 "alpha beta";
                      chunking.mkChunk "ng12_0003_01" 3 "eta gamma d";
                      chunking.mkChunk "ng12_0003_02" 3 "ma delta"])
    by (vm_compute; reflexivity).
  split; [exact E|].
  exact (proj1 (proj2 (proj2
           (simple_chunk_text_chunks Samples.page_text 3 11 4 _ E)))).
Defined.

(** the word gamma has overlap + 1 characters: it is whole in a chunk *)
Lemma simple_chunk_text_covers_witness :
  0 <= 4 < 11
  /\ exists chunks : list chunking.Chunk,
       chunking.simple_chunk_text Samples.page_text 3 11 4 = Some chunks
       /\ exists c : chunking.Chunk,
            In c chunks /\ occurs "gamma" (chunking.text c).
Proof.
  assert (H : 0 <= 4 < 11) by lia. split; [exact H|].
  destruct (simple_chunk_text_covers Samples.page_text 3 11 4 H)
    as [chunks [E Hw]].
  exists chunks. split; [exact E|]. apply Hw.
  - apply contains_occurs. vm_compute. reflexivity.
  - discriminate.
  - reflexivity.
  - vm_compute. discriminate.
Defined.
